(** * Gelar-Rasa: launch registry, source-of-volume attribution,
      portfolio impact and forecast ensembling

    A shallow embedding of the Phase 4 cannibalization pipeline
    ([new_launch.py], [sov_analysis.py], [portfolio_impact.py]) and of the
    forecasting code of Phase 3.1 ([time_series_forecast.py]).

    Numbers.  Revenue columns and every derived figure are Python floats in
    the source; they are embedded as exact rationals [Q], so equalities
    between figures are stated with [==].  Rounding, infinities produced by
    a float division and NaN are outside the embedding.

    Exceptions.  A Python call that can raise returns a [Py.result]; the
    only exceptions the modelled paths raise are [KeyError] (a column label
    that a table does not have) and [ValueError] (shape mismatch). *)

From Stdlib Require Import QArith ZArith List String Bool Lia Lqa Permutation.
From Stdlib Require Import Qabs Qminmax Sorted.
Import ListNotations.

Local Open Scope string_scope.
Local Open Scope list_scope.
Local Open Scope Q_scope.

(* ================================================================== *)
(** * Python values: exceptions and insertion-ordered dictionaries     *)
(* ================================================================== *)

Module Py.

Inductive exn : Type :=
| KeyError (key : string)
| ValueError (msg : string).

Inductive result (A : Type) : Type :=
| Ok (a : A)
| Raise (e : exn).

Arguments Ok {A} a.
Arguments Raise {A} e.

Definition bind {A B : Type} (m : result A) (k : A -> result B) : result B :=
  match m with
  | Ok a => k a
  | Raise e => Raise e
  end.

Definition raises {A : Type} (m : result A) : Prop :=
  exists e, m = Raise e.

(** A [dict] with string keys.  Python dictionaries iterate in insertion
    order and an assignment to an existing key keeps the key's place. *)
Section Dict.
Context {V : Type}.

Definition dict := list (string * V).

Fixpoint get (k : string) (d : dict) : option V :=
  match d with
  | [] => None
  | (k', v) :: d' => if String.eqb k k' then Some v else get k d'
  end.

Definition mem (k : string) (d : dict) : bool :=
  match get k d with Some _ => true | None => false end.

Fixpoint set (k : string) (v : V) (d : dict) : dict :=
  match d with
  | [] => [(k, v)]
  | (k', v') :: d' =>
      if String.eqb k k' then (k, v) :: d' else (k', v') :: set k v d'
  end.

Definition items (d : dict) : list (string * V) := d.
End Dict.

Arguments dict V : clear implicits.

End Py.

Import Py.

Notation "x <- m ;; k" := (Py.bind m (fun x => k))
  (at level 61, m at next level, right associativity).

(* ================================================================== *)
(** * The slice of pandas and numpy that the analysers use             *)
(* ================================================================== *)

Module Pd.

(** ** Timestamps

    The loader parses the [date] and [launch_date] columns of the CSV
    files with [pd.to_datetime]; they hold calendar dates, so a timestamp
    is embedded at day resolution. *)

Record Timestamp : Type := mkTs { year : Z; month : Z; day : Z }.

Definition ts_compare (a b : Timestamp) : comparison :=
  match Z.compare (year a) (year b) with
  | Eq => match Z.compare (month a) (month b) with
          | Eq => Z.compare (day a) (day b)
          | c => c
          end
  | c => c
  end.

Definition ts_ltb (a b : Timestamp) : bool :=
  match ts_compare a b with Lt => true | _ => false end.

(** [a >= b] on timestamps. *)
Definition ts_geb (a b : Timestamp) : bool := negb (ts_ltb a b).

Definition is_leap (y : Z) : bool :=
  ((y mod 4 =? 0) && (negb (y mod 100 =? 0) || (y mod 400 =? 0)))%Z.

Definition days_in_month (y m : Z) : Z :=
  (if m =? 2 then (if is_leap y then 29 else 28)
   else if (m =? 4) || (m =? 6) || (m =? 9) || (m =? 11) then 30
   else 31)%Z.

(** [t + pd.DateOffset(months=k)] ([k] may be negative): the month is
    shifted and the day is clipped to the length of the target month. *)
Definition DateOffset_months (t : Timestamp) (k : Z) : Timestamp :=
  let idx := (year t * 12 + (month t - 1) + k)%Z in
  let y := (idx / 12)%Z in
  let m := (idx mod 12 + 1)%Z in
  mkTs y m (Z.min (day t) (days_in_month y m)).

(** [.dt.to_period('M')]. *)
Definition Period : Type := (Z * Z)%type.

Definition to_period_M (t : Timestamp) : Period := (year t, month t).

Definition period_eqb (p q : Period) : bool :=
  ((fst p =? fst q) && (snd p =? snd q))%Z.

(** [Series.max()] of a timestamp column; [None] is [NaT], the value on
    an empty column.  A comparison with [NaT] is false. *)
Definition ts_max (l : list Timestamp) : option Timestamp :=
  fold_left
    (fun acc t =>
       match acc with
       | None => Some t
       | Some m => Some (if ts_ltb m t then t else m)
       end)
    l None.

Definition ts_geb_opt (a : Timestamp) (b : option Timestamp) : bool :=
  match b with
  | Some b' => ts_geb a b'
  | None => false
  end.

(** ** Numeric columns *)

(** [Series.sum()]; the sum of an empty column is 0. *)
Fixpoint Qsum (l : list Q) : Q :=
  match l with
  | [] => 0
  | x :: l' => x + Qsum l'
  end.

(** [np.mean]. *)
Definition Qmean (l : list Q) : Q := Qsum l / inject_Z (Z.of_nat (List.length l)).

(** ** Keys and groups *)

Section Groups.
Context {K : Type}.
Variables (eqb leb : K -> K -> bool).

(** [Series.unique()]: distinct values in order of first appearance. *)
Fixpoint unique_by (l : list K) : list K :=
  match l with
  | [] => []
  | x :: l' => x :: filter (fun y => negb (eqb x y)) (unique_by l')
  end.

Fixpoint insert_key (k : K) (l : list K) : list K :=
  match l with
  | [] => [k]
  | k' :: l' => if leb k k' then k :: l else k' :: insert_key k l'
  end.

(** The index of a [groupby]: the distinct keys, sorted. *)
Definition group_keys (l : list K) : list K :=
  fold_right insert_key [] (unique_by l).

(** [rows.groupby(key)[val].sum()]: one entry per key that occurs, the
    sum of [val] over the rows of that key. *)
Definition groupby_sum {R : Type} (key : R -> K) (val : R -> Q)
    (l : list R) : list (K * Q) :=
  map (fun k => (k, Qsum (map val (filter (fun r => eqb (key r) k) l))))
      (group_keys (map key l)).
End Groups.

Definition unique : list string -> list string := unique_by String.eqb.

Definition period_leb (p q : Period) : bool :=
  ((fst p <? fst q) || ((fst p =? fst q) && (snd p <=? snd q)))%Z.

(** ** Data frames

    A frame is its column labels and its rows.  Rows are typed records;
    [columns] matters where the source asks for a label: a frame built
    from an empty list of records has no columns at all.

    A read [row['label']] inside a loop over the rows is the field of the
    record, and a value is never missing (no NaN): the embedding covers the
    tables that carry the columns their loops read.  On a table with rows
    that lacks such a column the source raises [KeyError] at the first
    read; a statement that a function returns therefore assumes, with
    [has_column], every column that the function reads from a row. *)

Record DataFrame (R : Type) : Type := mkDF {
  columns : list string;
  rows : list R
}.

Arguments mkDF {R} columns rows.
Arguments columns {R} d.
Arguments rows {R} d.

(** [pd.DataFrame()]. *)
Definition empty_frame {R : Type} : DataFrame R := mkDF [] [].

(** [pd.DataFrame(records)] for a list of dictionaries that all carry the
    keys [labels]. *)
Definition from_records {R : Type} (labels : list string) (records : list R)
  : DataFrame R :=
  match records with
  | [] => empty_frame
  | _ => mkDF labels records
  end.

Definition has_column {R : Type} (label : string) (d : DataFrame R) : bool :=
  existsb (String.eqb label) (columns d).

(** [len(df)]. *)
Definition len {R : Type} (d : DataFrame R) : nat := List.length (rows d).

(** [df[mask]]: rows selected by a boolean column, labels kept. *)
Definition select {R : Type} (p : R -> bool) (d : DataFrame R) : DataFrame R :=
  mkDF (columns d) (filter p (rows d)).

(** [df.head(n)]. *)
Definition head {R : Type} (n : nat) (d : DataFrame R) : DataFrame R :=
  mkDF (columns d) (firstn n (rows d)).

(** [df[label]]: the column, or [KeyError]. *)
Definition column {R A : Type} (label : string) (f : R -> A) (d : DataFrame R)
  : result (list A) :=
  if has_column label d then Ok (map f (rows d)) else Raise (KeyError label).

Section Sorting.
Context {R : Type}.
Variable before : R -> R -> bool.

Fixpoint insert_row (x : R) (l : list R) : list R :=
  match l with
  | [] => [x]
  | y :: l' => if before y x then y :: insert_row x l' else x :: l
  end.

Definition sort_rows (l : list R) : list R := fold_right insert_row [] l.
End Sorting.

(** [df.sort_values(label, ascending=False)] on a numeric column.  The
    label is looked up first and a missing one raises [KeyError]; the
    order among equal keys is not relied upon. *)
Definition sort_values_desc {R : Type} (label : string) (key : R -> Q)
    (d : DataFrame R) : result (DataFrame R) :=
  if has_column label d
  then Ok (mkDF (columns d)
             (sort_rows (fun y x => Qle_bool (key x) (key y)) (rows d)))
  else Raise (KeyError label).

Definition sort_dates_desc {R : Type} (label : string) (key : R -> Timestamp)
    (d : DataFrame R) : result (DataFrame R) :=
  if has_column label d
  then Ok (mkDF (columns d)
             (sort_rows (fun y x => ts_geb (key y) (key x)) (rows d)))
  else Raise (KeyError label).

End Pd.

Import Pd.

(** A [for] loop that appends to a list: [body x = None] is [continue],
    [body x = Some r] is [out.append(r)]. *)
Definition collect {A B : Type} (body : A -> option B) (l : list A) : list B :=
  fold_left
    (fun out x => match body x with Some r => out ++ [r] | None => out end)
    l [].

(* ================================================================== *)
(** * Tables                                                           *)
(* ================================================================== *)

(** A row of the integrated sales table (sales merged with the product
    master on [product_id]).  Only the columns that Phase 4 reads are
    kept. *)
Module Txn.
Record row : Type := mk {
  transaction_id : string;
  product_id : string;
  date : Timestamp;
  units_sold : Q;
  revenue : Q;
  type : string;
  brand : string
}.
End Txn.

(** A row of the product master. *)
Module Product.
Record row : Type := mk {
  product_id : string;
  product_name : string;
  brand : string;
  type : string;
  launch_date : Timestamp;
  base_price : Q
}.

Definition labels : list string :=
  ["product_id"; "product_name"; "brand"; "type"; "launch_date"; "base_price"].
End Product.

(** A row of [launch_performance]; [top_launches] is a prefix of that
    table and is the [new_launches] argument of the two later stages. *)
Module Launch.
Record row : Type := mk {
  product_id : string;
  product_name : string;
  brand : string;
  type : string;
  launch_date : Timestamp;
  total_revenue : Q;
  total_units : Q;
  total_transactions : nat;
  growth_rate_pct : Q;
  market_share_pct : Q;
  performance_score : Q
}.

Definition labels : list string :=
  ["product_id"; "product_name"; "brand"; "type"; "launch_date";
   "total_revenue"; "total_units"; "total_transactions";
   "growth_rate_pct"; "market_share_pct"; "performance_score"].
End Launch.

(** [start <= t < stop], the shape of every window mask in the source. *)
Definition in_window (start stop t : Timestamp) : bool :=
  ts_geb t start && ts_ltb t stop.

(** [df[mask]['revenue'].sum()]. *)
Definition revenue_where (p : Txn.row -> bool) (df : list Txn.row) : Q :=
  Qsum (map Txn.revenue (filter p df)).

(* ================================================================== *)
(** * Step 4.1: new_launch.py                                          *)
(* ================================================================== *)

Module NewLaunch.

Module Target.
Record row : Type := mk {
  product_id : string;
  product_name : string;
  launch_date : Timestamp
}.
End Target.

Record Targets : Type := mkTargets {
  new_product : string;
  targets : list Target.row
}.

Record Results : Type := mkResults {
  new_launches : DataFrame Product.row;
  launch_performance : DataFrame Launch.row;
  top_launches : DataFrame Launch.row;
  cannibalization_targets : dict Targets
}.

Section Registry.
Variable products_df : DataFrame Product.row.
Variable df : list Txn.row.

Definition _identify_new_launches (months : Z)
  : result (DataFrame Product.row) :=
  let latest_date := ts_max (map Txn.date df) in
  let cutoff_date :=
    option_map (fun t => DateOffset_months t (- months)) latest_date in
  _ <- column "launch_date" Product.launch_date products_df ;;
  let new_launches :=
    select (fun p => ts_geb_opt (Product.launch_date p) cutoff_date)
           products_df in
  sort_dates_desc "launch_date" Product.launch_date new_launches.

(** The body of the loop of [_calculate_launch_performance]. *)
Definition performance_of (product : Product.row) : option Launch.row :=
  let product_id := Product.product_id product in
  let launch_date := Product.launch_date product in
  let product_sales :=
    filter (fun t => String.eqb (Txn.product_id t) product_id) df in
  let post_launch_sales :=
    filter (fun t => ts_geb (Txn.date t) launch_date) product_sales in
  if (List.length post_launch_sales =? 0)%nat then None
  else
    let total_revenue := Qsum (map Txn.revenue post_launch_sales) in
    let total_units := Qsum (map Txn.units_sold post_launch_sales) in
    let total_transactions :=
      List.length (unique (map Txn.transaction_id post_launch_sales)) in
    let first_3m_end := DateOffset_months launch_date 3 in
    let next_3m_end := DateOffset_months launch_date 6 in
    let first_3m_revenue :=
      revenue_where (fun t => in_window launch_date first_3m_end (Txn.date t))
                    post_launch_sales in
    let next_3m_revenue :=
      revenue_where (fun t => in_window first_3m_end next_3m_end (Txn.date t))
                    post_launch_sales in
    let growth_rate :=
      if Qlt_le_dec 0 first_3m_revenue
      then (next_3m_revenue - first_3m_revenue) / first_3m_revenue * 100
      else 0 in
    let total_market_revenue :=
      revenue_where (fun t => ts_geb (Txn.date t) launch_date) df in
    let market_share :=
      if Qlt_le_dec 0 total_market_revenue
      then total_revenue / total_market_revenue * 100
      else 0 in
    Some (Launch.mk product_id (Product.product_name product)
            (Product.brand product) (Product.type product) launch_date
            total_revenue total_units total_transactions
            growth_rate market_share
            (total_revenue * (1 + growth_rate / 100))).

Definition _calculate_launch_performance
    (new_launches : DataFrame Product.row) : result (DataFrame Launch.row) :=
  let launch_performance := collect performance_of (rows new_launches) in
  let performance_df := from_records Launch.labels launch_performance in
  sort_values_desc "performance_score" Launch.performance_score
                   performance_df.

Definition _select_top_launches (launch_performance : DataFrame Launch.row)
    (top_n : nat) : DataFrame Launch.row :=
  if (len launch_performance =? 0)%nat then empty_frame
  else head top_n launch_performance.

Definition targets_of (launch : Launch.row) : option (string * Targets) :=
  let existing_products :=
    filter (fun p =>
              String.eqb (Product.type p) (Launch.type launch)
              && String.eqb (Product.brand p) (Launch.brand launch)
              && ts_ltb (Product.launch_date p) (Launch.launch_date launch))
           (rows products_df) in
  if (0 <? List.length existing_products)%nat
  then Some (Launch.product_id launch,
             mkTargets (Launch.product_name launch)
               (map (fun p => Target.mk (Product.product_id p)
                                (Product.product_name p)
                                (Product.launch_date p))
                    existing_products))
  else None.

Definition _identify_cannibalization_targets
    (top_launches : DataFrame Launch.row) : dict Targets :=
  fold_left
    (fun d launch =>
       match targets_of launch with
       | Some (k, v) => Py.set k v d
       | None => d
       end)
    (rows top_launches) [].

(** [execute(months, top_n)]; [top_n] is a count. *)
Definition execute (months : Z) (top_n : nat) : result Results :=
  new_launches <- _identify_new_launches months ;;
  launch_performance <- _calculate_launch_performance new_launches ;;
  let top_launches := _select_top_launches launch_performance top_n in
  Ok (mkResults new_launches launch_performance top_launches
        (_identify_cannibalization_targets top_launches)).

End Registry.

End NewLaunch.

(* ================================================================== *)
(** * Step 4.2: sov_analysis.py                                        *)
(* ================================================================== *)

Module Cannibalized.
Record row : Type := mk {
  product_id : string;
  revenue_loss : Q;
  pct_change : Q
}.
End Cannibalized.

Module Breakdown.
Record t : Type := mk {
  cannibalization_pct : Q;
  competitor_pct : Q;
  expansion_pct : Q
}.
End Breakdown.

(** The value stored in [sov_by_launch] for one launch. *)
Module SovRecord.
Record t : Type := mk {
  new_product_id : string;
  new_product_name : string;
  launch_date : Timestamp;
  new_product_revenue : Q;
  new_product_units : Q;
  cannibalized_revenue : Q;
  cannibalized_products : list Cannibalized.row;
  competitor_loss : Q;
  market_expansion : Q;
  sov_breakdown : Breakdown.t
}.
End SovRecord.

Module BreakdownRow.
Record row : Type := mk {
  product_id : string;
  product_name : string;
  total_revenue : Q;
  cannibalization_pct : Q;
  competitor_pct : Q;
  expansion_pct : Q;
  cannibalization_revenue : Q;
  competitor_revenue : Q;
  expansion_revenue : Q
}.

Definition labels : list string :=
  ["product_id"; "product_name"; "total_revenue"; "cannibalization_pct";
   "competitor_pct"; "expansion_pct"; "cannibalization_revenue";
   "competitor_revenue"; "expansion_revenue"].
End BreakdownRow.

Module Test.
Record row : Type := mk {
  target_product_id : string;
  revenue_loss : Q;
  pct_change : Q;
  t_statistic : Q;
  p_value : Q;
  is_significant : bool
}.
End Test.

Module SOV.

Record Results : Type := mkResults {
  sov_by_launch : dict SovRecord.t;
  sov_breakdown : DataFrame BreakdownRow.row;
  significance_tests : dict (list Test.row)
}.

Section Analyzer.
Variable df : list Txn.row.
Variable new_launches : DataFrame Launch.row.

(** [scipy.stats.ttest_ind]: the statistic and the p-value of the two
    samples.  The numerical routine is not part of the repository. *)
Variable ttest_ind : list Q -> list Q -> Q * Q.

(** The loop over [pre_revenue.index]: the state is
    [(cannibalized_revenue, cannibalized_products)]. *)
Definition cannibalization_step (pre_revenue post_revenue : dict Q)
    (st : Q * list Cannibalized.row) (product_id : string)
  : Q * list Cannibalized.row :=
  match Py.get product_id post_revenue, Py.get product_id pre_revenue with
  | Some post, Some pre =>
      let revenue_change := post - pre in
      if Qlt_le_dec revenue_change 0
      then (fst st + Qabs revenue_change,
            snd st ++
            [Cannibalized.mk product_id (Qabs revenue_change)
               (if Qlt_le_dec 0 pre then revenue_change / pre * 100 else 0)])
      else st
  | _, _ => st
  end.

(** Sales of the same category and brand, the launch itself left out. *)
Definition existing_products (launch : Launch.row) : list Txn.row :=
  filter (fun t =>
            String.eqb (Txn.type t) (Launch.type launch)
            && String.eqb (Txn.brand t) (Launch.brand launch)
            && negb (String.eqb (Txn.product_id t) (Launch.product_id launch)))
         df.

Definition pre_revenue_of (window_months : Z) (launch : Launch.row) : dict Q :=
  let launch_date := Launch.launch_date launch in
  let pre_start := DateOffset_months launch_date (- window_months) in
  groupby_sum String.eqb String.leb Txn.product_id Txn.revenue
    (filter (fun t => in_window pre_start launch_date (Txn.date t))
            (existing_products launch)).

Definition post_revenue_of (window_months : Z) (launch : Launch.row) : dict Q :=
  let launch_date := Launch.launch_date launch in
  let post_end := DateOffset_months launch_date window_months in
  groupby_sum String.eqb String.leb Txn.product_id Txn.revenue
    (filter (fun t => in_window launch_date post_end (Txn.date t))
            (existing_products launch)).

(** The body of the loop of [_analyze_sov_by_launch]: the record stored
    under the launch's [product_id]. *)
Definition sov_of (window_months : Z) (launch : Launch.row) : SovRecord.t :=
  let new_product_id := Launch.product_id launch in
  let launch_date := Launch.launch_date launch in
  let product_type := Launch.type launch in
  let product_brand := Launch.brand launch in
  let pre_start := DateOffset_months launch_date (- window_months) in
  let pre_end := launch_date in
  let post_start := launch_date in
  let post_end := DateOffset_months launch_date window_months in
  let new_product_sales :=
    filter (fun t => String.eqb (Txn.product_id t) new_product_id
                     && in_window post_start post_end (Txn.date t)) df in
  let new_product_revenue := Qsum (map Txn.revenue new_product_sales) in
  let new_product_units := Qsum (map Txn.units_sold new_product_sales) in
  let pre_revenue := pre_revenue_of window_months launch in
  let post_revenue := post_revenue_of window_months launch in
  let '(cannibalized_revenue, cannibalized_products) :=
    fold_left (cannibalization_step pre_revenue post_revenue)
              (map fst pre_revenue) (0, []) in
  let competitor_products :=
    filter (fun t => String.eqb (Txn.type t) product_type
                     && negb (String.eqb (Txn.brand t) product_brand)) df in
  let pre_competitor :=
    revenue_where (fun t => in_window pre_start pre_end (Txn.date t))
                  competitor_products in
  let post_competitor :=
    revenue_where (fun t => in_window post_start post_end (Txn.date t))
                  competitor_products in
  let competitor_loss :=
    if Qlt_le_dec post_competitor pre_competitor
    then pre_competitor - post_competitor else 0 in
  let pre_market_total :=
    revenue_where (fun t => in_window pre_start pre_end (Txn.date t)
                            && String.eqb (Txn.type t) product_type) df in
  let post_market_total :=
    revenue_where (fun t => in_window post_start post_end (Txn.date t)
                            && String.eqb (Txn.type t) product_type) df in
  let market_expansion :=
    post_market_total - pre_market_total - new_product_revenue in
  let total_sov := new_product_revenue in
  let pct (x : Q) := if Qlt_le_dec 0 total_sov then x / total_sov * 100 else 0 in
  SovRecord.mk new_product_id (Launch.product_name launch) launch_date
    new_product_revenue new_product_units
    cannibalized_revenue cannibalized_products
    competitor_loss market_expansion
    (Breakdown.mk (pct cannibalized_revenue) (pct competitor_loss)
                  (pct market_expansion)).

Definition _analyze_sov_by_launch (window_months : Z) : dict SovRecord.t :=
  fold_left
    (fun sov_results launch =>
       Py.set (Launch.product_id launch) (sov_of window_months launch)
              sov_results)
    (rows new_launches) [].

Definition _calculate_sov_breakdown (sov_by_launch : dict SovRecord.t)
  : DataFrame BreakdownRow.row :=
  from_records BreakdownRow.labels
    (map (fun '(product_id, sov_data) =>
            let b := SovRecord.sov_breakdown sov_data in
            BreakdownRow.mk product_id
              (SovRecord.new_product_name sov_data)
              (SovRecord.new_product_revenue sov_data)
              (Breakdown.cannibalization_pct b)
              (Breakdown.competitor_pct b)
              (Breakdown.expansion_pct b)
              (SovRecord.cannibalized_revenue sov_data)
              (SovRecord.competitor_loss sov_data)
              (SovRecord.market_expansion sov_data))
         (Py.items sov_by_launch)).

(** Revenue per calendar month of the sales of [target_id] that fall in
    [start, stop): the two samples of the t-test. *)
Definition monthly_revenue (target_id : string) (start stop : Timestamp)
  : list (Period * Q) :=
  let target_sales :=
    filter (fun t => String.eqb (Txn.product_id t) target_id) df in
  groupby_sum period_eqb period_leb
    (fun t => to_period_M (Txn.date t)) Txn.revenue
    (filter (fun t => in_window start stop (Txn.date t)) target_sales).

(** The body of the inner loop of [_perform_significance_tests]. *)
Definition test_of (pre_start pre_end post_start post_end : Timestamp)
    (target : Cannibalized.row) : option Test.row :=
  let target_id := Cannibalized.product_id target in
  let pre_period := monthly_revenue target_id pre_start pre_end in
  let post_period := monthly_revenue target_id post_start post_end in
  if (1 <? List.length pre_period)%nat && (1 <? List.length post_period)%nat
  then
    let '(t_stat, p_value) :=
      ttest_ind (map snd pre_period) (map snd post_period) in
    Some (Test.mk target_id (Cannibalized.revenue_loss target)
            (Cannibalized.pct_change target) t_stat p_value
            (if Qlt_le_dec p_value (5 # 100) then true else false))
  else None.

Definition _perform_significance_tests (sov_by_launch : dict SovRecord.t)
  : dict (list Test.row) :=
  fold_left
    (fun significance_results '(product_id, sov_data) =>
       let launch_date := SovRecord.launch_date sov_data in
       let window_months := 6%Z in
       let pre_start := DateOffset_months launch_date (- window_months) in
       let pre_end := launch_date in
       let post_start := launch_date in
       let post_end := DateOffset_months launch_date window_months in
       let test_results :=
         collect (test_of pre_start pre_end post_start post_end)
                 (SovRecord.cannibalized_products sov_data) in
       Py.set product_id test_results significance_results)
    (Py.items sov_by_launch) [].

Definition execute (window_months : Z) : Results :=
  if (len new_launches =? 0)%nat
     || negb (has_column "product_id" new_launches)
  then mkResults [] empty_frame []
  else
    let sov_by_launch := _analyze_sov_by_launch window_months in
    if (0 <? List.length sov_by_launch)%nat
    then mkResults sov_by_launch
           (_calculate_sov_breakdown sov_by_launch)
           (_perform_significance_tests sov_by_launch)
    else mkResults sov_by_launch empty_frame [].

End Analyzer.

End SOV.

(* ================================================================== *)
(** * Step 4.3: portfolio_impact.py                                    *)
(* ================================================================== *)

(** The [roi] column: a float, or [float('inf')]. *)
Module Roi.
Inductive t : Type :=
| finite (q : Q)
| inf.
End Roi.

Module Impact.
Record row : Type := mk {
  product_id : string;
  product_name : string;
  launch_date : Timestamp;
  new_product_revenue : Q;
  lost_revenue : Q;
  net_impact : Q;
  net_impact_pct : Q;
  portfolio_growth_pct : Q;
  launch_type : string;
  roi : Roi.t
}.

Definition labels : list string :=
  ["product_id"; "product_name"; "launch_date"; "new_product_revenue";
   "lost_revenue"; "net_impact"; "net_impact_pct"; "portfolio_growth_pct";
   "launch_type"; "roi"].
End Impact.

(** A row of [category_impact] or of [brand_impact]; [group] is the
    [category] column of the former and the [brand] column of the latter. *)
Module GroupImpact.
Record row : Type := mk {
  group : string;
  num_launches : nat;
  total_new_revenue : Q;
  total_lost_revenue : Q;
  net_impact : Q;
  net_impact_pct : Q
}.

Definition labels (group_label : string) : list string :=
  [group_label; "num_launches"; "total_new_revenue"; "total_lost_revenue";
   "net_impact"; "net_impact_pct"].
End GroupImpact.

Module Classification.
Record row : Type := mk {
  product_id : string;
  product_name : string;
  launch_date : Timestamp;
  new_product_revenue : Q;
  lost_revenue : Q;
  net_impact : Q;
  launch_type : string;
  roi : Roi.t;
  performance_rating : string
}.

Definition labels : list string :=
  ["product_id"; "product_name"; "launch_date"; "new_product_revenue";
   "lost_revenue"; "net_impact"; "launch_type"; "roi"].
End Classification.

Module PortfolioImpact.

Record Results : Type := mkResults {
  portfolio_impact : DataFrame Impact.row;
  category_impact : DataFrame GroupImpact.row;
  brand_impact : DataFrame GroupImpact.row;
  launch_classification : DataFrame Classification.row
}.

Section Analyzer.
Variable df : list Txn.row.
Variable new_launches : DataFrame Launch.row.
Variable sov_results : SOV.Results.

(** The [if]/[elif]/[else] of the classification. *)
Definition classify (net_impact new_product_revenue : Q) : string :=
  if Qlt_le_dec 0 net_impact then "Additive"
  else if Qlt_le_dec net_impact (- new_product_revenue * (1 # 10))
       then "Substitutive"
       else "Neutral".

(** The body of the loop of [_calculate_portfolio_impact]; [None] is
    the [continue] taken when the launch has no SOV record. *)
Definition impact_of (window_months : Z) (launch : Launch.row)
  : option Impact.row :=
  let new_product_id := Launch.product_id launch in
  let launch_date := Launch.launch_date launch in
  let product_type := Launch.type launch in
  let product_brand := Launch.brand launch in
  let pre_start := DateOffset_months launch_date (- window_months) in
  let pre_end := launch_date in
  let post_start := launch_date in
  let post_end := DateOffset_months launch_date window_months in
  match Py.get new_product_id (SOV.sov_by_launch sov_results) with
  | None => None
  | Some sov_data =>
      let new_product_revenue := SovRecord.new_product_revenue sov_data in
      let lost_revenue := SovRecord.cannibalized_revenue sov_data in
      let net_impact := new_product_revenue - lost_revenue in
      let net_impact_pct :=
        if Qlt_le_dec 0 new_product_revenue
        then net_impact / new_product_revenue * 100 else 0 in
      let pre_portfolio_revenue :=
        revenue_where
          (fun t => in_window pre_start pre_end (Txn.date t)
                    && String.eqb (Txn.type t) product_type
                    && String.eqb (Txn.brand t) product_brand) df in
      let post_portfolio_revenue :=
        revenue_where
          (fun t => in_window post_start post_end (Txn.date t)
                    && String.eqb (Txn.type t) product_type
                    && String.eqb (Txn.brand t) product_brand) df in
      let portfolio_growth :=
        if Qlt_le_dec 0 pre_portfolio_revenue
        then (post_portfolio_revenue - pre_portfolio_revenue)
             / pre_portfolio_revenue * 100
        else 0 in
      let launch_type := classify net_impact new_product_revenue in
      Some (Impact.mk new_product_id (Launch.product_name launch)
              launch_date new_product_revenue lost_revenue
              net_impact net_impact_pct portfolio_growth launch_type
              (if Qlt_le_dec 0 lost_revenue
               then Roi.finite (net_impact / lost_revenue * 100)
               else Roi.inf))
  end.

Definition _calculate_portfolio_impact (window_months : Z)
  : result (DataFrame Impact.row) :=
  let impact_results :=
    collect (impact_of window_months) (rows new_launches) in
  let impact_df := from_records Impact.labels impact_results in
  sort_values_desc "net_impact" Impact.net_impact impact_df.

(** The inner loop shared by the category and the brand aggregation:
    the state is [(total_new_revenue, total_lost_revenue)]. *)
Definition totals_step (st : Q * Q) (launch : Launch.row) : Q * Q :=
  match Py.get (Launch.product_id launch) (SOV.sov_by_launch sov_results) with
  | Some sov_data =>
      (fst st + SovRecord.new_product_revenue sov_data,
       snd st + SovRecord.cannibalized_revenue sov_data)
  | None => st
  end.

(** The body of the outer loop of [_calculate_category_impact]
    ([key] is the [type] column) and of [_calculate_brand_impact]
    ([key] is the [brand] column). *)
Definition group_impact_of (key : Launch.row -> string) (g : string)
  : GroupImpact.row :=
  let group_launches :=
    filter (fun l => String.eqb (key l) g) (rows new_launches) in
  let '(total_new_revenue, total_lost_revenue) :=
    fold_left totals_step group_launches (0, 0) in
  let net_impact := total_new_revenue - total_lost_revenue in
  let net_impact_pct :=
    if Qlt_le_dec 0 total_new_revenue
    then net_impact / total_new_revenue * 100 else 0 in
  GroupImpact.mk g (List.length group_launches)
    total_new_revenue total_lost_revenue net_impact net_impact_pct.

Definition group_impact (label group_label : string)
    (key : Launch.row -> string) : result (DataFrame GroupImpact.row) :=
  keys <- column label key new_launches ;;
  let impacts := map (group_impact_of key) (unique keys) in
  let impact_df := from_records (GroupImpact.labels group_label) impacts in
  sort_values_desc "net_impact" GroupImpact.net_impact impact_df.

Definition _calculate_category_impact : result (DataFrame GroupImpact.row) :=
  group_impact "type" "category" Launch.type.

Definition _calculate_brand_impact : result (DataFrame GroupImpact.row) :=
  group_impact "brand" "brand" Launch.brand.

Definition performance_rating (x : Q) : string :=
  if Qlt_le_dec 0 x then "Excellent"
  else if Qlt_le_dec x (- (1000000 # 1)) then "Poor" else "Moderate".

Definition _classify_launches (portfolio_impact : DataFrame Impact.row)
  : result (DataFrame Classification.row) :=
  match filter (fun c => negb (has_column c portfolio_impact))
               Classification.labels with
  | missing :: _ => Raise (KeyError missing)
  | [] =>
      Ok (mkDF (Classification.labels ++ ["performance_rating"])
            (map (fun r =>
                    Classification.mk (Impact.product_id r)
                      (Impact.product_name r) (Impact.launch_date r)
                      (Impact.new_product_revenue r) (Impact.lost_revenue r)
                      (Impact.net_impact r) (Impact.launch_type r)
                      (Impact.roi r)
                      (performance_rating (Impact.net_impact r)))
                 (rows portfolio_impact)))
  end.

Definition execute (window_months : Z) : result Results :=
  portfolio_impact <- _calculate_portfolio_impact window_months ;;
  category_impact <- _calculate_category_impact ;;
  brand_impact <- _calculate_brand_impact ;;
  launch_classification <- _classify_launches portfolio_impact ;;
  Ok (mkResults portfolio_impact category_impact brand_impact
        launch_classification).

End Analyzer.

End PortfolioImpact.

(* ================================================================== *)
(** * Step 3.1: time_series_forecast.py                                *)
(* ================================================================== *)

(** A monthly series: [(m, v)] is the value [v] of month number [m]
    (months counted from a fixed origin), in chronological order. *)
Definition Series : Type := list (nat * Q).

Definition index (s : Series) : list nat := map fst s.
Definition values (s : Series) : list Q := map snd s.

Module Metrics.
Record t : Type := mk { mse : Q; rmse : Q; mae : Q; mape : Q }.
End Metrics.

Module Forecast.

(** ** numpy *)

(** An elementwise binary operation on two one-dimensional arrays, with
    numpy's broadcasting of a one-element array. *)
Fixpoint zip_with (f : Q -> Q -> Q) (a b : list Q) : list Q :=
  match a, b with
  | x :: a', y :: b' => f x y :: zip_with f a' b'
  | _, _ => []
  end.

Definition elementwise (f : Q -> Q -> Q) (a b : list Q) : result (list Q) :=
  if (List.length a =? List.length b)%nat then Ok (zip_with f a b)
  else match a, b with
       | [x], _ => Ok (map (f x) b)
       | _, [y] => Ok (map (fun x => f x y) a)
       | _, _ => Raise (ValueError "operands could not be broadcast together")
       end.

(** [pd.Series(values, index=index)]. *)
Definition mk_series (vals : list Q) (idx : list nat) : result Series :=
  if (List.length vals =? List.length idx)%nat then Ok (combine idx vals)
  else Raise (ValueError "Length of values does not match length of index").

(** [seq[-n:]]; with [n = 0] the slice is [seq[0:]], the whole list. *)
Definition tail_slice {A : Type} (n : nat) (l : list A) : list A :=
  if (n =? 0)%nat then l else skipn (List.length l - n) l.

(** A [try: ... except Exception: return {}] block; [None] is the empty
    dictionary. *)
Definition try_or_empty {A : Type} (m : result A) : option A :=
  match m with Ok a => Some a | Raise _ => None end.

Module Sarima.
Record t (Model : Type) : Type := mk {
  forecast : Series;
  future_forecast : Series;
  metrics : Metrics.t;
  model : Model;
  is_stationary : bool
}.
Arguments mk {Model}.
Arguments forecast {Model}.
Arguments future_forecast {Model}.
Arguments metrics {Model}.
Arguments model {Model}.
Arguments is_stationary {Model}.
End Sarima.

Module Prophet.
Record t (Model : Type) : Type := mk {
  forecast : Series;
  future_forecast : list Q;
  confidence_lower : list Q;
  confidence_upper : list Q;
  metrics : Metrics.t;
  model : Model
}.
Arguments mk {Model}.
Arguments forecast {Model}.
Arguments future_forecast {Model}.
Arguments confidence_lower {Model}.
Arguments confidence_upper {Model}.
Arguments metrics {Model}.
Arguments model {Model}.
End Prophet.

Module Ensemble.
Record t : Type := mk {
  simple_ensemble : Series;
  weighted_ensemble : Series;
  metrics_simple : Metrics.t;
  metrics_weighted : Metrics.t
}.
End Ensemble.

(** A row of the frame returned by Prophet's [predict]. *)
Module Yhat.
Record row : Type := mk { ds : nat; yhat : Q; yhat_lower : Q; yhat_upper : Q }.
End Yhat.

Section Forecaster.

(** ** The numerical libraries

    The fitting and prediction routines of statsmodels, Prophet,
    scikit-learn and numpy are not part of the repository; the
    forecaster is embedded over them.  A fit or a test that raises is
    [None]/[Raise]. *)

Variable np_sqrt : Q -> Q.

(** [adfuller(train)[1]], the p-value of the stationarity test. *)
Variable adfuller : list Q -> result Q.

(** [SARIMAX(train, order=(1,1,1), seasonal_order=(1,1,1,12), ...)
    .fit(disp=False, maxiter=200)]. *)
Variable SarimaxResults : Type.
Variable sarimax_fit : Series -> result SarimaxResults.

(** The point forecast [h] months after the end of the sample the
    model was fitted on ([h = 1] is the first month out of sample). *)
Variable sarimax_mean : SarimaxResults -> nat -> Q.

(** [Prophet(yearly_seasonality=True, ...).fit(prophet_data)]. *)
Variable ProphetModel : Type.
Variable prophet_fit : Series -> result ProphetModel.

(** [yhat], [yhat_lower], [yhat_upper] of the fitted model at a month. *)
Variable prophet_yhat : ProphetModel -> nat -> Q * Q * Q.

Variables STATSMODELS_AVAILABLE PROPHET_AVAILABLE : bool.

(** The month that follows the last month of a series. *)
Definition next_month (s : Series) : nat :=
  match rev s with
  | (m, _) :: _ => S m
  | [] => 0%nat
  end.

(** [fitted_model.forecast(steps=steps)]: out-of-sample forecasts that
    start at the end of the sample the model was fitted on, for a sample
    of consecutive months (statsmodels dates its forecasts only on an index
    with a frequency). *)
Definition sarimax_forecast (fitted_model : SarimaxResults)
    (sample : Series) (steps : nat) : Series :=
  map (fun h => ((next_month sample + h)%nat, sarimax_mean fitted_model (S h)))
      (seq 0 steps).

(** [model.make_future_dataframe(periods, freq='MS')]: the history the
    model was fitted on, followed by [periods] further months. *)
Definition make_future_dataframe (history : Series) (periods : nat)
  : list nat :=
  index history ++ seq (next_month history) periods.

Definition prophet_predict (m : ProphetModel) (future : list nat)
  : list Yhat.row :=
  map (fun ds => let '(y, lo, up) := prophet_yhat m ds in Yhat.mk ds y lo up)
      future.

(** [mean_squared_error], [mean_absolute_error] and the MAPE expression
    of the source, on an actual and a forecast array.  scikit-learn
    rejects arrays of different lengths and empty arrays.

    The two arrays are matched by position, as scikit-learn does and as
    the MAPE expression does when the forecast is an array; the MAPE of
    the seasonal model subtracts two Series, which pandas aligns on their
    dates, and that is the same thing when the test forecast is dated on the
    held-out months.  Where an actual value is 0 the source divides by it
    and gets inf or NaN, which the rationals do not have: the MAPE of this
    definition stands for the source's only when no actual value is 0, and
    statements about the value of a metric, or about a run that goes on to
    use one, assume it. *)
Definition error_metrics (actual forecast : list Q) : result Metrics.t :=
  if (List.length actual =? List.length forecast)%nat
     && (0 <? List.length actual)%nat
  then
    let mse :=
      Qmean (zip_with (fun a f => (a - f) * (a - f)) actual forecast) in
    let rmse := np_sqrt mse in
    let mae := Qmean (zip_with (fun a f => Qabs (a - f)) actual forecast) in
    let mape :=
      Qmean (zip_with (fun a f => Qabs ((a - f) / a)) actual forecast) * 100 in
    Ok (Metrics.mk mse rmse mae mape)
  else Raise (ValueError "Found input variables with inconsistent numbers of samples").

Definition _sarima_forecast (train test : Series) (forecast_horizon : nat)
  : option (Sarima.t SarimaxResults) :=
  try_or_empty (
    adf_p <- adfuller (values train) ;;
    let is_stationary := if Qlt_le_dec adf_p (5 # 100) then true else false in
    fitted_model <- sarimax_fit train ;;
    let forecast := sarimax_forecast fitted_model train (List.length test) in
    let future_forecast :=
      sarimax_forecast fitted_model train forecast_horizon in
    m <- error_metrics (values test) (values forecast) ;;
    Ok (Sarima.mk forecast future_forecast m fitted_model is_stationary)).

(** The rows of [future_forecast_df] that [_prophet_forecast] keeps as
    the future forecast. *)
Definition prophet_future_rows (model : ProphetModel) (train : Series)
    (forecast_horizon : nat) : list Yhat.row :=
  let future_df := make_future_dataframe train forecast_horizon in
  let future_forecast_df := prophet_predict model future_df in
  tail_slice forecast_horizon future_forecast_df.

(** The rows of [forecast] that [_prophet_forecast] keeps as the test
    predictions. *)
Definition prophet_test_rows (model : ProphetModel) (train test : Series)
  : list Yhat.row :=
  let future := make_future_dataframe train (List.length test) in
  let forecast := prophet_predict model future in
  tail_slice (List.length test) forecast.

Definition _prophet_forecast (train test : Series) (forecast_horizon : nat)
  : option (Prophet.t ProphetModel) :=
  try_or_empty (
    model <- prophet_fit train ;;
    let test_rows := prophet_test_rows model train test in
    let test_pred := map Yhat.yhat test_rows in
    let future_forecast :=
      map Yhat.yhat (prophet_future_rows model train forecast_horizon) in
    m <- error_metrics (values test) test_pred ;;
    let confidence_lower := map Yhat.yhat_lower test_rows in
    let confidence_upper := map Yhat.yhat_upper test_rows in
    forecast <- mk_series test_pred (index test) ;;
    Ok (Prophet.mk forecast future_forecast confidence_lower
          confidence_upper m model)).

(** The inverse-MAPE weight of a model. *)
Definition inverse_mape_weight (mape : Q) : Q := 1 / (mape + (1 # 1000)).

Definition _create_ensemble_forecast
    (sarima_results : option (Sarima.t SarimaxResults))
    (prophet_results : option (Prophet.t ProphetModel))
    (test : Series) : result (option Ensemble.t) :=
  match sarima_results, prophet_results with
  | Some sarima, Some prophet =>
      let sarima_values := values (Sarima.forecast sarima) in
      let prophet_values := values (Prophet.forecast prophet) in
      sum <- elementwise Qplus sarima_values prophet_values ;;
      let ensemble_forecast := map (fun x => x / 2) sum in
      let sarima_mape := Metrics.mape (Sarima.metrics sarima) in
      let prophet_mape := Metrics.mape (Prophet.metrics prophet) in
      let sarima_weight := inverse_mape_weight sarima_mape in
      let prophet_weight := inverse_mape_weight prophet_mape in
      let total_weight := sarima_weight + prophet_weight in
      weighted_ensemble <-
        elementwise Qplus
          (map (fun x => x * (sarima_weight / total_weight)) sarima_values)
          (map (fun x => x * (prophet_weight / total_weight)) prophet_values) ;;
      m_simple <- error_metrics (values test) ensemble_forecast ;;
      m_weighted <- error_metrics (values test) weighted_ensemble ;;
      simple_series <- mk_series ensemble_forecast (index test) ;;
      weighted_series <- mk_series weighted_ensemble (index test) ;;
      Ok (Some (Ensemble.mk simple_series weighted_series m_simple m_weighted))
  | _, _ => Ok None
  end.

(** [int(len(ts_data) * 0.8)]. *)
Definition train_size (n : nat) : nat := Z.to_nat (Z.of_nat n * 4 / 5).

(** The results dictionary: an absent key is [None]; a key bound to the
    empty dictionary is [Some None]. *)
Record Results : Type := mkResults {
  sarima : option (option (Sarima.t SarimaxResults));
  prophet : option (option (Prophet.t ProphetModel));
  ensemble : option (option Ensemble.t)
}.

(** [execute] from the train/test split on, given the monthly series
    that [_prepare_time_series] builds; the decomposition entry and the
    printed summary do not feed the forecasts and are left out. *)
Definition execute (ts_data : Series) (forecast_horizon : nat)
  : result Results :=
  let n := train_size (List.length ts_data) in
  let train := firstn n ts_data in
  let test := skipn n ts_data in
  let sarima :=
    if STATSMODELS_AVAILABLE
    then Some (_sarima_forecast train test forecast_horizon) else None in
  let prophet :=
    if PROPHET_AVAILABLE
    then Some (_prophet_forecast train test forecast_horizon) else None in
  match sarima, prophet with
  | Some s, Some p =>
      e <- _create_ensemble_forecast s p test ;;
      Ok (mkResults sarima prophet (Some e))
  | _, _ => Ok (mkResults sarima prophet None)
  end.

End Forecaster.

End Forecast.


(* ================================================================== *)
(** * The specification's reading of cannibalization                   *)
(* ================================================================== *)

(** These definitions follow the words of the specification, not the
    code: the siblings of a launch, the revenue a sibling has on record in
    a window (nothing when it has no sale there), and the per-sibling loss
    floored at zero. *)
Module Spec.

Definition is_sibling (launch : Launch.row) (t : Txn.row) : bool :=
  String.eqb (Txn.type t) (Launch.type launch)
  && String.eqb (Txn.brand t) (Launch.brand launch)
  && negb (String.eqb (Txn.product_id t) (Launch.product_id launch)).

Definition sibling_ids (df : list Txn.row) (launch : Launch.row) : list string :=
  nodup string_dec (map Txn.product_id (filter (is_sibling launch) df)).

Definition window_revenue (df : list Txn.row) (launch : Launch.row)
    (start stop : Timestamp) (p : string) : option Q :=
  match filter (fun t => is_sibling launch t
                         && String.eqb (Txn.product_id t) p
                         && in_window start stop (Txn.date t)) df with
  | [] => None
  | sales => Some (Qsum (map Txn.revenue sales))
  end.

Definition pre_window_revenue (df : list Txn.row) (window_months : Z)
    (launch : Launch.row) : string -> option Q :=
  let launch_date := Launch.launch_date launch in
  window_revenue df launch
    (DateOffset_months launch_date (- window_months)) launch_date.

Definition post_window_revenue (df : list Txn.row) (window_months : Z)
    (launch : Launch.row) : string -> option Q :=
  let launch_date := Launch.launch_date launch in
  window_revenue df launch
    launch_date (DateOffset_months launch_date window_months).

Definition sibling_loss (df : list Txn.row) (window_months : Z)
    (launch : Launch.row) (p : string) : Q :=
  match pre_window_revenue df window_months launch p,
        post_window_revenue df window_months launch p with
  | Some pre, Some post => Qmax 0 (pre - post)
  | _, _ => 0
  end.

Definition cannibalized_revenue (df : list Txn.row) (window_months : Z)
    (launch : Launch.row) : Q :=
  Qsum (map (sibling_loss df window_months launch) (sibling_ids df launch)).

(** Summation, then ratio: a row of the category (or brand) table carries
    the sums of [new_product_revenue] and of [cannibalized_revenue] over
    the portfolio-impact rows of the launches of its group, their
    difference as [net_impact], the ratio of that difference to the summed
    new revenue as [net_impact_pct], and so a [net_impact] equal to the sum
    of the per-launch net impacts. *)
Definition summation_then_ratio (df : list Txn.row)
    (new_launches : DataFrame Launch.row) (sov_results : SOV.Results)
    (window_months : Z) (key : Launch.row -> string)
    (row : GroupImpact.row) : Prop :=
  let constituents :=
    collect (PortfolioImpact.impact_of df sov_results window_months)
            (filter (fun l => String.eqb (key l) (GroupImpact.group row))
                    (rows new_launches)) in
  GroupImpact.total_new_revenue row
  == Qsum (map Impact.new_product_revenue constituents)
  /\ GroupImpact.total_lost_revenue row
     == Qsum (map Impact.lost_revenue constituents)
  /\ GroupImpact.net_impact row
     = GroupImpact.total_new_revenue row - GroupImpact.total_lost_revenue row
  /\ GroupImpact.net_impact_pct row
     = (if Qlt_le_dec 0 (GroupImpact.total_new_revenue row)
        then GroupImpact.net_impact row / GroupImpact.total_new_revenue row * 100
        else 0)
  /\ GroupImpact.net_impact row == Qsum (map Impact.net_impact constituents).

End Spec.

(** ** Vocabulary for the cannibalization loop *)

(** The loss the loop books for one key of [pre_revenue]. *)
Definition booked_loss (pre_revenue post_revenue : dict Q) (k : string) : Q :=
  match Py.get k post_revenue, Py.get k pre_revenue with
  | Some post, Some pre => Qmax 0 (pre - post)
  | _, _ => 0
  end.

(** What the loop knows about every entry it appends. *)
Definition booked_entry (pre_revenue post_revenue : dict Q)
    (e : Cannibalized.row) : Prop :=
  exists pre post,
    Py.get (Cannibalized.product_id e) pre_revenue = Some pre
    /\ Py.get (Cannibalized.product_id e) post_revenue = Some post
    /\ post < pre
    /\ Cannibalized.revenue_loss e == pre - post
    /\ Cannibalized.pct_change e
       = (if Qlt_le_dec 0 pre then (post - pre) / pre * 100 else 0).

(* ================================================================== *)
(** * Concrete tables                                                  *)
(* ================================================================== *)

Module Scenario.

Definition sale (id product : string) (d : Timestamp) (rev : Q)
    (category brand : string) : Txn.row :=
  Txn.mk id product d 1 rev category brand.

(** A launch row as [top_launches] carries it; the scoring columns are not
    read by the later stages. *)
Definition launch_row (product : string) (category brand : string)
    (d : Timestamp) : Launch.row :=
  Launch.mk product product brand category d 0 0 0%nat 0 0 0.

Definition launch_N : Launch.row := launch_row "N" "C" "X" (mkTs 2024 7 1).

Definition launches_N : DataFrame Launch.row := mkDF Launch.labels [launch_N].

(** Product N of brand X, category C, launched 2024-07-01 and earning 200
    afterwards.  Sibling A falls from 100 to 50, sibling B sells 80 after
    the launch and nothing before it, sibling D grows from 30 to 70;
    competitor K of brand Y falls from 40 to 10. *)
Definition sales_N : list Txn.row :=
  [ sale "t1" "A" (mkTs 2024 3 10) 100 "C" "X";
    sale "t2" "A" (mkTs 2024 8 10) 50 "C" "X";
    sale "t3" "N" (mkTs 2024 7 15) 200 "C" "X";
    sale "t4" "B" (mkTs 2024 9 1) 80 "C" "X";
    sale "t5" "D" (mkTs 2024 2 5) 30 "C" "X";
    sale "t6" "D" (mkTs 2024 10 5) 70 "C" "X";
    sale "t7" "K" (mkTs 2024 4 1) 40 "C" "Y";
    sale "t8" "K" (mkTs 2024 11 1) 10 "C" "Y" ].

(** Sibling R has a sale of revenue 0 before the launch and a refund of 10
    (revenue -10) after it. *)
Definition sales_refund : list Txn.row :=
  [ sale "r1" "R" (mkTs 2024 3 10) 0 "C" "X";
    sale "r2" "R" (mkTs 2024 8 10) (-10) "C" "X";
    sale "r3" "N" (mkTs 2024 7 15) 200 "C" "X" ].

(** Sibling A sells in two months of the year before the launch and in
    two months of the year after it, falling from 200 to 100, and has no
    sale within six months of the launch on either side. *)
Definition sales_wide : list Txn.row :=
  [ sale "w1" "A" (mkTs 2023 8 10) 100 "C" "X";
    sale "w2" "A" (mkTs 2023 9 10) 100 "C" "X";
    sale "w3" "A" (mkTs 2025 2 10) 50 "C" "X";
    sale "w4" "A" (mkTs 2025 3 10) 50 "C" "X";
    sale "w5" "N" (mkTs 2024 7 15) 200 "C" "X" ].

(** Sibling A sells in two months on each side of the launch, within
    six months of it, falling from 200 to 100. *)
Definition sales_six : list Txn.row :=
  [ sale "x1" "A" (mkTs 2024 3 10) 100 "C" "X";
    sale "x2" "A" (mkTs 2024 4 10) 100 "C" "X";
    sale "x3" "A" (mkTs 2024 8 10) 50 "C" "X";
    sale "x4" "A" (mkTs 2024 9 10) 50 "C" "X";
    sale "x5" "N" (mkTs 2024 7 15) 200 "C" "X" ].

(** Two launches of category C, of brands X and Y, and the sales of the
    second: M of brand Y earns 300 while its siblings E and K fall from 90
    to 20 and from 40 to 10. *)
Definition launch_M : Launch.row := launch_row "M" "C" "Y" (mkTs 2024 7 1).

Definition launches_NM : DataFrame Launch.row :=
  mkDF Launch.labels [launch_N; launch_M].

Definition sales_NM : list Txn.row :=
  sales_N ++
  [ sale "m1" "M" (mkTs 2024 7 20) 300 "C" "Y";
    sale "m2" "E" (mkTs 2024 5 1) 90 "C" "Y";
    sale "m3" "E" (mkTs 2024 9 1) 20 "C" "Y" ].

(** A product master whose only product was launched in 2020, and sales
    that end in June 2024. *)
Definition old_products : DataFrame Product.row :=
  mkDF Product.labels
       [Product.mk "A" "Alpha" "X" "C" (mkTs 2020 1 1) 10].

Definition sales_2024 : list Txn.row :=
  [ sale "s1" "A" (mkTs 2024 6 30) 100 "C" "X" ].

(** A t-test routine that answers a fixed pair; which tests are recorded
    does not depend on it. *)
Definition ttest_fixed (pre post : list Q) : Q * Q := (2, 1 # 100).

(** The SOV results and the portfolio-impact row of the launch of N. *)
Definition sov_results_N : SOV.Results :=
  SOV.execute sales_N launches_N ttest_fixed 6.

Definition impact_row_N : Impact.row :=
  Impact.mk "N" "N" (mkTs 2024 7 1) 200 50 150 (15000 # 200) (27000 # 130)
    "Additive" (Roi.finite (15000 # 50)).

Definition sov_results_NM : SOV.Results :=
  SOV.execute sales_NM launches_NM ttest_fixed 6.

(** A ten-month series for the forecaster and stand-ins for the fitted
    models: the stand-in forecast of a month is the month number. *)
Definition ten_months : Series :=
  map (fun m => (m, inject_Z (Z.of_nat (100 + m)))) (seq 0 10).

Definition month_value (m : nat) : Q := inject_Z (Z.of_nat m).

Definition fit_ok (s : Series) : result Series := Ok s.

(** [h] months after the end of the fitting sample. *)
Definition mean_after (fitted : Series) (h : nat) : Q :=
  month_value (Forecast.next_month fitted + h - 1).

Definition yhat_at (fitted : Series) (m : nat) : Q * Q * Q :=
  (month_value m, month_value m - 1, month_value m + 1).

Definition sarima_ten : option (Forecast.Sarima.t Series) :=
  Forecast._sarima_forecast (fun x => x) (fun _ => Ok (1 # 100))
    Series fit_ok mean_after
    (firstn 8 ten_months) (skipn 8 ten_months) 12.

Definition prophet_ten : option (Forecast.Prophet.t Series) :=
  Forecast._prophet_forecast (fun x => x) Series fit_ok yhat_at
    (firstn 8 ten_months) (skipn 8 ten_months) 12.

(** Two model results with test forecasts over months 8 and 9 and MAPE 10
    and 30. *)
Definition sarima_r : Forecast.Sarima.t unit :=
  Forecast.Sarima.mk [(8%nat, 100); (9%nat, 110)] [] (Metrics.mk 0 0 0 10) tt true.

Definition prophet_r : Forecast.Prophet.t unit :=
  Forecast.Prophet.mk [(8%nat, 120); (9%nat, 90)] [] [] [] (Metrics.mk 0 0 0 30) tt.

Definition test_r : Series := [(8%nat, 105); (9%nat, 100)].

End Scenario.

(* ================================================================== *)
(** * main.py, phase 4, and the series the forecaster is run on        *)
(* ================================================================== *)

Module Main.

(** The three results of phase 4; an empty dictionary is [None]. *)
Record Phase4 : Type := mkPhase4 {
  new_launch_results : NewLaunch.Results;
  sov_results : option SOV.Results;
  impact_results : option PortfolioImpact.Results
}.

(** Steps 4.1 to 4.3 of [main]: the registry with [months=12] and
    [top_n=5], then, when a launch was selected, the two analysers with
    their default window of six months. *)
Definition phase4 (products_df : DataFrame Product.row)
    (integrated_df : list Txn.row) (ttest_ind : list Q -> list Q -> Q * Q)
  : result Phase4 :=
  new_launch_results <- NewLaunch.execute products_df integrated_df 12 5 ;;
  let top_launches := NewLaunch.top_launches new_launch_results in
  if (0 <? len top_launches)%nat
  then
    let sov_results := SOV.execute integrated_df top_launches ttest_ind 6 in
    impact_results <-
      PortfolioImpact.execute integrated_df top_launches sov_results 6 ;;
    Ok (mkPhase4 new_launch_results (Some sov_results) (Some impact_results))
  else Ok (mkPhase4 new_launch_results None None).

End Main.

Module TimeSeries.

(** [_prepare_time_series(category)]: revenue per calendar month, in
    chronological order; a period stands for the timestamp of its first
    day, which [to_timestamp] puts in the index.  [None] and the empty
    string are both false in [if category:] and select the whole table. *)
Definition _prepare_time_series (df : list Txn.row) (category : option string)
  : list (Period * Q) :=
  let df_filtered :=
    match category with
    | Some c =>
        if String.eqb c "" then df
        else filter (fun t => String.eqb (Txn.type t) c) df
    | None => df
    end in
  groupby_sum period_eqb period_leb
    (fun t => to_period_M (Txn.date t)) Txn.revenue df_filtered.

End TimeSeries.

(** ** Further tables *)

Module Cases.

(** A product master for the sales of the launch of N. *)
Definition products_N : DataFrame Product.row :=
  mkDF Product.labels
       [ Product.mk "A" "Alpha" "X" "C" (mkTs 2020 1 1) 10;
         Product.mk "N" "New" "X" "C" (mkTs 2024 7 1) 12;
         Product.mk "K" "Kappa" "Y" "C" (mkTs 2021 5 1) 9 ].

(** The row of [launch_performance] that the registry computes for N. *)
Definition scored_N : Launch.row :=
  Launch.mk "N" "New" "X" "C" (mkTs 2024 7 1) 200 1 1%nat
    (-20000 # 200) (20000 # 410) (0 # 20000).

Definition scored_launches_N : DataFrame Launch.row :=
  mkDF Launch.labels [scored_N].

(** The master row of N and its sale after the launch. *)
Definition product_N : Product.row :=
  Product.mk "N" "New" "X" "C" (mkTs 2024 7 1) 12.


(** The products launched within twelve months of the last sale. *)
Definition new_products_N : DataFrame Product.row :=
  mkDF Product.labels [product_N].

(** The entry of the cannibalization targets of N: its earlier sibling A. *)
Definition targets_N : NewLaunch.Targets :=
  NewLaunch.mkTargets "New" [NewLaunch.Target.mk "A" "Alpha" (mkTs 2020 1 1)].

End Cases.

(* ================================================================== *)
(** * Facts about loops, dictionaries, sums and frames                 *)
(* ================================================================== *)

Section LoopFacts.
Context {A B : Type}.
Variable body : A -> option B.

Lemma collect_from (l : list A) (out : list B) :
  fold_left
    (fun out x => match body x with Some r => out ++ [r] | None => out end)
    l out
  = out ++ collect body l.
Proof.
  unfold collect. revert out.
  induction l as [|x l IH]; intros out; simpl.
  - now rewrite app_nil_r.
  - rewrite IH. rewrite (IH (match body x with Some r => [r] | None => [] end)).
    destruct (body x); simpl.
    + now rewrite <- app_assoc.
    + reflexivity.
Qed.

Lemma collect_cons (x : A) (l : list A) :
  collect body (x :: l)
  = match body x with Some r => r :: collect body l | None => collect body l end.
Proof.
  unfold collect at 1. simpl. rewrite collect_from.
  now destruct (body x).
Qed.

Lemma In_collect (r : B) (l : list A) :
  In r (collect body l) <-> exists x, In x l /\ body x = Some r.
Proof.
  induction l as [|x l IH].
  - split; [intros [] | intros (y & [] & _)].
  - rewrite collect_cons. split.
    + destruct (body x) eqn:E.
      * intros [<- | H].
        -- exists x; split; [now left | assumption].
        -- apply IH in H as (y & Hy & Hb). exists y; split; [now right | assumption].
      * intros H. apply IH in H as (y & Hy & Hb).
        exists y; split; [now right | assumption].
    + intros (y & [<- | Hy] & Hb).
      * rewrite Hb. now left.
      * assert (In r (collect body l)) by (apply IH; eauto).
        destruct (body x); [now right | assumption].
Qed.

Lemma collect_nil_iff (l : list A) :
  collect body l = [] <-> forall x, In x l -> body x = None.
Proof.
  induction l as [|x l IH].
  - split; [intros _ y [] | reflexivity].
  - rewrite collect_cons. split.
    + destruct (body x) eqn:E; [discriminate|].
      intros H y [<- | Hy]; [assumption | now apply IH].
    + intros H. rewrite (H x (or_introl eq_refl)).
      apply IH. intros y Hy. apply H. now right.
Qed.

End LoopFacts.

Section DictFacts.
Context {V : Type}.

Lemma In_set (k k' : string) (v v' : V) (d : dict V) :
  In (k, v) (Py.set k' v' d) -> (k = k' /\ v = v') \/ In (k, v) d.
Proof.
  induction d as [|[k0 v0] d IH]; simpl.
  - intros [E | []]. inversion E. now left.
  - destruct (String.eqb k' k0) eqn:E; simpl.
    + intros [H | H]; [inversion H; now left | right; now right].
    + intros [H | H]; [right; now left|].
      destruct (IH H) as [? | ?]; [now left | right; now right].
Qed.

(** What a loop of assignments [d[key x] = f x] leaves in the dictionary. *)
Lemma In_assignments {A : Type} (key : A -> string) (f : A -> V)
    (l : list A) (d : dict V) (k : string) (v : V) :
  In (k, v)
     (Py.items (fold_left (fun d x => Py.set (key x) (f x) d) l d)) ->
  (exists x, In x l /\ key x = k /\ v = f x) \/ In (k, v) d.
Proof.
  unfold Py.items. revert d.
  induction l as [|x l IH]; intros d; simpl.
  - now right.
  - intros H. destruct (IH _ H) as [(y & Hy & Hk & Hv) | H'].
    + left. exists y. repeat split; auto.
    + apply In_set in H' as [[-> ->] | H']; [|now right].
      left. exists x. repeat split; auto.
Qed.

Lemma get_In (k : string) (v : V) (d : dict V) :
  Py.get k d = Some v -> In (k, v) (Py.items d).
Proof.
  unfold Py.items.
  induction d as [|[k0 v0] d IH]; simpl; [discriminate|].
  destruct (String.eqb k k0) eqn:E.
  - apply String.eqb_eq in E as ->. intros [= ->]. now left.
  - intros H. right. now apply IH.
Qed.

Lemma In_keys_iff (k : string) (d : dict V) :
  In k (map fst d) <-> Py.get k d <> None.
Proof.
  induction d as [|[k0 v0] d IH]; simpl.
  - split; [intros [] | congruence].
  - destruct (String.eqb k k0) eqn:E.
    + apply String.eqb_eq in E as ->. split; [discriminate | now left].
    + apply String.eqb_neq in E. rewrite <- IH. split.
      * intros [H | H]; [congruence | assumption].
      * now right.
Qed.

(** A series built from a list of keys: [get] finds exactly the keys. *)
Lemma get_map_keys (f : string -> V) (keys : list string) (k : string) :
  Py.get k (map (fun k => (k, f k)) keys)
  = if in_dec string_dec k keys then Some (f k) else None.
Proof.
  induction keys as [|k0 keys IH]; simpl; [reflexivity|].
  destruct (String.eqb k k0) eqn:E.
  - apply String.eqb_eq in E as ->.
    destruct (string_dec k0 k0); [reflexivity | contradiction].
  - apply String.eqb_neq in E. rewrite IH.
    destruct (string_dec k0 k); [congruence|].
    destruct (in_dec string_dec k keys); reflexivity.
Qed.

End DictFacts.

Section SumFacts.

Lemma Qsum_app (l1 l2 : list Q) : Qsum (l1 ++ l2) == Qsum l1 + Qsum l2.
Proof.
  induction l1 as [|x l1 IH]; simpl; [lra | rewrite IH; lra].
Qed.

Lemma Qsum_Permutation (l1 l2 : list Q) :
  Permutation l1 l2 -> Qsum l1 == Qsum l2.
Proof.
  induction 1; simpl; try lra.
Qed.

Lemma Qsum_nonneg (l : list Q) : (forall x, In x l -> 0 <= x) -> 0 <= Qsum l.
Proof.
  induction l as [|x l IH]; simpl; intros H; [lra|].
  assert (0 <= x) by (apply H; now left).
  assert (0 <= Qsum l) by (apply IH; intros; apply H; now right).
  lra.
Qed.

Lemma Qsum_ge_term {K : Type} (f : K -> Q) (l : list K) (k : K) :
  (forall x, 0 <= f x) -> In k l -> f k <= Qsum (map f l).
Proof.
  intros Hf. induction l as [|x l IH]; simpl; [intros []|].
  assert (0 <= Qsum (map f l)).
  { apply Qsum_nonneg. intros y Hy. apply in_map_iff in Hy as (z & <- & _). apply Hf. }
  intros [-> | Hk].
  - lra.
  - specialize (IH Hk). specialize (Hf x). lra.
Qed.

Lemma Qsum_map_ext {K : Type} (f g : K -> Q) (l : list K) :
  (forall x, In x l -> f x == g x) -> Qsum (map f l) == Qsum (map g l).
Proof.
  induction l as [|x l IH]; simpl; intros H; [lra|].
  rewrite (H x (or_introl eq_refl)), IH; [lra|].
  intros y Hy. apply H. now right.
Qed.

(** A sum over [l] sees only the members of [l] that a filter keeps when
    the summand vanishes on the others. *)
Lemma Qsum_filter {K : Type} (f : K -> Q) (p : K -> bool) (l : list K) :
  (forall x, In x l -> p x = false -> f x == 0) ->
  Qsum (map f (filter p l)) == Qsum (map f l).
Proof.
  induction l as [|x l IH]; simpl; intros H; [lra|].
  assert (IH' : Qsum (map f (filter p l)) == Qsum (map f l)).
  { apply IH. intros y Hy. apply H. now right. }
  destruct (p x) eqn:E; simpl.
  - rewrite IH'. lra.
  - rewrite IH', (H x (or_introl eq_refl) E). lra.
Qed.

(** Two duplicate-free key lists, one inside the other: a summand that
    vanishes outside the smaller list has the same sum over both. *)
Lemma Qsum_NoDup_incl (f : string -> Q) (small big : list string) :
  NoDup small -> NoDup big -> incl small big ->
  (forall k, In k big -> ~ In k small -> f k == 0) ->
  Qsum (map f small) == Qsum (map f big).
Proof.
  intros Hs Hb Hincl Hz.
  set (p := fun k => if in_dec string_dec k small then true else false).
  rewrite <- (Qsum_filter f p big).
  - apply Qsum_Permutation, Permutation_map, NoDup_Permutation.
    + assumption.
    + now apply NoDup_filter.
    + intros k. rewrite filter_In. unfold p.
      destruct (in_dec string_dec k small); split; intros H.
      * split; [now apply Hincl | reflexivity].
      * assumption.
      * contradiction.
      * destruct H; discriminate.
  - intros k Hk Hp. unfold p in Hp.
    destruct (in_dec string_dec k small); [discriminate | now apply Hz].
Qed.

End SumFacts.

Section GroupFacts.
Context {K : Type}.
Variables (eqb leb : K -> K -> bool).
Hypothesis eqb_eq : forall x y, eqb x y = true <-> x = y.

Lemma In_unique_by (x : K) (l : list K) : In x (unique_by eqb l) <-> In x l.
Proof.
  clear leb.
  induction l as [|y l IH]; simpl; [tauto|].
  rewrite filter_In, IH. split.
  - intros [-> | [H _]]; auto.
  - intros [-> | H]; [now left|].
    destruct (eqb y x) eqn:E.
    + left. now apply eqb_eq.
    + right. now split.
Qed.

Lemma NoDup_unique_by (l : list K) : NoDup (unique_by eqb l).
Proof.
  induction l as [|y l IH]; simpl; constructor.
  - rewrite filter_In. intros [_ H].
    assert (E : eqb y y = true) by now apply eqb_eq.
    rewrite E in H. discriminate.
  - now apply NoDup_filter.
Qed.

Lemma insert_key_Permutation (k : K) (l : list K) :
  Permutation (insert_key leb k l) (k :: l).
Proof.
  induction l as [|y l IH]; simpl; [reflexivity|].
  destruct (leb k y); [reflexivity|].
  rewrite IH. apply perm_swap.
Qed.

Lemma group_keys_Permutation (l : list K) :
  Permutation (group_keys eqb leb l) (unique_by eqb l).
Proof.
  unfold group_keys.
  induction (unique_by eqb l) as [|y u IH]; simpl; [reflexivity|].
  rewrite insert_key_Permutation. now constructor.
Qed.

Lemma In_group_keys (x : K) (l : list K) :
  In x (group_keys eqb leb l) <-> In x l.
Proof.
  transitivity (In x (unique_by eqb l)); [|apply In_unique_by].
  split; apply Permutation_in.
  - apply group_keys_Permutation.
  - symmetry. apply group_keys_Permutation.
Qed.

Lemma NoDup_group_keys (l : list K) : NoDup (group_keys eqb leb l).
Proof.
  eapply Permutation_NoDup.
  - symmetry. apply group_keys_Permutation.
  - apply NoDup_unique_by.
Qed.

Lemma groupby_sum_keys {R : Type} (key : R -> K) (val : R -> Q) (l : list R) :
  map fst (groupby_sum eqb leb key val l) = group_keys eqb leb (map key l).
Proof.
  unfold groupby_sum. rewrite map_map. simpl. apply map_id.
Qed.

End GroupFacts.

Section FrameFacts.
Context {R : Type}.

Lemma filter_filter (p q : R -> bool) (l : list R) :
  filter p (filter q l) = filter (fun x => q x && p x) l.
Proof.
  induction l as [|x l IH]; simpl; [reflexivity|].
  destruct (q x); simpl; [destruct (p x)|]; now rewrite IH.
Qed.

Lemma filter_nil_iff (p : R -> bool) (l : list R) :
  filter p l = [] <-> forall x, In x l -> p x = false.
Proof.
  induction l as [|x l IH]; simpl.
  - split; [intros _ y [] | reflexivity].
  - destruct (p x) eqn:E; split.
    + discriminate.
    + intros H. specialize (H x (or_introl eq_refl)). congruence.
    + intros H y [<- | Hy]; [assumption | now apply IH].
    + intros H. apply IH. intros y Hy. apply H. now right.
Qed.

Lemma sort_rows_Permutation (before : R -> R -> bool) (l : list R) :
  Permutation (sort_rows before l) l.
Proof.
  unfold sort_rows.
  induction l as [|x l IH]; simpl; [reflexivity|].
  transitivity (x :: fold_right (insert_row before) [] l); [|now constructor].
  generalize (fold_right (insert_row before) [] l) as s. clear.
  induction s as [|y s IH]; simpl; [reflexivity|].
  destruct (before y x); [|reflexivity].
  rewrite IH. apply perm_swap.
Qed.

Lemma In_sort_rows (before : R -> R -> bool) (l : list R) (x : R) :
  In x (sort_rows before l) <-> In x l.
Proof.
  split; apply Permutation_in;
    [|symmetry]; apply sort_rows_Permutation.
Qed.

Lemma has_column_In (label : string) (d : DataFrame R) :
  has_column label d = true <-> In label (columns d).
Proof.
  unfold has_column. rewrite existsb_exists. split.
  - intros (c & Hc & E). apply String.eqb_eq in E. now subst.
  - intros H. exists label. split; [assumption | apply String.eqb_refl].
Qed.

(** Sorting a frame built from no record at all fails on the label. *)
Lemma sort_values_desc_no_records (labels : list string) (label : string)
    (key : R -> Q) :
  sort_values_desc label key (from_records labels []) = Raise (KeyError label).
Proof. reflexivity. Qed.

(** Sorting a frame built from at least one record keeps the records. *)
Lemma sort_values_desc_records (labels : list string) (label : string)
    (key : R -> Q) (records : list R) :
  records <> [] -> In label labels ->
  exists out,
    sort_values_desc label key (from_records labels records) = Ok out
    /\ columns out = labels
    /\ forall r, In r (rows out) <-> In r records.
Proof.
  intros Hne Hl. destruct records as [|r0 records]; [contradiction|].
  unfold sort_values_desc, from_records.
  assert (E : has_column label (mkDF labels (r0 :: records)) = true)
    by now apply has_column_In.
  rewrite E. eexists. split; [reflexivity|]. split; [reflexivity|].
  intros r. apply In_sort_rows.
Qed.

End FrameFacts.

(* ================================================================== *)
(** * Source-of-volume attribution                                     *)
(* ================================================================== *)

Section SovFacts.
Variable df : list Txn.row.

Lemma loss_of_fall (pre post : Q) :
  post - pre < 0 -> Qabs (post - pre) == Qmax 0 (pre - post).
Proof.
  intros H. rewrite Qabs_neg by lra. rewrite Q.max_r by lra. lra.
Qed.

Lemma no_loss_of_rise (pre post : Q) :
  0 <= post - pre -> Qmax 0 (pre - post) == 0.
Proof.
  intros H. rewrite Q.max_l by lra. reflexivity.
Qed.

Lemma get_groupby_sum (l : list Txn.row) (k : string) :
  Py.get k (groupby_sum String.eqb String.leb Txn.product_id Txn.revenue l)
  = match filter (fun r => String.eqb (Txn.product_id r) k) l with
    | [] => None
    | sales => Some (Qsum (map Txn.revenue sales))
    end.
Proof.
  unfold groupby_sum.
  rewrite (get_map_keys
             (fun k => Qsum (map Txn.revenue
                               (filter (fun r => String.eqb (Txn.product_id r) k) l)))).
  destruct (in_dec string_dec k _) as [Hin | Hout].
  - rewrite (In_group_keys String.eqb String.leb String.eqb_eq) in Hin.
    apply in_map_iff in Hin as (r & Hr & Hin).
    destruct (filter _ l) eqn:E; [|reflexivity].
    exfalso. rewrite filter_nil_iff in E. specialize (E r Hin).
    rewrite Hr, String.eqb_refl in E. discriminate.
  - destruct (filter _ l) as [|r s] eqn:E; [reflexivity|].
    exfalso. apply Hout. rewrite (In_group_keys String.eqb String.leb String.eqb_eq).
    assert (Hr : In r (filter (fun r => String.eqb (Txn.product_id r) k) l))
      by (rewrite E; now left).
    apply filter_In in Hr as [Hr Hk]. apply String.eqb_eq in Hk. subst k.
    now apply in_map.
Qed.

Lemma window_rows (sib win same : Txn.row -> bool) (l : list Txn.row) :
  filter same (filter win (filter sib l))
  = filter (fun t => sib t && same t && win t) l.
Proof.
  rewrite !filter_filter. apply filter_ext. intros t.
  destruct (sib t), (win t), (same t); reflexivity.
Qed.

Variable window_months : Z.
Variable launch : Launch.row.

Lemma get_pre_revenue (k : string) :
  Py.get k (SOV.pre_revenue_of df window_months launch)
  = Spec.pre_window_revenue df window_months launch k.
Proof.
  unfold SOV.pre_revenue_of, Spec.pre_window_revenue, Spec.window_revenue,
    SOV.existing_products.
  rewrite get_groupby_sum, window_rows. reflexivity.
Qed.

Lemma get_post_revenue (k : string) :
  Py.get k (SOV.post_revenue_of df window_months launch)
  = Spec.post_window_revenue df window_months launch k.
Proof.
  unfold SOV.post_revenue_of, Spec.post_window_revenue, Spec.window_revenue,
    SOV.existing_products.
  rewrite get_groupby_sum, window_rows. reflexivity.
Qed.

Lemma cannibalization_loop_total (pre_revenue post_revenue : dict Q)
    (keys : list string) (st : Q * list Cannibalized.row) :
  fst (fold_left (SOV.cannibalization_step pre_revenue post_revenue) keys st)
  == fst st + Qsum (map (booked_loss pre_revenue post_revenue) keys).
Proof.
  revert st. induction keys as [|k keys IH]; intros st; simpl; [lra|].
  rewrite IH. unfold SOV.cannibalization_step, booked_loss.
  destruct (Py.get k post_revenue) as [post|]; [|lra].
  destruct (Py.get k pre_revenue) as [pre|]; [|lra].
  destruct (Qlt_le_dec (post - pre) 0) as [Hlt | Hge]; simpl.
  - rewrite (loss_of_fall _ _ Hlt). lra.
  - rewrite (no_loss_of_rise _ _ Hge). lra.
Qed.

Lemma cannibalization_loop_entries (pre_revenue post_revenue : dict Q)
    (keys : list string) (st : Q * list Cannibalized.row) (e : Cannibalized.row) :
  In e (snd (fold_left (SOV.cannibalization_step pre_revenue post_revenue) keys st)) ->
  In e (snd st) \/ booked_entry pre_revenue post_revenue e.
Proof.
  revert st. induction keys as [|k keys IH]; intros st; simpl; [now left|].
  intros H. destruct (IH _ H) as [Hin | Hb]; [|now right].
  unfold SOV.cannibalization_step in Hin.
  destruct (Py.get k post_revenue) as [post|] eqn:Epost; [|now left].
  destruct (Py.get k pre_revenue) as [pre|] eqn:Epre; [|now left].
  destruct (Qlt_le_dec (post - pre) 0) as [Hlt | Hge]; [|now left].
  cbn [snd] in Hin. apply in_app_or in Hin as [Hin | [<- | []]]; [now left|].
  right. exists pre, post.
  cbn [Cannibalized.product_id Cannibalized.revenue_loss Cannibalized.pct_change].
  split; [assumption|]. split; [assumption|]. split; [lra|].
  split; [|reflexivity].
  rewrite Qabs_neg by lra. lra.
Qed.

Lemma sov_of_cannibalized_revenue :
  SovRecord.cannibalized_revenue (SOV.sov_of df window_months launch)
  = fst (fold_left
           (SOV.cannibalization_step
              (SOV.pre_revenue_of df window_months launch)
              (SOV.post_revenue_of df window_months launch))
           (map fst (SOV.pre_revenue_of df window_months launch)) (0, [])).
Proof.
  unfold SOV.sov_of. destruct (fold_left _ _ _). reflexivity.
Qed.

Lemma sov_of_cannibalized_products :
  SovRecord.cannibalized_products (SOV.sov_of df window_months launch)
  = snd (fold_left
           (SOV.cannibalization_step
              (SOV.pre_revenue_of df window_months launch)
              (SOV.post_revenue_of df window_months launch))
           (map fst (SOV.pre_revenue_of df window_months launch)) (0, [])).
Proof.
  unfold SOV.sov_of. destruct (fold_left _ _ _). reflexivity.
Qed.

Lemma booked_loss_is_sibling_loss (k : string) :
  booked_loss (SOV.pre_revenue_of df window_months launch)
              (SOV.post_revenue_of df window_months launch) k
  = Spec.sibling_loss df window_months launch k.
Proof.
  unfold booked_loss, Spec.sibling_loss.
  rewrite get_pre_revenue, get_post_revenue.
  destruct (Spec.pre_window_revenue _ _ _ k), (Spec.post_window_revenue _ _ _ k);
    reflexivity.
Qed.

Lemma sibling_loss_nonneg (k : string) :
  0 <= Spec.sibling_loss df window_months launch k.
Proof.
  unfold Spec.sibling_loss.
  destruct (Spec.pre_window_revenue df window_months launch k); [|lra].
  destruct (Spec.post_window_revenue df window_months launch k); [|lra].
  apply Q.le_max_l.
Qed.

Lemma pre_keys :
  map fst (SOV.pre_revenue_of df window_months launch)
  = group_keys String.eqb String.leb
      (map Txn.product_id
         (filter (fun t => in_window
                             (DateOffset_months (Launch.launch_date launch)
                                                (- window_months))
                             (Launch.launch_date launch) (Txn.date t))
                 (SOV.existing_products df launch))).
Proof. apply groupby_sum_keys. Qed.

Lemma pre_key_iff (k : string) :
  In k (map fst (SOV.pre_revenue_of df window_months launch))
  <-> Spec.pre_window_revenue df window_months launch k <> None.
Proof.
  rewrite <- get_pre_revenue. apply In_keys_iff.
Qed.

Lemma sov_of_cannibalized_revenue_spec :
  SovRecord.cannibalized_revenue (SOV.sov_of df window_months launch)
  == Spec.cannibalized_revenue df window_months launch.
Proof.
  rewrite sov_of_cannibalized_revenue, cannibalization_loop_total. simpl.
  rewrite Qplus_0_l. unfold Spec.cannibalized_revenue.
  rewrite (Qsum_map_ext _ (Spec.sibling_loss df window_months launch))
    by (intros; rewrite booked_loss_is_sibling_loss; reflexivity).
  apply Qsum_NoDup_incl.
  - rewrite pre_keys. apply NoDup_group_keys, String.eqb_eq.
  - apply NoDup_nodup.
  - intros k Hk. rewrite pre_keys in Hk.
    rewrite (In_group_keys String.eqb String.leb String.eqb_eq) in Hk.
    apply in_map_iff in Hk as (t & <- & Ht).
    apply filter_In in Ht as [Ht _].
    apply nodup_In, in_map. exact Ht.
  - intros k _ Hk. unfold Spec.sibling_loss.
    destruct (Spec.pre_window_revenue df window_months launch k) eqn:E;
      [|reflexivity].
    exfalso. apply Hk, pre_key_iff. congruence.
Qed.

End SovFacts.

Section SovRecords.
Variable df : list Txn.row.
Variable new_launches : DataFrame Launch.row.
Variable window_months : Z.

(** Every record of [sov_by_launch] is the record of a launch row. *)
Lemma sov_record_of_launch (product_id : string) (sov_data : SovRecord.t) :
  In (product_id, sov_data)
     (Py.items (SOV._analyze_sov_by_launch df new_launches window_months)) ->
  exists launch,
    In launch (rows new_launches)
    /\ Launch.product_id launch = product_id
    /\ sov_data = SOV.sov_of df window_months launch.
Proof.
  intros H. unfold SOV._analyze_sov_by_launch in H.
  apply In_assignments in H as [(l & Hl & Hk & Hv) | []].
  exists l. auto.
Qed.

Lemma pre_key_is_sibling (launch : Launch.row) (k : string) :
  Spec.pre_window_revenue df window_months launch k <> None ->
  In k (Spec.sibling_ids df launch).
Proof.
  unfold Spec.pre_window_revenue, Spec.window_revenue, Spec.sibling_ids.
  destruct (filter _ df) as [|t s] eqn:E; [congruence|]. intros _.
  assert (Ht : In t (filter
                       (fun t => Spec.is_sibling launch t
                                 && String.eqb (Txn.product_id t) k
                                 && in_window
                                      (DateOffset_months (Launch.launch_date launch)
                                                         (- window_months))
                                      (Launch.launch_date launch) (Txn.date t)) df))
    by (rewrite E; now left).
  apply filter_In in Ht as [Hin Hp].
  apply andb_prop in Hp as [Hp _]. apply andb_prop in Hp as [Hs Hk].
  apply String.eqb_eq in Hk. subst k.
  apply nodup_In, in_map, filter_In. now split.
Qed.

Lemma sov_of_cannibalized_revenue_nonneg (launch : Launch.row) :
  0 <= SovRecord.cannibalized_revenue (SOV.sov_of df window_months launch).
Proof.
  rewrite sov_of_cannibalized_revenue_spec.
  apply Qsum_nonneg. intros x Hx.
  apply in_map_iff in Hx as (k & <- & _). apply sibling_loss_nonneg.
Qed.

Lemma sov_of_competitor_loss_nonneg (launch : Launch.row) :
  0 <= SovRecord.competitor_loss (SOV.sov_of df window_months launch).
Proof.
  unfold SOV.sov_of. destruct (fold_left _ _ _).
  cbn [SovRecord.competitor_loss].
  destruct (Qlt_le_dec _ _); lra.
Qed.

Lemma window_revenue_nonneg (launch : Launch.row) (start stop : Timestamp)
    (p : string) (r : Q) :
  (forall t, In t df -> 0 <= Txn.revenue t) ->
  Spec.window_revenue df launch start stop p = Some r -> 0 <= r.
Proof.
  intros Hpos. unfold Spec.window_revenue.
  remember (filter _ df) as sales eqn:E.
  assert (Hs : forall t, In t sales -> In t df)
    by (intros t Ht; rewrite E in Ht; now apply filter_In in Ht).
  clear E. destruct sales as [|t s]; [discriminate|]. intros [= <-].
  apply (Qsum_nonneg (map Txn.revenue (t :: s))). intros x Hx.
  apply in_map_iff in Hx as (u & <- & Hu). apply Hpos, Hs, Hu.
Qed.

Lemma pct_change_negative (pre post : Q) :
  0 < pre -> post < pre -> (post - pre) / pre * 100 < 0.
Proof.
  intros Hpre Hlt.
  assert (Hi : 0 < / pre) by now apply Qinv_lt_0_compat.
  unfold Qdiv. set (i := / pre) in *. nra.
Qed.

(** C1.  For every analyzed launch, [cannibalized_revenue] is the sum, over
    the other products of the launch's category and brand that have revenue
    on record in both the pre window and the post window, of
    max(0, pre-window revenue - post-window revenue).  A sibling with no
    pre-window revenue, or whose revenue did not fall, contributes nothing;
    and no sibling's increase offsets another's loss: the total is at least
    every single sibling's loss. *)
Theorem cannibalized_revenue_sums_sibling_losses
    (product_id : string) (sov_data : SovRecord.t) :
  In (product_id, sov_data)
     (Py.items (SOV._analyze_sov_by_launch df new_launches window_months)) ->
  exists launch,
    In launch (rows new_launches)
    /\ Launch.product_id launch = product_id
    /\ SovRecord.cannibalized_revenue sov_data
       == Spec.cannibalized_revenue df window_months launch
    /\ (forall p,
          Spec.pre_window_revenue df window_months launch p = None ->
          Spec.sibling_loss df window_months launch p == 0)
    /\ (forall p pre post,
          Spec.pre_window_revenue df window_months launch p = Some pre ->
          Spec.post_window_revenue df window_months launch p = Some post ->
          pre <= post ->
          Spec.sibling_loss df window_months launch p == 0)
    /\ (forall p,
          Spec.sibling_loss df window_months launch p
          <= SovRecord.cannibalized_revenue sov_data).
Proof.
  intros H. apply sov_record_of_launch in H as (launch & Hl & Hk & ->).
  exists launch. split; [assumption|]. split; [assumption|].
  split; [apply sov_of_cannibalized_revenue_spec|].
  split; [|split].
  - intros p Hp. unfold Spec.sibling_loss. rewrite Hp. reflexivity.
  - intros p pre post Hpre Hpost Hle. unfold Spec.sibling_loss.
    rewrite Hpre, Hpost. apply no_loss_of_rise. lra.
  - intros p. rewrite sov_of_cannibalized_revenue_spec.
    destruct (Spec.pre_window_revenue df window_months launch p) eqn:E.
    + apply (Qsum_ge_term (Spec.sibling_loss df window_months launch)).
      * apply sibling_loss_nonneg.
      * apply pre_key_is_sibling. congruence.
    + unfold Spec.sibling_loss at 1. rewrite E.
      rewrite <- sov_of_cannibalized_revenue_spec.
      apply sov_of_cannibalized_revenue_nonneg.
Qed.

(** C9.  In every SOV record, for any launch and any transaction table,
    [cannibalized_revenue] and [competitor_loss] are at least 0. *)
Theorem sov_record_losses_nonneg
    (product_id : string) (sov_data : SovRecord.t) :
  In (product_id, sov_data)
     (Py.items (SOV._analyze_sov_by_launch df new_launches window_months)) ->
  0 <= SovRecord.cannibalized_revenue sov_data
  /\ 0 <= SovRecord.competitor_loss sov_data.
Proof.
  intros H. apply sov_record_of_launch in H as (launch & _ & _ & ->).
  split.
  - apply sov_of_cannibalized_revenue_nonneg.
  - apply sov_of_competitor_loss_nonneg.
Qed.

(** C10, as amended.  Every entry of [cannibalized_products] belongs to a
    sibling with revenue on record in both windows whose post-window revenue
    is strictly below its pre-window revenue, and has [revenue_loss] > 0.
    Its [pct_change] is negative when the sibling's pre-window revenue is
    positive, and is the guard's 0 when that revenue is zero or negative;
    when no transaction of the table has negative revenue the pre-window
    revenue of a recorded loss is positive, so [pct_change] < 0. *)
Theorem cannibalized_entry_is_a_loss
    (product_id : string) (sov_data : SovRecord.t) (e : Cannibalized.row) :
  In (product_id, sov_data)
     (Py.items (SOV._analyze_sov_by_launch df new_launches window_months)) ->
  In e (SovRecord.cannibalized_products sov_data) ->
  exists launch pre post,
    In launch (rows new_launches)
    /\ Launch.product_id launch = product_id
    /\ Spec.pre_window_revenue df window_months launch
         (Cannibalized.product_id e) = Some pre
    /\ Spec.post_window_revenue df window_months launch
         (Cannibalized.product_id e) = Some post
    /\ post < pre
    /\ 0 < Cannibalized.revenue_loss e
    /\ (0 < pre -> Cannibalized.pct_change e < 0)
    /\ (pre <= 0 -> Cannibalized.pct_change e = 0)
    /\ ((forall t, In t df -> 0 <= Txn.revenue t) ->
        0 < pre /\ Cannibalized.pct_change e < 0).
Proof.
  intros H He. apply sov_record_of_launch in H as (launch & Hl & Hk & ->).
  rewrite sov_of_cannibalized_products in He.
  apply cannibalization_loop_entries in He as [[] | Hb].
  destruct Hb as (pre & post & Hpre & Hpost & Hlt & Hloss & Hpct).
  rewrite get_pre_revenue in Hpre. rewrite get_post_revenue in Hpost.
  exists launch, pre, post.
  assert (Hneg : 0 < pre -> Cannibalized.pct_change e < 0).
  { intros Hp. rewrite Hpct. destruct (Qlt_le_dec 0 pre); [|lra].
    now apply pct_change_negative. }
  repeat (split; [assumption|]).
  split; [rewrite Hloss; lra|].
  split; [assumption|].
  split.
  - intros Hp. rewrite Hpct. destruct (Qlt_le_dec 0 pre); [lra | reflexivity].
  - intros Hpos.
    assert (0 <= post) by (eapply window_revenue_nonneg; eauto).
    assert (0 < pre) by lra. auto.
Qed.

End SovRecords.

Section SovScenarios.
Import Scenario.

(** The launch of N: A's fall of 50 is the only cannibalization; B, which
    has no sale before the launch, and D, which grew, add nothing and take
    nothing away. *)
Example sov_of_launch_N :
  SOV._analyze_sov_by_launch sales_N launches_N 6
  = [("N",
      SovRecord.mk "N" "N" (mkTs 2024 7 1) 200 1 50
        [Cannibalized.mk "A" 50 (-5000 # 100)] 30 40
        (Breakdown.mk (5000 # 200) (3000 # 200) (4000 # 200)))].
Proof. vm_compute. reflexivity. Qed.

Lemma cannibalized_revenue_sums_sibling_losses_witness :
  In ("N", SOV.sov_of sales_N 6 launch_N)
     (Py.items (SOV._analyze_sov_by_launch sales_N launches_N 6))
  /\ exists launch,
       In launch (rows launches_N)
       /\ Launch.product_id launch = "N"
       /\ SovRecord.cannibalized_revenue (SOV.sov_of sales_N 6 launch_N)
          == Spec.cannibalized_revenue sales_N 6 launch
       /\ (forall p,
             Spec.pre_window_revenue sales_N 6 launch p = None ->
             Spec.sibling_loss sales_N 6 launch p == 0)
       /\ (forall p pre post,
             Spec.pre_window_revenue sales_N 6 launch p = Some pre ->
             Spec.post_window_revenue sales_N 6 launch p = Some post ->
             pre <= post ->
             Spec.sibling_loss sales_N 6 launch p == 0)
       /\ (forall p,
             Spec.sibling_loss sales_N 6 launch p
             <= SovRecord.cannibalized_revenue (SOV.sov_of sales_N 6 launch_N)).
Proof.
  assert (H : In ("N", SOV.sov_of sales_N 6 launch_N)
                 (Py.items (SOV._analyze_sov_by_launch sales_N launches_N 6)))
    by (vm_compute; left; reflexivity).
  split; [exact H|].
  exact (cannibalized_revenue_sums_sibling_losses
           sales_N launches_N 6 "N" (SOV.sov_of sales_N 6 launch_N) H).
Defined.

Lemma sov_record_losses_nonneg_witness :
  In ("N", SOV.sov_of sales_N 6 launch_N)
     (Py.items (SOV._analyze_sov_by_launch sales_N launches_N 6))
  /\ 0 <= SovRecord.cannibalized_revenue (SOV.sov_of sales_N 6 launch_N)
  /\ 0 <= SovRecord.competitor_loss (SOV.sov_of sales_N 6 launch_N).
Proof.
  assert (H : In ("N", SOV.sov_of sales_N 6 launch_N)
                 (Py.items (SOV._analyze_sov_by_launch sales_N launches_N 6)))
    by (vm_compute; left; reflexivity).
  split; [exact H|].
  exact (sov_record_losses_nonneg
           sales_N launches_N 6 "N" (SOV.sov_of sales_N 6 launch_N) H).
Defined.

(** A refund after the launch against a zero-revenue sale before it: the
    sibling is recorded as cannibalized and its [pct_change] is the guard's
    0, not a negative number. *)
Lemma refund_entry_has_zero_pct_change :
  ~ (forall sov_data e,
       In ("N", sov_data)
          (Py.items (SOV._analyze_sov_by_launch sales_refund launches_N 6)) ->
       In e (SovRecord.cannibalized_products sov_data) ->
       0 < Cannibalized.revenue_loss e /\ Cannibalized.pct_change e < 0).
Proof.
  intros H.
  destruct (H (SOV.sov_of sales_refund 6 launch_N) (Cannibalized.mk "R" 10 0))
    as [_ Hneg].
  - vm_compute. left. reflexivity.
  - vm_compute. left. reflexivity.
  - vm_compute in Hneg. discriminate.
Qed.

Lemma cannibalized_entry_is_a_loss_witness :
  In ("N", SOV.sov_of sales_N 6 launch_N)
     (Py.items (SOV._analyze_sov_by_launch sales_N launches_N 6))
  /\ In (Cannibalized.mk "A" 50 (-5000 # 100))
        (SovRecord.cannibalized_products (SOV.sov_of sales_N 6 launch_N))
  /\ exists launch pre post,
       In launch (rows launches_N)
       /\ Launch.product_id launch = "N"
       /\ Spec.pre_window_revenue sales_N 6 launch "A" = Some pre
       /\ Spec.post_window_revenue sales_N 6 launch "A" = Some post
       /\ post < pre
       /\ 0 < 50
       /\ (0 < pre -> -5000 # 100 < 0)
       /\ (pre <= 0 -> -5000 # 100 = 0)
       /\ ((forall t, In t sales_N -> 0 <= Txn.revenue t) ->
           0 < pre /\ -5000 # 100 < 0).
Proof.
  assert (H : In ("N", SOV.sov_of sales_N 6 launch_N)
                 (Py.items (SOV._analyze_sov_by_launch sales_N launches_N 6)))
    by (vm_compute; left; reflexivity).
  assert (He : In (Cannibalized.mk "A" 50 (-5000 # 100))
                  (SovRecord.cannibalized_products (SOV.sov_of sales_N 6 launch_N)))
    by (vm_compute; left; reflexivity).
  split; [exact H|]. split; [exact He|].
  exact (cannibalized_entry_is_a_loss
           sales_N launches_N 6 "N" (SOV.sov_of sales_N 6 launch_N)
           (Cannibalized.mk "A" 50 (-5000 # 100)) H He).
Defined.

End SovScenarios.

Section SignificanceFacts.
Variable df : list Txn.row.
Variable ttest_ind : list Q -> list Q -> Q * Q.

(** The tests recorded for a launch are those of its cannibalized siblings
    with more than one monthly observation on each side within six months
    of the launch date, whatever window the decomposition used. *)
Lemma significance_tests_of_record (sov_by_launch : dict SovRecord.t)
    (product_id : string) (tests : list Test.row) :
  In (product_id, tests)
     (Py.items (SOV._perform_significance_tests df ttest_ind sov_by_launch)) ->
  exists sov_data,
    In (product_id, sov_data) (Py.items sov_by_launch)
    /\ tests
       = collect
           (SOV.test_of df ttest_ind
              (DateOffset_months (SovRecord.launch_date sov_data) (- 6))
              (SovRecord.launch_date sov_data)
              (SovRecord.launch_date sov_data)
              (DateOffset_months (SovRecord.launch_date sov_data) 6))
           (SovRecord.cannibalized_products sov_data).
Proof.
  unfold SOV._perform_significance_tests, Py.items.
  assert (G : forall (acc : dict (list Test.row)),
             In (product_id, tests)
                (fold_left
                   (fun significance_results '(product_id, sov_data) =>
                      Py.set product_id
                        (collect
                           (SOV.test_of df ttest_ind
                              (DateOffset_months (SovRecord.launch_date sov_data) (- 6))
                              (SovRecord.launch_date sov_data)
                              (SovRecord.launch_date sov_data)
                              (DateOffset_months (SovRecord.launch_date sov_data) 6))
                           (SovRecord.cannibalized_products sov_data))
                        significance_results)
                   sov_by_launch acc) ->
             (exists sov_data,
                In (product_id, sov_data) sov_by_launch
                /\ tests
                   = collect
                       (SOV.test_of df ttest_ind
                          (DateOffset_months (SovRecord.launch_date sov_data) (- 6))
                          (SovRecord.launch_date sov_data)
                          (SovRecord.launch_date sov_data)
                          (DateOffset_months (SovRecord.launch_date sov_data) 6))
                       (SovRecord.cannibalized_products sov_data))
             \/ In (product_id, tests) acc).
  { induction sov_by_launch as [|[k v] d IH]; intros acc; simpl.
    - now right.
    - intros H. destruct (IH _ H) as [(sd & Hin & Ht) | Hacc].
      + left. exists sd. split; [now right | assumption].
      + apply In_set in Hacc as [[-> ->] | Hacc]; [|now right].
        left. exists v. split; [now left | reflexivity]. }
  intros H. destruct (G [] H) as [? | []]. assumption.
Qed.

End SignificanceFacts.

Section SignificanceScenarios.
Import Scenario.
Variable ttest_ind : list Q -> list Q -> Q * Q.

(** With the default window of six months a sibling with two monthly
    observations on each side of the launch gets its test recorded. *)
Example significance_test_recorded_at_six_months :
  SOV.significance_tests (SOV.execute sales_six launches_N ttest_fixed 6)
  = [("N", [Test.mk "A" 100 (-10000 # 200) 2 (1 # 100) true])].
Proof. vm_compute. reflexivity. Qed.

(** C4, at [execute(window_months=12)].  Sibling A is recorded as
    cannibalized over the twelve-month windows of the decomposition and has
    two monthly observations in each of them, yet no test is recorded for
    it: [_perform_significance_tests] looks at the six months around the
    launch, whatever [window_months] is. *)
Theorem significance_tests_ignore_window_months :
  let launch_date := mkTs 2024 7 1 in
  let results := SOV.execute sales_wide launches_N ttest_ind 12 in
  (exists sov_data,
     Py.get "N" (SOV.sov_by_launch results) = Some sov_data
     /\ SovRecord.cannibalized_products sov_data
        = [Cannibalized.mk "A" 100 (-10000 # 200)])
  /\ List.length (SOV.monthly_revenue sales_wide "A"
                    (DateOffset_months launch_date (-12)) launch_date) = 2%nat
  /\ List.length (SOV.monthly_revenue sales_wide "A"
                    launch_date (DateOffset_months launch_date 12)) = 2%nat
  /\ SOV.significance_tests results = [("N", [])].
Proof.
  cbv zeta. split; [|split; [|split]].
  - eexists. split; vm_compute; reflexivity.
  - vm_compute. reflexivity.
  - vm_compute. reflexivity.
  - vm_compute. reflexivity.
Qed.

End SignificanceScenarios.

(* ================================================================== *)
(** * Net portfolio impact                                             *)
(* ================================================================== *)

Section ImpactFacts.
Variable df : list Txn.row.
Variable new_launches : DataFrame Launch.row.
Variable sov_results : SOV.Results.

Lemma classify_cases (net_impact new_product_revenue : Q) :
  (0 < net_impact
   /\ PortfolioImpact.classify net_impact new_product_revenue = "Additive")
  \/ (net_impact <= 0
      /\ net_impact < - (1 # 10) * new_product_revenue
      /\ PortfolioImpact.classify net_impact new_product_revenue = "Substitutive")
  \/ (net_impact <= 0
      /\ - (1 # 10) * new_product_revenue <= net_impact
      /\ PortfolioImpact.classify net_impact new_product_revenue = "Neutral").
Proof.
  unfold PortfolioImpact.classify.
  destruct (Qlt_le_dec 0 net_impact) as [Hpos | Hle]; [now left|].
  destruct (Qlt_le_dec net_impact (- new_product_revenue * (1 # 10)))
    as [Hlt | Hge]; right; [left | right]; repeat split; auto; lra.
Qed.

Lemma impact_of_row (window_months : Z) (launch : Launch.row) (r : Impact.row) :
  PortfolioImpact.impact_of df sov_results window_months launch = Some r ->
  exists sov_data,
    Py.get (Launch.product_id launch) (SOV.sov_by_launch sov_results)
    = Some sov_data
    /\ Impact.product_id r = Launch.product_id launch
    /\ Impact.new_product_revenue r = SovRecord.new_product_revenue sov_data
    /\ Impact.lost_revenue r = SovRecord.cannibalized_revenue sov_data
    /\ Impact.net_impact r
       = Impact.new_product_revenue r - Impact.lost_revenue r
    /\ Impact.launch_type r
       = PortfolioImpact.classify (Impact.net_impact r)
                                  (Impact.new_product_revenue r).
Proof.
  unfold PortfolioImpact.impact_of.
  destruct (Py.get _ _) as [sov_data|]; [|discriminate].
  intros [= <-]. exists sov_data. repeat split.
Qed.

Lemma portfolio_impact_rows (window_months : Z) (out : DataFrame Impact.row)
    (r : Impact.row) :
  PortfolioImpact._calculate_portfolio_impact df new_launches sov_results
    window_months = Ok out ->
  In r (rows out) ->
  exists launch,
    In launch (rows new_launches)
    /\ PortfolioImpact.impact_of df sov_results window_months launch = Some r.
Proof.
  unfold PortfolioImpact._calculate_portfolio_impact. intros Hout Hr.
  destruct (collect (PortfolioImpact.impact_of df sov_results window_months)
                    (rows new_launches)) as [|r0 rs] eqn:E.
  - rewrite sort_values_desc_no_records in Hout. discriminate.
  - destruct (sort_values_desc_records Impact.labels "net_impact"
                Impact.net_impact (r0 :: rs)) as (out' & Hout' & _ & Hrows).
    + discriminate.
    + simpl. tauto.
    + rewrite Hout' in Hout. injection Hout as <-.
      apply Hrows in Hr. rewrite <- E in Hr.
      apply In_collect in Hr as (launch & Hl & Hb). eauto.
Qed.

(** The table is returned as soon as one launch has an SOV record, and
    then every launch with a record has its row. *)
Lemma portfolio_impact_returns (window_months : Z) (launch : Launch.row) :
  In launch (rows new_launches) ->
  Py.get (Launch.product_id launch) (SOV.sov_by_launch sov_results) <> None ->
  exists out r,
    PortfolioImpact._calculate_portfolio_impact df new_launches sov_results
      window_months = Ok out
    /\ In r (rows out)
    /\ PortfolioImpact.impact_of df sov_results window_months launch = Some r.
Proof.
  intros Hl Hget.
  assert (Hr : exists r,
             PortfolioImpact.impact_of df sov_results window_months launch
             = Some r).
  { unfold PortfolioImpact.impact_of.
    destruct (Py.get _ _); [eexists; reflexivity | contradiction]. }
  destruct Hr as [r Hr].
  assert (Hin : In r (collect (PortfolioImpact.impact_of df sov_results
                                 window_months) (rows new_launches)))
    by (apply In_collect; eauto).
  unfold PortfolioImpact._calculate_portfolio_impact.
  destruct (sort_values_desc_records Impact.labels "net_impact"
              Impact.net_impact
              (collect (PortfolioImpact.impact_of df sov_results window_months)
                       (rows new_launches)))
    as (out & Hout & _ & Hrows).
  - intros E. rewrite E in Hin. contradiction.
  - simpl. tauto.
  - exists out, r. split; [exact Hout|]. split; [now apply Hrows | exact Hr].
Qed.

(** C2.  Every row of the portfolio-impact table takes its two revenues
    from the SOV record of its launch, has [net_impact] equal to
    [new_product_revenue] minus the cannibalized ([lost]) revenue, and
    carries exactly one label, by the rules in order: a positive net impact
    is Additive; otherwise a net impact below -0.1 times the new revenue is
    Substitutive; otherwise the launch is Neutral. *)
Theorem portfolio_impact_net_and_label (window_months : Z)
    (out : DataFrame Impact.row) (r : Impact.row) :
  PortfolioImpact._calculate_portfolio_impact df new_launches sov_results
    window_months = Ok out ->
  In r (rows out) ->
  (exists launch sov_data,
     In launch (rows new_launches)
     /\ Impact.product_id r = Launch.product_id launch
     /\ Py.get (Launch.product_id launch) (SOV.sov_by_launch sov_results)
        = Some sov_data
     /\ Impact.new_product_revenue r = SovRecord.new_product_revenue sov_data
     /\ Impact.lost_revenue r = SovRecord.cannibalized_revenue sov_data)
  /\ Impact.net_impact r = Impact.new_product_revenue r - Impact.lost_revenue r
  /\ ((0 < Impact.net_impact r /\ Impact.launch_type r = "Additive")
      \/ (Impact.net_impact r <= 0
          /\ Impact.net_impact r < - (1 # 10) * Impact.new_product_revenue r
          /\ Impact.launch_type r = "Substitutive")
      \/ (Impact.net_impact r <= 0
          /\ - (1 # 10) * Impact.new_product_revenue r <= Impact.net_impact r
          /\ Impact.launch_type r = "Neutral")).
Proof.
  intros Hout Hr.
  destruct (portfolio_impact_rows _ _ _ Hout Hr) as (launch & Hl & Hrow).
  apply impact_of_row in Hrow
    as (sov_data & Hget & Hid & Hnew & Hlost & Hnet & Htype).
  split; [|split].
  - exists launch, sov_data. auto.
  - exact Hnet.
  - rewrite Htype. apply classify_cases.
Qed.

(** One turn of the accumulation loop of the aggregations against the
    per-launch row of the portfolio-impact table. *)
Lemma totals_step_row (window_months : Z) (st : Q * Q) (l : Launch.row) :
  match PortfolioImpact.impact_of df sov_results window_months l with
  | Some r =>
      PortfolioImpact.totals_step sov_results st l
      = (fst st + Impact.new_product_revenue r, snd st + Impact.lost_revenue r)
      /\ Impact.net_impact r
         = Impact.new_product_revenue r - Impact.lost_revenue r
  | None => PortfolioImpact.totals_step sov_results st l = st
  end.
Proof.
  unfold PortfolioImpact.impact_of, PortfolioImpact.totals_step.
  destruct (Py.get _ _); [split|]; reflexivity.
Qed.

Lemma totals_loop (window_months : Z) (ls : list Launch.row) (st : Q * Q) :
  let constituents :=
    collect (PortfolioImpact.impact_of df sov_results window_months) ls in
  let totals := fold_left (PortfolioImpact.totals_step sov_results) ls st in
  fst totals == fst st + Qsum (map Impact.new_product_revenue constituents)
  /\ snd totals == snd st + Qsum (map Impact.lost_revenue constituents)
  /\ fst totals - snd totals
     == fst st - snd st + Qsum (map Impact.net_impact constituents).
Proof.
  cbv zeta. revert st. induction ls as [|l ls IH]; intros st.
  - simpl. repeat split; lra.
  - rewrite collect_cons. cbn [fold_left].
    destruct (IH (PortfolioImpact.totals_step sov_results st l))
      as (Hn & Hl & Hd).
    pose proof (totals_step_row window_months st l) as Hs.
    destruct (PortfolioImpact.impact_of df sov_results window_months l)
      as [r|].
    + destruct Hs as [Hs Hnet]. rewrite Hs in Hn, Hl, Hd |- *.
      cbn [map Qsum fst snd] in *. rewrite Hnet.
      repeat split; lra.
    + rewrite Hs in Hn, Hl, Hd |- *. repeat split; assumption.
Qed.

Lemma group_impact_of_sums (window_months : Z) (key : Launch.row -> string)
    (g : string) :
  GroupImpact.group (PortfolioImpact.group_impact_of new_launches sov_results key g) = g
  /\ Spec.summation_then_ratio df new_launches sov_results window_months key
       (PortfolioImpact.group_impact_of new_launches sov_results key g).
Proof.
  unfold Spec.summation_then_ratio, PortfolioImpact.group_impact_of.
  pose proof (totals_loop window_months
                (filter (fun l => String.eqb (key l) g) (rows new_launches))
                (0, 0)) as H.
  cbv zeta in H.
  destruct (fold_left _ _ _) as [total_new total_lost].
  cbn [GroupImpact.group GroupImpact.total_new_revenue
         GroupImpact.total_lost_revenue GroupImpact.net_impact
         GroupImpact.net_impact_pct fst snd] in *.
  destruct H as (Hn & Hl & Hd).
  split; [reflexivity|].
  split; [rewrite Hn; lra|]. split; [rewrite Hl; lra|].
  split; [reflexivity|]. split; [reflexivity|].
  rewrite Hd. lra.
Qed.

Lemma group_impact_rows (label group_label : string)
    (key : Launch.row -> string) :
  has_column label new_launches = true ->
  rows new_launches <> [] ->
  exists out,
    PortfolioImpact.group_impact new_launches sov_results label group_label key
    = Ok out
    /\ forall r, In r (rows out) <->
                 exists launch,
                   In launch (rows new_launches)
                   /\ r = PortfolioImpact.group_impact_of new_launches
                            sov_results key (key launch).
Proof.
  intros Hcol Hne. unfold PortfolioImpact.group_impact, column.
  rewrite Hcol. cbn [Py.bind].
  destruct (sort_values_desc_records (GroupImpact.labels group_label)
              "net_impact" GroupImpact.net_impact
              (map (PortfolioImpact.group_impact_of new_launches sov_results key)
                   (unique (map key (rows new_launches)))))
    as (out & Hout & _ & Hrows).
  - destruct (rows new_launches) as [|l ls]; [contradiction|]. discriminate.
  - simpl. tauto.
  - exists out. split; [exact Hout|]. intros r. rewrite Hrows, in_map_iff.
    split.
    + intros (g & <- & Hg). unfold unique in Hg.
      rewrite (In_unique_by String.eqb String.eqb_eq) in Hg.
      apply in_map_iff in Hg as (launch & <- & Hl). eauto.
    + intros (launch & Hl & ->). exists (key launch). split; [reflexivity|].
      unfold unique. rewrite (In_unique_by String.eqb String.eqb_eq).
      now apply in_map.
Qed.

(** C7.  For a launch table with at least one row and the columns that
    the aggregations read ([type] and [brand] for the groups,
    [product_id] for the SOV record of each launch), both aggregations
    return; every category among the launches has its row, which sums
    [new_product_revenue] and [cannibalized_revenue] over the launches of
    the category and derives [net_impact] and [net_impact_pct] from the two
    sums, so that its [net_impact] is the sum of the per-launch net impacts;
    and likewise every brand. *)
Theorem group_impact_sums_then_ratio (window_months : Z) :
  has_column "product_id" new_launches = true ->
  has_column "type" new_launches = true ->
  has_column "brand" new_launches = true ->
  rows new_launches <> [] ->
  exists category_df brand_df,
    PortfolioImpact._calculate_category_impact new_launches sov_results
    = Ok category_df
    /\ PortfolioImpact._calculate_brand_impact new_launches sov_results
       = Ok brand_df
    /\ (forall launch, In launch (rows new_launches) ->
          exists row,
            In row (rows category_df)
            /\ GroupImpact.group row = Launch.type launch
            /\ Spec.summation_then_ratio df new_launches sov_results
                 window_months Launch.type row)
    /\ (forall launch, In launch (rows new_launches) ->
          exists row,
            In row (rows brand_df)
            /\ GroupImpact.group row = Launch.brand launch
            /\ Spec.summation_then_ratio df new_launches sov_results
                 window_months Launch.brand row).
Proof.
  intros _ Htype Hbrand Hne.
  destruct (group_impact_rows "type" "category" Launch.type Htype Hne)
    as (category_df & Hc & Hcrows).
  destruct (group_impact_rows "brand" "brand" Launch.brand Hbrand Hne)
    as (brand_df & Hb & Hbrows).
  exists category_df, brand_df.
  split; [exact Hc|]. split; [exact Hb|]. split.
  - intros launch Hl.
    exists (PortfolioImpact.group_impact_of new_launches sov_results
              Launch.type (Launch.type launch)).
    split; [apply Hcrows; eauto|]. apply group_impact_of_sums.
  - intros launch Hl.
    exists (PortfolioImpact.group_impact_of new_launches sov_results
              Launch.brand (Launch.brand launch)).
    split; [apply Hbrows; eauto|]. apply group_impact_of_sums.
Qed.

End ImpactFacts.

Section ImpactScenarios.
Import Scenario.

(** The launch of N earns 200 and cannibalizes 50: net impact 150,
    Additive. *)
Example portfolio_impact_of_launch_N :
  PortfolioImpact._calculate_portfolio_impact sales_N launches_N sov_results_N 6
  = Ok (mkDF Impact.labels [impact_row_N]).
Proof. vm_compute. reflexivity. Qed.

(** A launch earning 1000 that cannibalizes 1150 loses more than a tenth of
    its own revenue: Substitutive; one that cannibalizes 1050 is Neutral. *)
Example classify_substitutive :
  PortfolioImpact.classify (1000 - 1150) 1000 = "Substitutive"
  /\ PortfolioImpact.classify (1000 - 1050) 1000 = "Neutral".
Proof. split; vm_compute; reflexivity. Qed.

Lemma portfolio_impact_net_and_label_witness :
  PortfolioImpact._calculate_portfolio_impact sales_N launches_N sov_results_N 6
  = Ok (mkDF Impact.labels [impact_row_N])
  /\ In impact_row_N (rows (mkDF Impact.labels [impact_row_N]))
  /\ (exists launch sov_data,
        In launch (rows launches_N)
        /\ Impact.product_id impact_row_N = Launch.product_id launch
        /\ Py.get (Launch.product_id launch) (SOV.sov_by_launch sov_results_N)
           = Some sov_data
        /\ Impact.new_product_revenue impact_row_N
           = SovRecord.new_product_revenue sov_data
        /\ Impact.lost_revenue impact_row_N
           = SovRecord.cannibalized_revenue sov_data)
  /\ Impact.net_impact impact_row_N
     = Impact.new_product_revenue impact_row_N - Impact.lost_revenue impact_row_N
  /\ ((0 < Impact.net_impact impact_row_N
       /\ Impact.launch_type impact_row_N = "Additive")
      \/ (Impact.net_impact impact_row_N <= 0
          /\ Impact.net_impact impact_row_N
             < - (1 # 10) * Impact.new_product_revenue impact_row_N
          /\ Impact.launch_type impact_row_N = "Substitutive")
      \/ (Impact.net_impact impact_row_N <= 0
          /\ - (1 # 10) * Impact.new_product_revenue impact_row_N
             <= Impact.net_impact impact_row_N
          /\ Impact.launch_type impact_row_N = "Neutral")).
Proof.
  assert (H : PortfolioImpact._calculate_portfolio_impact
                sales_N launches_N sov_results_N 6
              = Ok (mkDF Impact.labels [impact_row_N]))
    by (vm_compute; reflexivity).
  assert (Hr : In impact_row_N (rows (mkDF Impact.labels [impact_row_N])))
    by (simpl; left; reflexivity).
  split; [exact H|]. split; [exact Hr|].
  exact (portfolio_impact_net_and_label sales_N launches_N sov_results_N 6
           (mkDF Impact.labels [impact_row_N]) impact_row_N H Hr).
Defined.

(** Two launches of category C, one of brand X and one of brand Y. *)
Example category_impact_of_two_launches :
  PortfolioImpact._calculate_category_impact launches_NM sov_results_NM
  = Ok (mkDF (GroupImpact.labels "category")
          [GroupImpact.mk "C" 2 500 150 350 (35000 # 500)])
  /\ PortfolioImpact._calculate_brand_impact launches_NM sov_results_NM
     = Ok (mkDF (GroupImpact.labels "brand")
             [GroupImpact.mk "Y" 1 300 100 200 (20000 # 300);
              GroupImpact.mk "X" 1 200 50 150 (15000 # 200)]).
Proof. split; vm_compute; reflexivity. Qed.

Lemma group_impact_sums_then_ratio_witness :
  has_column "product_id" launches_NM = true
  /\ has_column "type" launches_NM = true
  /\ has_column "brand" launches_NM = true
  /\ rows launches_NM <> []
  /\ exists category_df brand_df,
       PortfolioImpact._calculate_category_impact launches_NM sov_results_NM
       = Ok category_df
       /\ PortfolioImpact._calculate_brand_impact launches_NM sov_results_NM
          = Ok brand_df
       /\ (forall launch, In launch (rows launches_NM) ->
             exists row,
               In row (rows category_df)
               /\ GroupImpact.group row = Launch.type launch
               /\ Spec.summation_then_ratio sales_NM launches_NM sov_results_NM
                    6 Launch.type row)
       /\ (forall launch, In launch (rows launches_NM) ->
             exists row,
               In row (rows brand_df)
               /\ GroupImpact.group row = Launch.brand launch
               /\ Spec.summation_then_ratio sales_NM launches_NM sov_results_NM
                    6 Launch.brand row).
Proof.
  assert (Hp : has_column "product_id" launches_NM = true) by reflexivity.
  assert (Ht : has_column "type" launches_NM = true) by reflexivity.
  assert (Hb : has_column "brand" launches_NM = true) by reflexivity.
  assert (Hne : rows launches_NM <> []) by (simpl; discriminate).
  split; [exact Hp|]. split; [exact Ht|]. split; [exact Hb|].
  split; [exact Hne|].
  exact (group_impact_sums_then_ratio sales_NM launches_NM sov_results_NM 6
           Hp Ht Hb Hne).
Defined.

End ImpactScenarios.

Section EmptyLaunches.
Variable df : list Txn.row.
Variable ttest_ind : list Q -> list Q -> Q * Q.
Variable window_months : Z.

(** C3, at a launch table without rows (whatever its columns).  The SOV
    analysis returns its three empty structures; the portfolio-impact
    analysis, given that table and those results, raises [KeyError]: it
    sorts the frame built from no record by a column the frame does not
    have. *)
Theorem empty_launches_portfolio_impact_raises (labels : list string) :
  let new_launches := mkDF labels [] in
  let sov_results := SOV.execute df new_launches ttest_ind window_months in
  sov_results = SOV.mkResults [] empty_frame []
  /\ PortfolioImpact._calculate_portfolio_impact df new_launches sov_results
       window_months
     = Raise (KeyError "net_impact")
  /\ PortfolioImpact.execute df new_launches sov_results window_months
     = Raise (KeyError "net_impact").
Proof.
  cbv zeta. split; [reflexivity|]. split; reflexivity.
Qed.

End EmptyLaunches.

(* ================================================================== *)
(** * Launch registry                                                  *)
(* ================================================================== *)

Section RegistryFacts.
Variable products_df : DataFrame Product.row.
Variable df : list Txn.row.

(** The top-N selection has a guard for an empty scoring table. *)
Lemma select_top_launches_empty (top_n : nat) :
  NewLaunch._select_top_launches empty_frame top_n = empty_frame.
Proof. reflexivity. Qed.

(** When no launch is scored the scoring table is built from no record,
    and sorting it by [performance_score] raises. *)
Lemma launch_performance_unscored (new_launches : DataFrame Product.row) :
  (forall p, In p (rows new_launches) -> NewLaunch.performance_of df p = None) ->
  NewLaunch._calculate_launch_performance df new_launches
  = Raise (KeyError "performance_score").
Proof.
  intros H. unfold NewLaunch._calculate_launch_performance.
  apply collect_nil_iff in H. rewrite H. reflexivity.
Qed.

(** When no product was launched within the lookback window, [execute]
    raises. *)
Lemma no_qualifying_launch_raises (months : Z) (top_n : nat) :
  (forall p, In p (rows products_df) ->
     ts_geb_opt (Product.launch_date p)
       (option_map (fun t => DateOffset_months t (- months))
                   (ts_max (map Txn.date df))) = false) ->
  Py.raises (NewLaunch.execute products_df df months top_n).
Proof.
  intros H. unfold NewLaunch.execute, NewLaunch._identify_new_launches, column.
  destruct (has_column "launch_date" products_df) eqn:Hcol;
    [|eexists; reflexivity].
  cbn [Py.bind]. unfold sort_dates_desc.
  change (has_column "launch_date" (select _ products_df))
    with (has_column "launch_date" products_df).
  rewrite Hcol. unfold select. cbn [rows columns].
  apply filter_nil_iff in H. rewrite H. cbn [Py.bind].
  rewrite launch_performance_unscored by (intros p []).
  eexists. reflexivity.
Qed.

End RegistryFacts.

Section RegistryScenarios.
Import Scenario.

(** C6, at a product master whose only product was launched in 2020 and
    sales that end in June 2024.  No product falls within the twelve-month
    lookback: the launch list is empty, scoring it raises [KeyError], and
    so does [execute]; the top-N selection, which would return an empty
    table, is never reached. *)
Theorem no_launch_in_lookback_raises :
  NewLaunch._identify_new_launches old_products sales_2024 12
  = Ok (mkDF Product.labels [])
  /\ NewLaunch._calculate_launch_performance sales_2024 (mkDF Product.labels [])
     = Raise (KeyError "performance_score")
  /\ NewLaunch.execute old_products sales_2024 12 5
     = Raise (KeyError "performance_score").
Proof.
  split; [|split]; vm_compute; reflexivity.
Qed.

End RegistryScenarios.

(* ================================================================== *)
(** * Forecasts and their ensemble                                     *)
(* ================================================================== *)

Section ArrayFacts.

Lemma zip_with_length (f : Q -> Q -> Q) (a b : list Q) :
  List.length a = List.length b ->
  List.length (Forecast.zip_with f a b) = List.length a.
Proof.
  revert b. induction a as [|x a IH]; intros [|y b]; simpl; try discriminate.
  - reflexivity.
  - intros [= H]. now rewrite IH.
Qed.

Lemma nth_zip_with (f : Q -> Q -> Q) (a b : list Q) (i : nat) (d : Q) :
  List.length a = List.length b -> (i < List.length a)%nat ->
  nth i (Forecast.zip_with f a b) d = f (nth i a d) (nth i b d).
Proof.
  revert b i. induction a as [|x a IH]; intros [|y b] i; simpl;
    try discriminate; try lia.
  intros [= H] Hi. destruct i as [|i]; [reflexivity|].
  apply IH; [assumption | lia].
Qed.

Lemma elementwise_same_length (f : Q -> Q -> Q) (a b : list Q) :
  List.length a = List.length b ->
  Forecast.elementwise f a b = Ok (Forecast.zip_with f a b).
Proof.
  intros H. unfold Forecast.elementwise.
  apply Nat.eqb_eq in H. now rewrite H.
Qed.

Lemma mk_series_same_length (vals : list Q) (idx : list nat) :
  List.length vals = List.length idx ->
  Forecast.mk_series vals idx = Ok (combine idx vals).
Proof.
  intros H. unfold Forecast.mk_series.
  apply Nat.eqb_eq in H. now rewrite H.
Qed.

Lemma index_combine (idx : list nat) (vals : list Q) :
  List.length vals = List.length idx -> index (combine idx vals) = idx.
Proof.
  unfold index. revert vals.
  induction idx as [|m idx IH]; intros [|v vals]; simpl; try discriminate.
  - reflexivity.
  - intros [= H]. now rewrite IH.
Qed.

Lemma values_combine (idx : list nat) (vals : list Q) :
  List.length vals = List.length idx -> values (combine idx vals) = vals.
Proof.
  unfold values. revert vals.
  induction idx as [|m idx IH]; intros [|v vals]; simpl; try discriminate.
  - reflexivity.
  - intros [= H]. now rewrite IH.
Qed.

Lemma nth_map_in_range (f : Q -> Q) (l : list Q) (i : nat) (d : Q) :
  (i < List.length l)%nat -> nth i (map f l) d = f (nth i l d).
Proof.
  intros Hi. rewrite (nth_indep _ d (f d)) by (now rewrite length_map).
  apply map_nth.
Qed.

End ArrayFacts.

Section WeightFacts.

Lemma inverse_mape_weight_pos (mape : Q) :
  0 < mape -> 0 < Forecast.inverse_mape_weight mape.
Proof.
  intros H. unfold Forecast.inverse_mape_weight, Qdiv.
  rewrite Qmult_1_l. apply Qinv_lt_0_compat. lra.
Qed.

Lemma normalized_weights (w1 w2 : Q) :
  0 < w1 -> 0 < w2 ->
  0 < w1 / (w1 + w2) /\ 0 < w2 / (w1 + w2)
  /\ w1 / (w1 + w2) + w2 / (w1 + w2) == 1.
Proof.
  intros H1 H2.
  assert (Hi : 0 < / (w1 + w2)) by (apply Qinv_lt_0_compat; lra).
  unfold Qdiv. repeat split.
  - apply Qmult_lt_0_compat; assumption.
  - apply Qmult_lt_0_compat; assumption.
  - field. lra.
Qed.

End WeightFacts.

Section EnsembleFacts.
Variable np_sqrt : Q -> Q.
Variables SarimaxResults ProphetModel : Type.

Lemma error_metrics_ok (actual forecast : list Q) :
  List.length actual = List.length forecast ->
  (0 < List.length actual)%nat ->
  exists m, Forecast.error_metrics np_sqrt actual forecast = Ok m.
Proof.
  intros Hlen Hpos. unfold Forecast.error_metrics.
  apply Nat.eqb_eq in Hlen. apply Nat.ltb_lt in Hpos.
  rewrite Hlen, Hpos. eexists. reflexivity.
Qed.

(** C8.  For two model results with positive MAPE whose test forecasts
    are as long as the (non-empty) test series, each model's weight is
    1 / (MAPE + 0.001), the two normalized weights are positive and sum to
    1, and the ensemble is returned with a weighted forecast that is, month
    by month, the combination of the two test forecasts with the
    normalized weights. *)
Theorem weighted_ensemble_is_convex_combination
    (sarima : Forecast.Sarima.t SarimaxResults)
    (prophet : Forecast.Prophet.t ProphetModel) (test : Series) :
  let sarima_mape := Metrics.mape (Forecast.Sarima.metrics sarima) in
  let prophet_mape := Metrics.mape (Forecast.Prophet.metrics prophet) in
  let sarima_weight := Forecast.inverse_mape_weight sarima_mape in
  let prophet_weight := Forecast.inverse_mape_weight prophet_mape in
  let total_weight := sarima_weight + prophet_weight in
  0 < sarima_mape ->
  0 < prophet_mape ->
  List.length (Forecast.Sarima.forecast sarima) = List.length test ->
  List.length (Forecast.Prophet.forecast prophet) = List.length test ->
  (0 < List.length test)%nat ->
  sarima_weight == 1 / (sarima_mape + (1 # 1000))
  /\ prophet_weight == 1 / (prophet_mape + (1 # 1000))
  /\ 0 < sarima_weight / total_weight
  /\ 0 < prophet_weight / total_weight
  /\ sarima_weight / total_weight + prophet_weight / total_weight == 1
  /\ exists e,
       Forecast._create_ensemble_forecast np_sqrt SarimaxResults ProphetModel
         (Some sarima) (Some prophet) test = Ok (Some e)
       /\ index (Forecast.Ensemble.weighted_ensemble e) = index test
       /\ forall i, (i < List.length test)%nat ->
            nth i (values (Forecast.Ensemble.weighted_ensemble e)) 0
            = nth i (values (Forecast.Sarima.forecast sarima)) 0
                * (sarima_weight / total_weight)
              + nth i (values (Forecast.Prophet.forecast prophet)) 0
                * (prophet_weight / total_weight).
Proof.
  intros sarima_mape prophet_mape sarima_weight prophet_weight total_weight
         Hs Hp Hls Hlp Hpos.
  pose proof (inverse_mape_weight_pos _ Hs) as Hws.
  pose proof (inverse_mape_weight_pos _ Hp) as Hwp.
  fold sarima_weight in Hws. fold prophet_weight in Hwp.
  destruct (normalized_weights _ _ Hws Hwp) as (Ha & Hb & Hab).
  split; [reflexivity|]. split; [reflexivity|].
  split; [exact Ha|]. split; [exact Hb|]. split; [exact Hab|].
  unfold Forecast._create_ensemble_forecast.
  fold sarima_mape prophet_mape. fold sarima_weight prophet_weight.
  fold total_weight.
  set (sv := values (Forecast.Sarima.forecast sarima)).
  set (pv := values (Forecast.Prophet.forecast prophet)).
  assert (Hsv : List.length sv = List.length test)
    by (unfold sv, values; now rewrite length_map).
  assert (Hpv : List.length pv = List.length test)
    by (unfold pv, values; now rewrite length_map).
  assert (Htv : List.length (values test) = List.length test)
    by (unfold values; now rewrite length_map).
  assert (Hti : List.length (index test) = List.length test)
    by (unfold index; now rewrite length_map).
  rewrite (elementwise_same_length Qplus sv pv) by congruence.
  cbn [Py.bind].
  set (ws := map (fun x => x * (sarima_weight / total_weight)) sv).
  set (wp := map (fun x => x * (prophet_weight / total_weight)) pv).
  assert (Hws' : List.length ws = List.length test)
    by (unfold ws; now rewrite length_map).
  assert (Hwp' : List.length wp = List.length test)
    by (unfold wp; now rewrite length_map).
  rewrite (elementwise_same_length Qplus ws wp) by congruence.
  cbn [Py.bind].
  set (simple := map (fun x => x / 2) (Forecast.zip_with Qplus sv pv)).
  set (weighted := Forecast.zip_with Qplus ws wp).
  assert (Hsimple : List.length simple = List.length test).
  { unfold simple. rewrite length_map, zip_with_length; congruence. }
  assert (Hweighted : List.length weighted = List.length test).
  { unfold weighted. rewrite zip_with_length; congruence. }
  destruct (error_metrics_ok (values test) simple) as [m1 Hm1];
    [congruence | lia |].
  destruct (error_metrics_ok (values test) weighted) as [m2 Hm2];
    [congruence | lia |].
  rewrite Hm1. cbn [Py.bind]. rewrite Hm2. cbn [Py.bind].
  rewrite (mk_series_same_length simple) by congruence.
  rewrite (mk_series_same_length weighted) by congruence.
  cbn [Py.bind]. eexists. split; [reflexivity|].
  cbn [Forecast.Ensemble.weighted_ensemble]. split.
  - apply index_combine. congruence.
  - intros i Hi. rewrite values_combine by congruence.
    unfold weighted. rewrite nth_zip_with by (congruence || lia).
    unfold ws, wp. rewrite !nth_map_in_range by lia. reflexivity.
Qed.

End EnsembleFacts.

Section ForecastFacts.
Variable np_sqrt : Q -> Q.
Variable adfuller : list Q -> result Q.
Variable SarimaxResults : Type.
Variable sarimax_fit : Series -> result SarimaxResults.
Variable sarimax_mean : SarimaxResults -> nat -> Q.
Variable ProphetModel : Type.
Variable prophet_yhat : ProphetModel -> nat -> Q * Q * Q.

Lemma seq_from (m steps : nat) :
  map (fun h => (m + h)%nat) (seq 0 steps) = seq m steps.
Proof.
  revert m. induction steps as [|k IH]; intros m; [reflexivity|].
  cbn [seq map]. f_equal; [lia|].
  rewrite <- seq_shift, map_map, <- (IH (S m)).
  apply map_ext. intros h. lia.
Qed.

Lemma sarimax_forecast_index (fitted : SarimaxResults) (sample : Series)
    (steps : nat) :
  index (Forecast.sarimax_forecast SarimaxResults sarimax_mean fitted sample steps)
  = seq (Forecast.next_month sample) steps.
Proof.
  unfold index, Forecast.sarimax_forecast. rewrite map_map.
  apply seq_from.
Qed.

(** Both forecasts of the seasonal model start at the month after the
    training sample: the test forecast covers the held-out months and the
    "future" forecast starts over from the first of them. *)
Lemma sarima_forecast_months (train test : Series) (forecast_horizon : nat)
    (s : Forecast.Sarima.t SarimaxResults) :
  Forecast._sarima_forecast np_sqrt adfuller SarimaxResults sarimax_fit
    sarimax_mean train test forecast_horizon = Some s ->
  index (Forecast.Sarima.forecast s)
  = seq (Forecast.next_month train) (List.length test)
  /\ index (Forecast.Sarima.future_forecast s)
     = seq (Forecast.next_month train) forecast_horizon.
Proof.
  unfold Forecast._sarima_forecast, Forecast.try_or_empty.
  destruct (adfuller (values train)); [|discriminate]. cbn [Py.bind].
  destruct (sarimax_fit train) as [fitted|]; [|discriminate]. cbn [Py.bind].
  destruct (Forecast.error_metrics _ _ _); [|discriminate]. cbn [Py.bind].
  intros [= <-]. cbn [Forecast.Sarima.forecast Forecast.Sarima.future_forecast].
  split; apply sarimax_forecast_index.
Qed.

Lemma prophet_predict_ds (model : ProphetModel) (future : list nat) :
  map Forecast.Yhat.ds (Forecast.prophet_predict ProphetModel prophet_yhat model future)
  = future.
Proof.
  unfold Forecast.prophet_predict. rewrite map_map.
  rewrite <- (map_id future) at 2. apply map_ext. intros ds.
  destruct (prophet_yhat model ds) as [[y lo] up]. reflexivity.
Qed.

(** The rows kept as the future forecast of the additive model are those of
    the months that follow the training sample. *)
Lemma prophet_future_months (model : ProphetModel) (train : Series)
    (forecast_horizon : nat) :
  (0 < forecast_horizon)%nat ->
  map Forecast.Yhat.ds
      (Forecast.prophet_future_rows ProphetModel prophet_yhat model train
         forecast_horizon)
  = seq (Forecast.next_month train) forecast_horizon.
Proof.
  intros Hpos. unfold Forecast.prophet_future_rows, Forecast.tail_slice.
  destruct (Nat.eqb_spec forecast_horizon 0) as [-> | _]; [lia|].
  rewrite <- skipn_map, prophet_predict_ds.
  unfold Forecast.prophet_predict, Forecast.make_future_dataframe.
  rewrite length_map, length_app, length_seq.
  replace (List.length (index train) + forecast_horizon - forecast_horizon)%nat
    with (List.length (index train) + 0)%nat by lia.
  rewrite skipn_app, Nat.add_0_r, skipn_all.
  replace (List.length (index train) - List.length (index train))%nat
    with 0%nat by lia.
  reflexivity.
Qed.

End ForecastFacts.

Section ForecastScenarios.
Import Scenario.

(** C5, at a series of ten months (0 to 9) and a horizon of 12.  The
    split holds out months 8 and 9, and each model's test forecast covers
    them.  The future forecast of each model has twelve entries, but it
    covers months 8 to 19: it is produced from the end of the training
    prefix, so it begins with the two held-out months (where it repeats the
    test forecast) and not with month 10, the first month beyond the
    series. *)
Theorem future_forecast_starts_at_held_out_months :
  let n := Forecast.train_size (List.length ten_months) in
  let train := firstn n ten_months in
  let test := skipn n ten_months in
  index test = [8; 9]%nat
  /\ Forecast.next_month ten_months = 10%nat
  /\ exists s p,
       sarima_ten = Some s
       /\ prophet_ten = Some p
       /\ index (Forecast.Sarima.forecast s) = index test
       /\ index (Forecast.Prophet.forecast p) = index test
       /\ index (Forecast.Sarima.future_forecast s) = seq 8 12
       /\ firstn 2 (Forecast.Sarima.future_forecast s)
          = Forecast.Sarima.forecast s
       /\ map Forecast.Yhat.ds
              (Forecast.prophet_future_rows Series yhat_at train train 12)
          = seq 8 12
       /\ Forecast.Prophet.future_forecast p
          = map Forecast.Yhat.yhat
                (Forecast.prophet_future_rows Series yhat_at train train 12)
       /\ firstn 2 (Forecast.Prophet.future_forecast p)
          = values (Forecast.Prophet.forecast p).
Proof.
  cbv zeta. split; [reflexivity|]. split; [reflexivity|].
  eexists. eexists.
  split; [vm_compute; reflexivity|]. split; [vm_compute; reflexivity|].
  repeat split; vm_compute; reflexivity.
Qed.

Lemma weighted_ensemble_is_convex_combination_witness :
  let sarima_mape := Metrics.mape (Forecast.Sarima.metrics sarima_r) in
  let prophet_mape := Metrics.mape (Forecast.Prophet.metrics prophet_r) in
  let sarima_weight := Forecast.inverse_mape_weight sarima_mape in
  let prophet_weight := Forecast.inverse_mape_weight prophet_mape in
  let total_weight := sarima_weight + prophet_weight in
  0 < sarima_mape
  /\ 0 < prophet_mape
  /\ List.length (Forecast.Sarima.forecast sarima_r) = List.length test_r
  /\ List.length (Forecast.Prophet.forecast prophet_r) = List.length test_r
  /\ (0 < List.length test_r)%nat
  /\ sarima_weight == 1 / (sarima_mape + (1 # 1000))
  /\ prophet_weight == 1 / (prophet_mape + (1 # 1000))
  /\ 0 < sarima_weight / total_weight
  /\ 0 < prophet_weight / total_weight
  /\ sarima_weight / total_weight + prophet_weight / total_weight == 1
  /\ exists e,
       Forecast._create_ensemble_forecast (fun x => x) unit unit
         (Some sarima_r) (Some prophet_r) test_r = Ok (Some e)
       /\ index (Forecast.Ensemble.weighted_ensemble e) = index test_r
       /\ forall i, (i < List.length test_r)%nat ->
            nth i (values (Forecast.Ensemble.weighted_ensemble e)) 0
            = nth i (values (Forecast.Sarima.forecast sarima_r)) 0
                * (sarima_weight / total_weight)
              + nth i (values (Forecast.Prophet.forecast prophet_r)) 0
                * (prophet_weight / total_weight).
Proof.
  cbv zeta.
  assert (H1 : 0 < Metrics.mape (Forecast.Sarima.metrics sarima_r))
    by reflexivity.
  assert (H2 : 0 < Metrics.mape (Forecast.Prophet.metrics prophet_r))
    by reflexivity.
  assert (H3 : List.length (Forecast.Sarima.forecast sarima_r)
               = List.length test_r) by reflexivity.
  assert (H4 : List.length (Forecast.Prophet.forecast prophet_r)
               = List.length test_r) by reflexivity.
  assert (H5 : (0 < List.length test_r)%nat) by (simpl; lia).
  split; [exact H1|]. split; [exact H2|]. split; [exact H3|].
  split; [exact H4|]. split; [exact H5|].
  exact (weighted_ensemble_is_convex_combination (fun x => x) unit unit
           sarima_r prophet_r test_r H1 H2 H3 H4 H5).
Defined.

End ForecastScenarios.

(* ================================================================== *)
(** * Further facts: orderings, partitions and dictionaries            *)
(* ================================================================== *)

Section OrderFacts.
Context {R : Type}.
Variable before : R -> R -> bool.
Hypothesis before_total : forall x y, before x y = true \/ before y x = true.
Hypothesis before_trans :
  forall x y z, before x y = true -> before y z = true -> before x z = true.

Lemma In_insert_row (x z : R) (l : list R) :
  In z (insert_row before x l) -> z = x \/ In z l.
Proof.
  induction l as [|y l IH]; simpl.
  - intros [<- | []]. now left.
  - destruct (before y x); simpl.
    + intros [<- | H]; [right; now left|].
      destruct (IH H); [now left | right; now right].
    + intros [<- | H]; [now left | now right].
Qed.

Lemma insert_row_sorted (x : R) (l : list R) :
  StronglySorted (fun a b => before a b = true) l ->
  StronglySorted (fun a b => before a b = true) (insert_row before x l).
Proof.
  induction 1 as [|y l Hs IH Hy]; simpl.
  - constructor; constructor.
  - destruct (before y x) eqn:E.
    + constructor; [assumption|].
      apply Forall_forall. intros z Hz.
      apply In_insert_row in Hz as [-> | Hz]; [assumption|].
      rewrite Forall_forall in Hy. now apply Hy.
    + assert (Hxy : before x y = true)
        by (destruct (before_total x y); congruence).
      constructor; [now constructor|].
      constructor; [assumption|].
      apply Forall_forall. intros z Hz.
      rewrite Forall_forall in Hy. eapply before_trans; eauto.
Qed.

Lemma sort_rows_sorted (l : list R) :
  StronglySorted (fun a b => before a b = true) (sort_rows before l).
Proof.
  unfold sort_rows. induction l as [|x l IH]; simpl.
  - constructor.
  - now apply insert_row_sorted.
Qed.

End OrderFacts.

Section PrefixFacts.
Context {R : Type}.
Variable rel : R -> R -> Prop.

(** In a sorted list every member of a prefix is related to every member
    of the rest. *)
Lemma sorted_prefix_rest (l1 l2 : list R) :
  StronglySorted rel (l1 ++ l2) ->
  forall a b, In a l1 -> In b l2 -> rel a b.
Proof.
  induction l1 as [|x l1 IH]; simpl; intros Hs a b Ha Hb; [contradiction|].
  inversion Hs as [|? ? Hs' Hx]; subst.
  destruct Ha as [<- | Ha].
  - rewrite Forall_forall in Hx. apply Hx, in_or_app. now right.
  - now apply IH.
Qed.

End PrefixFacts.

Section ScoreOrder.
Context {R : Type}.
Variable key : R -> Q.

Lemma sort_values_desc_sorted (l : list R) :
  StronglySorted (fun a b => key b <= key a)
    (sort_rows (fun y x => Qle_bool (key x) (key y)) l).
Proof.
  assert (H : StronglySorted
                (fun a b => Qle_bool (key b) (key a) = true)
                (sort_rows (fun y x => Qle_bool (key x) (key y)) l)).
  { apply sort_rows_sorted.
    - intros x y. rewrite !Qle_bool_iff.
      destruct (Qlt_le_dec (key x) (key y)); [right | left]; lra.
    - intros x y z. rewrite !Qle_bool_iff. lra. }
  induction H as [|a l0 Hs IH Ha]; constructor; [assumption|].
  eapply Forall_impl; [|exact Ha].
  intros b Hb. now apply Qle_bool_iff.
Qed.

(** [sort_values] returns the records it was given, rearranged in
    descending order of the key. *)
Lemma sort_values_desc_records_sorted (labels : list string) (label : string)
    (records : list R) :
  records <> [] -> In label labels ->
  exists out,
    sort_values_desc label key (from_records labels records) = Ok out
    /\ columns out = labels
    /\ Permutation (rows out) records
    /\ StronglySorted (fun a b => key b <= key a) (rows out).
Proof.
  intros Hne Hl. destruct records as [|r0 records]; [contradiction|].
  unfold sort_values_desc, from_records.
  assert (E : has_column label (mkDF labels (r0 :: records)) = true)
    by now apply has_column_In.
  rewrite E. eexists. split; [reflexivity|]. split; [reflexivity|].
  split; [apply sort_rows_Permutation | apply sort_values_desc_sorted].
Qed.

End ScoreOrder.

Section TimestampOrder.

Lemma ts_ltb_iff (a b : Timestamp) :
  ts_ltb a b = true <->
  (year a < year b
   \/ (year a = year b
       /\ (month a < month b \/ (month a = month b /\ day a < day b))))%Z.
Proof.
  unfold ts_ltb, ts_compare.
  destruct (Z.compare_spec (year a) (year b));
    destruct (Z.compare_spec (month a) (month b));
    destruct (Z.compare_spec (day a) (day b));
    split; intros H'; try discriminate; try reflexivity; lia.
Qed.

Lemma ts_geb_total (a b : Timestamp) : ts_geb a b = true \/ ts_geb b a = true.
Proof.
  unfold ts_geb.
  destruct (ts_ltb a b) eqn:E1; [|now left].
  destruct (ts_ltb b a) eqn:E2; [|now right].
  apply ts_ltb_iff in E1. apply ts_ltb_iff in E2. lia.
Qed.

Lemma ts_geb_trans (a b c : Timestamp) :
  ts_geb a b = true -> ts_geb b c = true -> ts_geb a c = true.
Proof.
  unfold ts_geb. rewrite !negb_true_iff.
  intros H1 H2. destruct (ts_ltb a c) eqn:E; [|reflexivity].
  apply ts_ltb_iff in E.
  assert (N1 : ~ (ts_ltb a b = true)) by congruence.
  assert (N2 : ~ (ts_ltb b c = true)) by congruence.
  rewrite ts_ltb_iff in N1, N2. lia.
Qed.

End TimestampOrder.

(* ================================================================== *)
(** * Launch registry: scoring, ranking and targets                    *)
(* ================================================================== *)

Section ScoringFacts.
Variable df : list Txn.row.

Lemma performance_of_scored (p : Product.row) :
  (exists r, NewLaunch.performance_of df p = Some r)
  <-> exists t,
        In t df
        /\ Txn.product_id t = Product.product_id p
        /\ ts_geb (Txn.date t) (Product.launch_date p) = true.
Proof.
  unfold NewLaunch.performance_of.
  destruct (filter (fun t => ts_geb (Txn.date t) (Product.launch_date p))
              (filter (fun t => String.eqb (Txn.product_id t)
                                           (Product.product_id p)) df))
    as [|t s] eqn:E; cbn [List.length Nat.eqb].
  - split; [intros [r Hr]; discriminate|].
    intros (t & Ht & Hid & Hd). exfalso.
    rewrite filter_nil_iff in E.
    assert (Hf : ts_geb (Txn.date t) (Product.launch_date p) = false).
    { apply E, filter_In. split; [assumption|].
      rewrite Hid. apply String.eqb_refl. }
    congruence.
  - split; [|intros _; eexists; reflexivity]. intros _.
    assert (Ht : In t (t :: s)) by now left.
    rewrite <- E in Ht. apply filter_In in Ht as [Ht Hd].
    apply filter_In in Ht as [Ht Hid]. apply String.eqb_eq in Hid.
    exists t. auto.
Qed.




(** X2.  The scoring table is in descending order of [performance_score],
    and the selection of the top [n] is its first [n] rows (all of them when
    there are fewer): no row left out scores higher than a selected one. *)
Theorem top_launches_are_highest (new_launches : DataFrame Product.row)
    (perf : DataFrame Launch.row) (top_n : nat) :
  NewLaunch._calculate_launch_performance df new_launches = Ok perf ->
  let top := NewLaunch._select_top_launches perf top_n in
  StronglySorted
    (fun a b => Launch.performance_score b <= Launch.performance_score a)
    (rows perf)
  /\ rows top = firstn top_n (rows perf)
  /\ len top = Nat.min top_n (len perf)
  /\ forall r r',
       In r (rows top) -> In r' (skipn top_n (rows perf)) ->
       Launch.performance_score r' <= Launch.performance_score r.
Proof.
  intros Hperf top.
  assert (Hsorted : StronglySorted
            (fun a b => Launch.performance_score b <= Launch.performance_score a)
            (rows perf)).
  { unfold NewLaunch._calculate_launch_performance in Hperf.
    destruct (collect (NewLaunch.performance_of df) (rows new_launches))
      as [|r0 rs] eqn:E.
    - rewrite sort_values_desc_no_records in Hperf. discriminate.
    - destruct (sort_values_desc_records_sorted Launch.performance_score
                  Launch.labels "performance_score" (r0 :: rs))
        as (out & Hout & _ & _ & Hs); [discriminate | simpl; tauto |].
      rewrite Hout in Hperf. injection Hperf as <-. exact Hs. }
  assert (Htop : rows top = firstn top_n (rows perf)).
  { unfold top, NewLaunch._select_top_launches, len.
    destruct (rows perf) as [|r0 rs] eqn:E; cbn [List.length Nat.eqb].
    - now rewrite firstn_nil.
    - unfold head. cbn [rows]. now rewrite E. }
  split; [exact Hsorted|]. split; [exact Htop|]. split.
  - unfold len. rewrite Htop. apply length_firstn.
  - intros r r' Hr Hr'. rewrite Htop in Hr.
    rewrite <- (firstn_skipn top_n (rows perf)) in Hsorted.
    exact (sorted_prefix_rest _ _ _ Hsorted r r' Hr Hr').
Qed.

End ScoringFacts.

Section ScoreBounds.
Variable df : list Txn.row.
Hypothesis revenue_nonneg : forall t, In t df -> 0 <= Txn.revenue t.

Lemma filter_comm {A : Type} (p q : A -> bool) (l : list A) :
  filter p (filter q l) = filter q (filter p l).
Proof.
  rewrite !filter_filter. apply filter_ext. intros x. apply andb_comm.
Qed.

Lemma Qsum_filter_le {A : Type} (f : A -> Q) (p : A -> bool) (l : list A) :
  (forall x, In x l -> 0 <= f x) ->
  Qsum (map f (filter p l)) <= Qsum (map f l).
Proof.
  induction l as [|x l IH]; simpl; intros H; [lra|].
  assert (0 <= f x) by (apply H; now left).
  assert (Qsum (map f (filter p l)) <= Qsum (map f l))
    by (apply IH; intros; apply H; now right).
  destruct (p x); simpl; lra.
Qed.

Lemma Qsum_filter_nonneg {A : Type} (f : A -> Q) (p : A -> bool) (l : list A) :
  (forall x, In x l -> 0 <= f x) -> 0 <= Qsum (map f (filter p l)).
Proof.
  intros H. apply Qsum_nonneg. intros y Hy.
  apply in_map_iff in Hy as (x & <- & Hx). apply filter_In in Hx as [Hx _].
  now apply H.
Qed.

Lemma ratio_pct_bounds (part whole : Q) :
  0 <= part -> part <= whole -> 0 < whole ->
  0 <= part / whole * 100 /\ part / whole * 100 <= 100.
Proof.
  intros Hp Hle Hw.
  assert (Hi : 0 < / whole) by now apply Qinv_lt_0_compat.
  assert (Hone : whole * / whole == 1) by (apply Qmult_inv_r; lra).
  unfold Qdiv. set (i := / whole) in *. split; nra.
Qed.

Lemma growth_pct_lower_bound (first next : Q) :
  0 <= next -> 0 < first -> - (100) <= (next - first) / first * 100.
Proof.
  intros Hn Hf.
  assert (Hi : 0 < / first) by now apply Qinv_lt_0_compat.
  assert (Hone : first * / first == 1) by (apply Qmult_inv_r; lra).
  unfold Qdiv. set (i := / first) in *. nra.
Qed.

(** X3.  On a table without negative revenue, a scored launch has a
    non-negative total revenue, a market share between 0 and 100, a growth
    rate of at least -100 and therefore a non-negative performance score. *)
Theorem launch_score_bounds (p : Product.row) (r : Launch.row) :
  NewLaunch.performance_of df p = Some r ->
  0 <= Launch.total_revenue r
  /\ 0 <= Launch.market_share_pct r
  /\ Launch.market_share_pct r <= 100
  /\ - (100) <= Launch.growth_rate_pct r
  /\ 0 <= Launch.performance_score r.
Proof.
  unfold NewLaunch.performance_of.
  destruct (List.length _ =? 0)%nat; [discriminate|].
  intros [= <-].
  cbn [Launch.total_revenue Launch.market_share_pct Launch.growth_rate_pct
         Launch.performance_score].
  unfold revenue_where.
  set (mine := filter (fun t => String.eqb (Txn.product_id t)
                                           (Product.product_id p)) df).
  set (after := fun t : Txn.row =>
                  ts_geb (Txn.date t) (Product.launch_date p)).
  set (post := filter after mine).
  assert (Hmine : forall t, In t mine -> 0 <= Txn.revenue t).
  { intros t Ht. apply filter_In in Ht as [Ht _]. now apply revenue_nonneg. }
  assert (Hpost : forall t, In t post -> 0 <= Txn.revenue t).
  { intros t Ht. apply filter_In in Ht as [Ht _]. now apply Hmine. }
  set (total := Qsum (map Txn.revenue post)).
  set (market := Qsum (map Txn.revenue (filter after df))).
  set (first := Qsum (map Txn.revenue (filter _ post))).
  set (next := Qsum (map Txn.revenue (filter _ post))).
  assert (Htotal : 0 <= total)
    by (apply Qsum_nonneg; intros y Hy;
        apply in_map_iff in Hy as (x & <- & Hx); now apply Hpost).
  assert (Hle : total <= market).
  { unfold total, market, post, mine. rewrite filter_comm.
    apply Qsum_filter_le. intros t Ht.
    apply filter_In in Ht as [Ht _]. now apply revenue_nonneg. }
  assert (Hnext : 0 <= next) by (apply Qsum_filter_nonneg; exact Hpost).
  assert (Hgrowth :
            - (100) <= (if Qlt_le_dec 0 first
                        then (next - first) / first * 100 else 0)).
  { destruct (Qlt_le_dec 0 first); [now apply growth_pct_lower_bound | lra]. }
  split; [exact Htotal|].
  assert (Hshare :
            0 <= (if Qlt_le_dec 0 market then total / market * 100 else 0)
            /\ (if Qlt_le_dec 0 market then total / market * 100 else 0) <= 100).
  { destruct (Qlt_le_dec 0 market); [now apply ratio_pct_bounds | lra]. }
  destruct Hshare as [Hs1 Hs2].
  split; [exact Hs1|]. split; [exact Hs2|]. split; [exact Hgrowth|].
  set (g := if Qlt_le_dec 0 first then _ else _) in *.
  assert (0 <= 1 + g / 100)
    by (unfold Qdiv; change (/ 100) with (1 # 100); lra).
  apply Qmult_le_0_compat; assumption.
Qed.

End ScoreBounds.

Section RegistryRuns.
Variable products_df : DataFrame Product.row.
Variable df : list Txn.row.

(** The lookback selection, once the product master has its
    [launch_date] column. *)
Lemma identify_new_launches_value (months : Z) :
  has_column "launch_date" products_df = true ->
  NewLaunch._identify_new_launches products_df df months
  = Ok (mkDF (columns products_df)
          (sort_rows
             (fun y x => ts_geb (Product.launch_date y) (Product.launch_date x))
             (filter (fun p =>
                        ts_geb_opt (Product.launch_date p)
                          (option_map (fun t => DateOffset_months t (- months))
                                      (ts_max (map Txn.date df))))
                     (rows products_df)))).
Proof.
  intros Hcol. unfold NewLaunch._identify_new_launches, column.
  rewrite Hcol. cbn [Py.bind]. unfold sort_dates_desc.
  change (has_column "launch_date" (select _ products_df))
    with (has_column "launch_date" products_df).
  rewrite Hcol. reflexivity.
Qed.

(** X4.  With a [launch_date] column in the product master the lookback
    selection returns: its rows are the products launched on or after the
    cutoff (the latest sale date minus the lookback), each once, from the
    latest launch to the earliest; on a table without sales there is no
    cutoff and nothing is selected. *)
Theorem new_launches_within_lookback (months : Z) :
  has_column "launch_date" products_df = true ->
  exists out,
    NewLaunch._identify_new_launches products_df df months = Ok out
    /\ columns out = columns products_df
    /\ Permutation (rows out)
         (filter (fun p =>
                    ts_geb_opt (Product.launch_date p)
                      (option_map (fun t => DateOffset_months t (- months))
                                  (ts_max (map Txn.date df))))
                 (rows products_df))
    /\ StronglySorted
         (fun a b => ts_geb (Product.launch_date a) (Product.launch_date b) = true)
         (rows out)
    /\ (df = [] -> rows out = []).
Proof.
  intros Hcol. rewrite (identify_new_launches_value months Hcol).
  eexists. split; [reflexivity|].
  cbn [columns rows]. split; [reflexivity|]. split; [|split].
  - apply sort_rows_Permutation.
  - apply sort_rows_sorted.
    + intros x y. apply ts_geb_total.
    + intros x y z. apply ts_geb_trans.
  - intros ->. cbn [map ts_max fold_left option_map].
    assert (E : filter (fun p : Product.row =>
                          ts_geb_opt (Product.launch_date p) None)
                       (rows products_df) = [])
      by (apply filter_nil_iff; reflexivity).
    rewrite E. reflexivity.
Qed.

Lemma targets_loop (launches : list Launch.row) (d : dict NewLaunch.Targets)
    (k : string) (v : NewLaunch.Targets) :
  In (k, v)
     (fold_left
        (fun d launch =>
           match NewLaunch.targets_of products_df launch with
           | Some (k, v) => Py.set k v d
           | None => d
           end)
        launches d) ->
  (exists launch,
     In launch launches /\ NewLaunch.targets_of products_df launch = Some (k, v))
  \/ In (k, v) d.
Proof.
  revert d. induction launches as [|l ls IH]; intros d; simpl; [now right|].
  intros H. destruct (IH _ H) as [(launch & Hl & Ht) | Hd].
  - left. exists launch. split; [now right | assumption].
  - destruct (NewLaunch.targets_of products_df l) as [[k0 v0]|] eqn:E;
      [|now right].
    apply In_set in Hd as [[-> ->] | Hd]; [|now right].
    left. exists l. split; [now left | assumption].
Qed.

(** X5.  Every entry of the cannibalization targets belongs to a selected
    launch and lists at least one product; each listed product is in the
    product master, shares the launch's category and brand, and was
    launched strictly before it. *)
Theorem cannibalization_targets_are_earlier_siblings
    (top_launches : DataFrame Launch.row) (k : string)
    (v : NewLaunch.Targets) :
  In (k, v)
     (Py.items (NewLaunch._identify_cannibalization_targets products_df
                  top_launches)) ->
  exists launch,
    In launch (rows top_launches)
    /\ k = Launch.product_id launch
    /\ NewLaunch.new_product v = Launch.product_name launch
    /\ NewLaunch.targets v <> []
    /\ forall tg, In tg (NewLaunch.targets v) ->
         exists p,
           In p (rows products_df)
           /\ NewLaunch.Target.product_id tg = Product.product_id p
           /\ NewLaunch.Target.launch_date tg = Product.launch_date p
           /\ Product.type p = Launch.type launch
           /\ Product.brand p = Launch.brand launch
           /\ ts_ltb (Product.launch_date p) (Launch.launch_date launch) = true.
Proof.
  unfold NewLaunch._identify_cannibalization_targets, Py.items. intros H.
  apply targets_loop in H as [(launch & Hl & Ht) | []].
  exists launch. split; [assumption|].
  unfold NewLaunch.targets_of in Ht.
  set (existing := filter _ (rows products_df)) in Ht.
  destruct (0 <? List.length existing)%nat eqn:Elen; [|discriminate].
  injection Ht as <- <-. cbn [NewLaunch.new_product NewLaunch.targets].
  split; [reflexivity|]. split; [reflexivity|]. split.
  - apply Nat.ltb_lt in Elen. destruct existing; simpl in *; [lia | discriminate].
  - intros tg Htg. apply in_map_iff in Htg as (p & <- & Hp).
    apply filter_In in Hp as [Hp Hc].
    apply andb_prop in Hc as [Hc Hd]. apply andb_prop in Hc as [Hty Hbr].
    apply String.eqb_eq in Hty. apply String.eqb_eq in Hbr.
    exists p. repeat split; assumption.
Qed.



End RegistryRuns.

(* ================================================================== *)
(** * Source of volume: the record, the breakdown and the tests        *)
(* ================================================================== *)

Section DictUpdates.
Context {V : Type}.

Lemma get_set (k k' : string) (v : V) (d : dict V) :
  Py.get k' (Py.set k v d) = if String.eqb k' k then Some v else Py.get k' d.
Proof.
  induction d as [|[k0 v0] d IH]; simpl.
  - reflexivity.
  - destruct (String.eqb k k0) eqn:E; simpl.
    + apply String.eqb_eq in E as ->. now destruct (String.eqb k' k0).
    + rewrite IH. destruct (String.eqb k' k0) eqn:E0; [|reflexivity].
      apply String.eqb_eq in E0 as ->.
      rewrite String.eqb_sym, E. reflexivity.
Qed.

Lemma keys_set (k : string) (v : V) (d : dict V) :
  map fst (Py.set k v d)
  = if Py.mem k d then map fst d else map fst d ++ [k].
Proof.
  unfold Py.mem. induction d as [|[k0 v0] d IH]; simpl; [reflexivity|].
  destruct (String.eqb k k0) eqn:E; simpl.
  - apply String.eqb_eq in E as ->. reflexivity.
  - rewrite IH. now destruct (Py.get k d).
Qed.

Lemma NoDup_keys_set (k : string) (v : V) (d : dict V) :
  NoDup (map fst d) -> NoDup (map fst (Py.set k v d)).
Proof.
  intros H. rewrite keys_set. unfold Py.mem.
  destruct (Py.get k d) eqn:E; [assumption|].
  apply NoDup_app; [assumption | repeat constructor; intros [] |].
  intros x Hx [<- | []]. apply In_keys_iff in Hx. congruence.
Qed.

(** After a loop of assignments [d[key x] = f x] every key assigned is
    bound, to the value of one of the elements that carry it, and the keys
    are distinct. *)
Lemma assignments_bind {A : Type} (key : A -> string) (f : A -> V)
    (l : list A) (d : dict V) (x : A) :
  In x l ->
  exists y,
    In y l /\ key y = key x
    /\ Py.get (key x) (fold_left (fun d x => Py.set (key x) (f x) d) l d)
       = Some (f y).
Proof.
  revert d. induction l as [|a l IH]; intros d; simpl; [intros []|].
  assert (Hkeep : forall (l' : list A) (d' : dict V) (w : V),
             Py.get (key x) d' = Some w ->
             (exists y, In y l' /\ key y = key x
                        /\ Py.get (key x)
                             (fold_left (fun d x => Py.set (key x) (f x) d) l' d')
                           = Some (f y))
             \/ Py.get (key x)
                  (fold_left (fun d x => Py.set (key x) (f x) d) l' d')
                = Some w).
  { induction l' as [|b l' IHl]; intros d' w Hw; simpl; [now right|].
    destruct (String.eqb (key x) (key b)) eqn:E.
    - destruct (IHl (Py.set (key b) (f b) d') (f b)) as [(y & Hy & Hk & Hg) | Hg].
      + rewrite get_set, E. reflexivity.
      + left. exists y. split; [now right | auto].
      + left. exists b. split; [now left|]. apply String.eqb_eq in E. auto.
    - destruct (IHl (Py.set (key b) (f b) d') w) as [(y & Hy & Hk & Hg) | Hg].
      + rewrite get_set, E. exact Hw.
      + left. exists y. split; [now right | auto].
      + now right. }
  intros [-> | Hx].
  - destruct (Hkeep l (Py.set (key x) (f x) d) (f x))
      as [(y & Hy & Hk & Hg) | Hg].
    + rewrite get_set, String.eqb_refl. reflexivity.
    + exists y. split; [now right | auto].
    + exists x. split; [now left | auto].
  - destruct (IH (Py.set (key a) (f a) d) Hx) as (y & Hy & Hk & Hg).
    exists y. split; [now right | auto].
Qed.

Lemma assignments_NoDup {A : Type} (key : A -> string) (f : A -> V)
    (l : list A) (d : dict V) :
  NoDup (map fst d) ->
  NoDup (map fst (fold_left (fun d x => Py.set (key x) (f x) d) l d)).
Proof.
  revert d. induction l as [|a l IH]; intros d Hd; simpl; [assumption|].
  apply IH. now apply NoDup_keys_set.
Qed.

End DictUpdates.

Section LoopInvariants.
Variables pre_revenue post_revenue : dict Q.

Lemma cannibalization_loop_balance (keys : list string)
    (st : Q * list Cannibalized.row) :
  let out := fold_left (SOV.cannibalization_step pre_revenue post_revenue)
                       keys st in
  fst out - Qsum (map Cannibalized.revenue_loss (snd out))
  == fst st - Qsum (map Cannibalized.revenue_loss (snd st)).
Proof.
  cbv zeta. revert st. induction keys as [|k keys IH]; intros st; simpl;
    [reflexivity|].
  rewrite IH. unfold SOV.cannibalization_step.
  destruct (Py.get k post_revenue) as [post|]; [|reflexivity].
  destruct (Py.get k pre_revenue) as [pre|]; [|reflexivity].
  destruct (Qlt_le_dec (post - pre) 0); [|reflexivity].
  cbn [fst snd]. rewrite map_app, Qsum_app.
  cbn [map Qsum Cannibalized.revenue_loss]. lra.
Qed.

Lemma cannibalization_loop_ids (keys : list string)
    (st : Q * list Cannibalized.row) :
  NoDup keys ->
  NoDup (map Cannibalized.product_id (snd st)) ->
  (forall e, In e (snd st) -> ~ In (Cannibalized.product_id e) keys) ->
  NoDup (map Cannibalized.product_id
           (snd (fold_left (SOV.cannibalization_step pre_revenue post_revenue)
                           keys st))).
Proof.
  revert st. induction keys as [|k keys IH]; intros st Hk Hs Hout; simpl;
    [assumption|].
  inversion Hk as [|? ? Hnotin Hk']; subst.
  apply IH; [assumption | |].
  - unfold SOV.cannibalization_step.
    destruct (Py.get k post_revenue) as [post|]; [|assumption].
    destruct (Py.get k pre_revenue) as [pre|]; [|assumption].
    destruct (Qlt_le_dec (post - pre) 0); [|assumption].
    cbn [snd]. rewrite map_app. cbn [map Cannibalized.product_id].
    apply NoDup_app; [assumption | repeat constructor; intros [] |].
    intros x Hx [<- | []].
    apply in_map_iff in Hx as (e & He & Hin).
    apply (Hout e Hin). rewrite He. now left.
  - intros e He Hin.
    unfold SOV.cannibalization_step in He.
    destruct (Py.get k post_revenue) as [post|];
      [|apply (Hout e He); now right].
    destruct (Py.get k pre_revenue) as [pre|];
      [|apply (Hout e He); now right].
    destruct (Qlt_le_dec (post - pre) 0); [|apply (Hout e He); now right].
    cbn [snd] in He. apply in_app_or in He as [He | [<- | []]].
    + apply (Hout e He). now right.
    + cbn [Cannibalized.product_id] in Hin. contradiction.
Qed.

End LoopInvariants.

Section SovRecordFacts.
Variable df : list Txn.row.
Variable new_launches : DataFrame Launch.row.
Variable window_months : Z.

Lemma sibling_id_is_not_the_launch (launch : Launch.row) (k : string) :
  In k (Spec.sibling_ids df launch) -> k <> Launch.product_id launch.
Proof.
  unfold Spec.sibling_ids. intros H.
  apply nodup_In, in_map_iff in H as (t & <- & Ht).
  apply filter_In in Ht as [_ Hs]. unfold Spec.is_sibling in Hs.
  apply andb_prop in Hs as [_ Hn]. apply negb_true_iff in Hn.
  now apply String.eqb_neq.
Qed.

(** X7.  In every SOV record the total and the list agree:
    [cannibalized_revenue] is the sum of the [revenue_loss] of the listed
    products; a product is listed at most once, and the launched product is
    never listed among the products it cannibalizes. *)
Theorem cannibalized_total_matches_list
    (product_id : string) (sov_data : SovRecord.t) :
  In (product_id, sov_data)
     (Py.items (SOV._analyze_sov_by_launch df new_launches window_months)) ->
  SovRecord.cannibalized_revenue sov_data
  == Qsum (map Cannibalized.revenue_loss
             (SovRecord.cannibalized_products sov_data))
  /\ NoDup (map Cannibalized.product_id
              (SovRecord.cannibalized_products sov_data))
  /\ forall e, In e (SovRecord.cannibalized_products sov_data) ->
               Cannibalized.product_id e <> product_id.
Proof.
  intros H. apply sov_record_of_launch in H as (launch & Hl & <- & ->).
  rewrite sov_of_cannibalized_revenue, sov_of_cannibalized_products.
  split; [|split].
  - pose proof (cannibalization_loop_balance
                  (SOV.pre_revenue_of df window_months launch)
                  (SOV.post_revenue_of df window_months launch)
                  (map fst (SOV.pre_revenue_of df window_months launch))
                  (0, [])) as B.
    cbv zeta in B. cbn [fst snd map Qsum] in B. lra.
  - apply cannibalization_loop_ids.
    + rewrite pre_keys. apply NoDup_group_keys, String.eqb_eq.
    + constructor.
    + intros e [].
  - intros e He.
    apply cannibalization_loop_entries in He as [[] | Hb].
    destruct Hb as (pre & post & Hpre & _).
    rewrite get_pre_revenue in Hpre.
    apply sibling_id_is_not_the_launch, pre_key_is_sibling with window_months.
    congruence.
Qed.

Lemma sov_of_identity (launch : Launch.row) :
  SovRecord.new_product_id (SOV.sov_of df window_months launch)
  = Launch.product_id launch
  /\ SovRecord.launch_date (SOV.sov_of df window_months launch)
     = Launch.launch_date launch.
Proof.
  unfold SOV.sov_of. destruct (fold_left _ _ _). split; reflexivity.
Qed.

Lemma share_of_revenue (x total : Q) :
  0 <= x -> 0 <= (if Qlt_le_dec 0 total then x / total * 100 else 0).
Proof.
  intros Hx. destruct (Qlt_le_dec 0 total) as [Ht | Ht]; [|lra].
  assert (Hi : 0 < / total) by now apply Qinv_lt_0_compat.
  unfold Qdiv. set (i := / total) in *. nra.
Qed.

(** X8.  In every SOV record the three breakdown percentages are taken
    relative to [new_product_revenue]: each is its amount divided by that
    revenue, times 100, when the revenue is positive, and 0 when the launch
    earned nothing; the cannibalization and the competitor percentages are
    never negative. *)
Theorem breakdown_percentages (product_id : string) (sov_data : SovRecord.t) :
  In (product_id, sov_data)
     (Py.items (SOV._analyze_sov_by_launch df new_launches window_months)) ->
  let b := SovRecord.sov_breakdown sov_data in
  let total := SovRecord.new_product_revenue sov_data in
  (0 < total ->
     Breakdown.cannibalization_pct b
     = SovRecord.cannibalized_revenue sov_data / total * 100
     /\ Breakdown.competitor_pct b
        = SovRecord.competitor_loss sov_data / total * 100
     /\ Breakdown.expansion_pct b
        = SovRecord.market_expansion sov_data / total * 100)
  /\ (total <= 0 ->
        Breakdown.cannibalization_pct b = 0
        /\ Breakdown.competitor_pct b = 0
        /\ Breakdown.expansion_pct b = 0)
  /\ 0 <= Breakdown.cannibalization_pct b
  /\ 0 <= Breakdown.competitor_pct b.
Proof.
  intros H. apply sov_record_of_launch in H as (launch & Hl & _ & ->).
  pose proof (sov_of_cannibalized_revenue_nonneg df window_months launch) as Hc.
  pose proof (sov_of_competitor_loss_nonneg df window_months launch) as Hk.
  revert Hc Hk. unfold SOV.sov_of. destruct (fold_left _ _ _) as [c l].
  cbn [SovRecord.sov_breakdown SovRecord.new_product_revenue
         SovRecord.cannibalized_revenue SovRecord.competitor_loss
         SovRecord.market_expansion Breakdown.cannibalization_pct
         Breakdown.competitor_pct Breakdown.expansion_pct].
  intros Hc Hk. split; [|split; [|split]].
  - intros Hpos. destruct (Qlt_le_dec 0 _) as [_ | Hle]; [|lra].
    repeat split.
  - intros Hle. destruct (Qlt_le_dec 0 _) as [Hpos | _]; [lra|].
    repeat split.
  - now apply share_of_revenue.
  - now apply share_of_revenue.
Qed.

End SovRecordFacts.

Section SovRunFacts.
Variable df : list Txn.row.
Variable ttest_ind : list Q -> list Q -> Q * Q.

Lemma collect_length_le {A B : Type} (body : A -> option B) (l : list A) :
  (List.length (collect body l) <= List.length l)%nat.
Proof.
  induction l as [|x l IH]; [reflexivity|].
  rewrite collect_cons. destruct (body x); simpl; lia.
Qed.

Lemma rows_from_records {R : Type} (labels : list string) (records : list R) :
  rows (from_records labels records) = records.
Proof. now destruct records. Qed.

Lemma fold_set_keys {A V : Type} (F : dict V -> string * A -> dict V)
    (g : string -> A -> V) (d : list (string * A)) (acc : dict V) :
  (forall acc k v, F acc (k, v) = Py.set k (g k v) acc) ->
  NoDup (map fst acc ++ map fst d) ->
  map fst (fold_left F d acc) = map fst acc ++ map fst d.
Proof.
  intros HF. revert acc. induction d as [|[k v] d IH]; intros acc Hnd; simpl.
  - now rewrite app_nil_r.
  - rewrite HF.
    assert (Hk : Py.mem k acc = false).
    { unfold Py.mem. destruct (Py.get k acc) eqn:E; [|reflexivity].
      exfalso. apply NoDup_remove_2 in Hnd. apply Hnd.
      apply in_or_app. left. apply (proj2 (In_keys_iff k acc)).
      rewrite E. discriminate. }
    rewrite IH.
    + rewrite keys_set, Hk, <- app_assoc. reflexivity.
    + rewrite keys_set, Hk, <- app_assoc. exact Hnd.
Qed.

(** X9.  On a launch table with rows and the five columns that the
    analysis reads from a launch ([product_id], [launch_date], [type],
    [brand] and [product_name]) the SOV analysis covers every launch: each
    launch's [product_id] is bound in [sov_by_launch] to a record of that
    product, every key of [sov_by_launch] is the [product_id] of a launch,
    keys are distinct, and the breakdown table and the significance tests
    have exactly the keys of [sov_by_launch], in the same order. *)
Theorem sov_execute_covers_every_launch (new_launches : DataFrame Launch.row)
    (window_months : Z) :
  rows new_launches <> [] ->
  has_column "product_id" new_launches = true ->
  has_column "launch_date" new_launches = true ->
  has_column "type" new_launches = true ->
  has_column "brand" new_launches = true ->
  has_column "product_name" new_launches = true ->
  let results := SOV.execute df new_launches ttest_ind window_months in
  let keys := map fst (SOV.sov_by_launch results) in
  SOV.sov_by_launch results
  = SOV._analyze_sov_by_launch df new_launches window_months
  /\ NoDup keys
  /\ (forall launch, In launch (rows new_launches) ->
        exists sov_data,
          Py.get (Launch.product_id launch) (SOV.sov_by_launch results)
          = Some sov_data
          /\ SovRecord.new_product_id sov_data = Launch.product_id launch)
  /\ (forall k, In k keys ->
        exists launch, In launch (rows new_launches)
                       /\ Launch.product_id launch = k)
  /\ map BreakdownRow.product_id (rows (SOV.sov_breakdown results)) = keys
  /\ map fst (SOV.significance_tests results) = keys.
Proof.
  intros Hne Hcol _ _ _ _. cbv zeta. unfold SOV.execute. rewrite Hcol.
  assert (Hlen : (len new_launches =? 0)%nat = false).
  { unfold len. destruct (rows new_launches); [contradiction | reflexivity]. }
  rewrite Hlen. cbn [orb negb].
  set (sov := SOV._analyze_sov_by_launch df new_launches window_months).
  assert (Hbind : forall launch, In launch (rows new_launches) ->
            exists sov_data,
              Py.get (Launch.product_id launch) sov = Some sov_data
              /\ SovRecord.new_product_id sov_data = Launch.product_id launch).
  { intros launch Hl.
    destruct (assignments_bind Launch.product_id (SOV.sov_of df window_months)
                (rows new_launches) [] launch Hl) as (y & Hy & Hk & Hg).
    exists (SOV.sov_of df window_months y). split; [exact Hg|].
    rewrite <- Hk. apply sov_of_identity. }
  assert (Hnd : NoDup (map fst sov))
    by (apply assignments_NoDup; constructor).
  assert (Hpos : (0 <? List.length sov)%nat = true).
  { destruct (rows new_launches) as [|l0 ls] eqn:E; [contradiction|].
    destruct (Hbind l0 (or_introl eq_refl)) as (sd & Hg & _).
    destruct sov; [discriminate | reflexivity]. }
  rewrite Hpos. cbn [SOV.sov_by_launch SOV.sov_breakdown SOV.significance_tests].
  split; [reflexivity|]. split; [exact Hnd|]. split; [exact Hbind|]. split.
  - intros k Hk. apply in_map_iff in Hk as ([k' sd] & <- & Hin).
    apply sov_record_of_launch in Hin as (launch & Hl & Hid & _). eauto.
  - split.
    + unfold SOV._calculate_sov_breakdown, Py.items.
      rewrite rows_from_records, map_map.
      apply map_ext. intros [k sd]. reflexivity.
    + unfold SOV._perform_significance_tests, Py.items.
      rewrite (fold_set_keys _
                 (fun _ sov_data =>
                    collect
                      (SOV.test_of df ttest_ind
                         (DateOffset_months (SovRecord.launch_date sov_data) (- 6))
                         (SovRecord.launch_date sov_data)
                         (SovRecord.launch_date sov_data)
                         (DateOffset_months (SovRecord.launch_date sov_data) 6))
                      (SovRecord.cannibalized_products sov_data))).
      * reflexivity.
      * intros acc k v. reflexivity.
      * exact Hnd.
Qed.

Lemma tested_ids (pre_start pre_end post_start post_end : Timestamp)
    (l : list Cannibalized.row) :
  map Test.target_product_id
      (collect (SOV.test_of df ttest_ind pre_start pre_end post_start post_end)
               l)
  = map Cannibalized.product_id
        (filter (fun e =>
                   (1 <? List.length
                           (SOV.monthly_revenue df (Cannibalized.product_id e)
                              pre_start pre_end))%nat
                   && (1 <? List.length
                              (SOV.monthly_revenue df
                                 (Cannibalized.product_id e)
                                 post_start post_end))%nat)
                l).
Proof.
  induction l as [|e l IH]; [reflexivity|].
  rewrite collect_cons. cbn [filter]. unfold SOV.test_of at 1.
  destruct ((1 <? List.length _)%nat && (1 <? List.length _)%nat).
  - destruct (ttest_ind _ _) as [t_stat p_value].
    cbn [map Test.target_product_id]. now rewrite IH.
  - exact IH.
Qed.

Lemma NoDup_map_filter {A B : Type} (f : A -> B) (keep : A -> bool)
    (l : list A) :
  NoDup (map f l) -> NoDup (map f (filter keep l)).
Proof.
  induction l as [|x l IH]; cbn [map filter]; [auto|].
  intros H. inversion H as [|? ? Hnot Hnd]; subst.
  destruct (keep x); [|auto].
  cbn [map]. constructor; [|auto].
  intros Hin. apply Hnot.
  apply in_map_iff in Hin as (y & Hy & Hin).
  apply filter_In in Hin as [Hin _].
  apply in_map_iff. eauto.
Qed.

Lemma cannibalized_ids_distinct (window_months : Z) (launch : Launch.row) :
  NoDup (map Cannibalized.product_id
           (SovRecord.cannibalized_products
              (SOV.sov_of df window_months launch))).
Proof.
  rewrite sov_of_cannibalized_products.
  apply cannibalization_loop_ids.
  - rewrite pre_keys. apply NoDup_group_keys, String.eqb_eq.
  - constructor.
  - intros e [].
Qed.

(** X10.  The tests recorded for an analysed launch are those of its
    cannibalized products that have at least two months of revenue both in
    the six months before and in the six months after the launch date: one
    test for each such product and none for the others, in the order of the
    list, so that no product is tested twice.  A test carries its product's
    id, loss and percentage change and the statistic and p-value of the
    t-test on the two monthly series, and is flagged significant exactly
    when the p-value is below 0.05. *)
Theorem recorded_tests_match_cannibalized_products
    (new_launches : DataFrame Launch.row) (window_months : Z)
    (product_id : string) (tests : list Test.row) :
  In (product_id, tests)
     (Py.items (SOV._perform_significance_tests df ttest_ind
                  (SOV._analyze_sov_by_launch df new_launches window_months))) ->
  exists sov_data,
    let launch_date := SovRecord.launch_date sov_data in
    let pre_period := fun id =>
      SOV.monthly_revenue df id
        (DateOffset_months launch_date (- 6)) launch_date in
    let post_period := fun id =>
      SOV.monthly_revenue df id
        launch_date (DateOffset_months launch_date 6) in
    In (product_id, sov_data)
       (Py.items (SOV._analyze_sov_by_launch df new_launches window_months))
    /\ map Test.target_product_id tests
       = map Cannibalized.product_id
           (filter (fun e =>
                      (1 <? List.length
                              (pre_period (Cannibalized.product_id e)))%nat
                      && (1 <? List.length
                                 (post_period (Cannibalized.product_id e)))%nat)
                   (SovRecord.cannibalized_products sov_data))
    /\ NoDup (map Test.target_product_id tests)
    /\ forall t, In t tests ->
         (exists e,
            In e (SovRecord.cannibalized_products sov_data)
            /\ Test.target_product_id t = Cannibalized.product_id e
            /\ Test.revenue_loss t = Cannibalized.revenue_loss e
            /\ Test.pct_change t = Cannibalized.pct_change e)
         /\ (2 <= List.length (pre_period (Test.target_product_id t)))%nat
         /\ (2 <= List.length (post_period (Test.target_product_id t)))%nat
         /\ (Test.t_statistic t, Test.p_value t)
            = ttest_ind (map snd (pre_period (Test.target_product_id t)))
                        (map snd (post_period (Test.target_product_id t)))
         /\ (Test.is_significant t = true <-> Test.p_value t < 5 # 100).
Proof.
  intros H. apply significance_tests_of_record in H as (sov_data & Hin & ->).
  exists sov_data. cbv zeta. split; [exact Hin|].
  split; [apply tested_ids|]. split.
  - rewrite tested_ids. apply NoDup_map_filter.
    apply sov_record_of_launch in Hin as (launch & _ & _ & ->).
    apply cannibalized_ids_distinct.
  - intros t Ht.
    apply In_collect in Ht as (e & He & Ht).
    unfold SOV.test_of in Ht.
    destruct ((1 <? List.length _)%nat && (1 <? List.length _)%nat) eqn:Hlen;
      [|discriminate].
    apply andb_prop in Hlen as [Hpre Hpost].
    apply Nat.ltb_lt in Hpre. apply Nat.ltb_lt in Hpost.
    destruct (ttest_ind _ _) as [t_stat p_value] eqn:Htest.
    injection Ht as <-.
    cbn [Test.target_product_id Test.revenue_loss Test.pct_change
           Test.t_statistic Test.p_value Test.is_significant].
    split; [exists e; repeat split; assumption|].
    split; [lia|]. split; [lia|]. split; [now rewrite Htest|].
    destruct (Qlt_le_dec p_value (5 # 100)); split; intros H';
      try reflexivity; try assumption; try discriminate; lra.
Qed.

End SovRunFacts.

(* ================================================================== *)
(** * Portfolio impact on the results of the SOV analysis              *)
(* ================================================================== *)

Section PipelineFacts.
Variable df : list Txn.row.
Variable ttest_ind : list Q -> list Q -> Q * Q.
Variable new_launches : DataFrame Launch.row.

(** Whatever branch [SOVAnalyzer.execute] takes, the records it returns
    are records of the per-launch analysis. *)
Lemma sov_execute_records (window_months : Z) (k : string) (sd : SovRecord.t) :
  In (k, sd)
     (Py.items (SOV.sov_by_launch
                  (SOV.execute df new_launches ttest_ind window_months))) ->
  In (k, sd)
     (Py.items (SOV._analyze_sov_by_launch df new_launches window_months)).
Proof.
  unfold SOV.execute.
  destruct ((len new_launches =? 0)%nat || negb (has_column "product_id" new_launches));
    [intros []|].
  destruct (0 <? List.length _)%nat; exact (fun H => H).
Qed.

Lemma sov_execute_binds (window_months : Z) :
  rows new_launches <> [] ->
  has_column "product_id" new_launches = true ->
  forall launch, In launch (rows new_launches) ->
    Py.get (Launch.product_id launch)
      (SOV.sov_by_launch (SOV.execute df new_launches ttest_ind window_months))
    <> None.
Proof.
  intros Hne Hcol launch Hl. unfold SOV.execute. rewrite Hcol.
  assert (Hlen : (len new_launches =? 0)%nat = false).
  { unfold len. destruct (rows new_launches); [contradiction | reflexivity]. }
  rewrite Hlen. cbn [orb negb].
  destruct (assignments_bind Launch.product_id (SOV.sov_of df window_months)
              (rows new_launches) [] launch Hl) as (y & _ & _ & Hg).
  fold (SOV._analyze_sov_by_launch df new_launches window_months) in Hg.
  destruct (0 <? List.length _)%nat eqn:E; cbn [SOV.sov_by_launch]; congruence.
Qed.

Lemma impact_of_ratios (sov_results : SOV.Results) (window_months : Z)
    (launch : Launch.row) (r : Impact.row) :
  PortfolioImpact.impact_of df sov_results window_months launch = Some r ->
  Impact.net_impact_pct r
  = (if Qlt_le_dec 0 (Impact.new_product_revenue r)
     then Impact.net_impact r / Impact.new_product_revenue r * 100 else 0)
  /\ Impact.roi r
     = (if Qlt_le_dec 0 (Impact.lost_revenue r)
        then Roi.finite (Impact.net_impact r / Impact.lost_revenue r * 100)
        else Roi.inf).
Proof.
  unfold PortfolioImpact.impact_of.
  destruct (Py.get _ _) as [sov_data|]; [|discriminate].
  intros [= <-]. split; reflexivity.
Qed.

Lemma collect_all {A B : Type} (body : A -> option B) (g : B -> string)
    (h : A -> string) (l : list A) :
  (forall x, In x l -> body x <> None) ->
  (forall x r, body x = Some r -> g r = h x) ->
  map g (collect body l) = map h l.
Proof.
  intros Hall Hid. induction l as [|x l IH]; [reflexivity|].
  rewrite collect_cons.
  destruct (body x) as [r|] eqn:E.
  - simpl. rewrite (Hid x r E), IH; [reflexivity|].
    intros y Hy. apply Hall. now right.
  - exfalso. apply (Hall x); [now left | assumption].
Qed.

Lemma classify_launches_value (portfolio_impact : DataFrame Impact.row) :
  columns portfolio_impact = Impact.labels ->
  PortfolioImpact._classify_launches portfolio_impact
  = Ok (mkDF (Classification.labels ++ ["performance_rating"])
          (map (fun r =>
                  Classification.mk (Impact.product_id r)
                    (Impact.product_name r) (Impact.launch_date r)
                    (Impact.new_product_revenue r) (Impact.lost_revenue r)
                    (Impact.net_impact r) (Impact.launch_type r)
                    (Impact.roi r)
                    (PortfolioImpact.performance_rating (Impact.net_impact r)))
               (rows portfolio_impact))).
Proof.
  intros Hcols. unfold PortfolioImpact._classify_launches, has_column.
  rewrite Hcols. reflexivity.
Qed.

(** The portfolio-impact run on the results of the SOV analysis of the
    same launch table. *)
Lemma impact_run (sov_window impact_window : Z) :
  rows new_launches <> [] ->
  has_column "product_id" new_launches = true ->
  has_column "type" new_launches = true ->
  has_column "brand" new_launches = true ->
  exists res,
    PortfolioImpact.execute df new_launches
      (SOV.execute df new_launches ttest_ind sov_window) impact_window
    = Ok res
    /\ len (PortfolioImpact.portfolio_impact res) = len new_launches
    /\ Permutation
         (map Impact.product_id (rows (PortfolioImpact.portfolio_impact res)))
         (map Launch.product_id (rows new_launches))
    /\ StronglySorted (fun a b => Impact.net_impact b <= Impact.net_impact a)
         (rows (PortfolioImpact.portfolio_impact res))
    /\ map Classification.product_id
           (rows (PortfolioImpact.launch_classification res))
       = map Impact.product_id (rows (PortfolioImpact.portfolio_impact res)).
Proof.
  intros Hne Hid Hty Hbr.
  set (sov := SOV.execute df new_launches ttest_ind sov_window).
  assert (Hall : forall l, In l (rows new_launches) ->
            PortfolioImpact.impact_of df sov impact_window l <> None).
  { intros l Hl. unfold PortfolioImpact.impact_of.
    pose proof (sov_execute_binds sov_window Hne Hid l Hl) as Hb.
    fold sov in Hb. destruct (Py.get _ _); [discriminate | contradiction]. }
  assert (Hids : map Impact.product_id
                   (collect (PortfolioImpact.impact_of df sov impact_window)
                            (rows new_launches))
                 = map Launch.product_id (rows new_launches)).
  { apply collect_all; [exact Hall|].
    intros l r Hr. apply impact_of_row in Hr as (_ & _ & Hi & _). exact Hi. }
  destruct (sort_values_desc_records_sorted Impact.net_impact Impact.labels
              "net_impact"
              (collect (PortfolioImpact.impact_of df sov impact_window)
                       (rows new_launches)))
    as (pi & Hpi & Hcols & Hperm & Hsorted).
  { intros E. rewrite E in Hids. destruct (rows new_launches);
      [contradiction | discriminate]. }
  { simpl. tauto. }
  destruct (group_impact_rows new_launches sov "type" "category" Launch.type
              Hty Hne) as (cat & Hcat & _).
  destruct (group_impact_rows new_launches sov "brand" "brand" Launch.brand
              Hbr Hne) as (br & Hbrand & _).
  unfold PortfolioImpact.execute, PortfolioImpact._calculate_portfolio_impact.
  rewrite Hpi. cbn [Py.bind].
  unfold PortfolioImpact._calculate_category_impact,
    PortfolioImpact._calculate_brand_impact.
  rewrite Hcat, Hbrand. cbn [Py.bind].
  rewrite (classify_launches_value pi Hcols). cbn [Py.bind].
  eexists. split; [reflexivity|].
  cbn [PortfolioImpact.portfolio_impact PortfolioImpact.launch_classification rows].
  split; [|split; [|split]].
  - unfold len. rewrite (Permutation_length Hperm).
    rewrite <- (length_map Impact.product_id), Hids. apply length_map.
  - rewrite <- Hids. now apply Permutation_map.
  - exact Hsorted.
  - rewrite map_map. reflexivity.
Qed.

(** X11.  Given the results of the SOV analysis of the same, non-empty
    launch table, which has the five columns that the two analyses read from
    a launch ([product_id], [launch_date], [type], [brand] and
    [product_name]), the portfolio-impact analysis returns: the impact table
    has one row per launch, carrying the launches' product ids, in
    descending order of [net_impact], and the classification table has the
    same products in the same order. *)
Theorem portfolio_impact_returns_after_sov (sov_window impact_window : Z) :
  rows new_launches <> [] ->
  has_column "product_id" new_launches = true ->
  has_column "launch_date" new_launches = true ->
  has_column "type" new_launches = true ->
  has_column "brand" new_launches = true ->
  has_column "product_name" new_launches = true ->
  exists res,
    PortfolioImpact.execute df new_launches
      (SOV.execute df new_launches ttest_ind sov_window) impact_window
    = Ok res
    /\ len (PortfolioImpact.portfolio_impact res) = len new_launches
    /\ Permutation
         (map Impact.product_id (rows (PortfolioImpact.portfolio_impact res)))
         (map Launch.product_id (rows new_launches))
    /\ StronglySorted (fun a b => Impact.net_impact b <= Impact.net_impact a)
         (rows (PortfolioImpact.portfolio_impact res))
    /\ map Classification.product_id
           (rows (PortfolioImpact.launch_classification res))
       = map Impact.product_id (rows (PortfolioImpact.portfolio_impact res)).
Proof.
  intros Hne Hid _ Hty Hbr _.
  exact (impact_run sov_window impact_window Hne Hid Hty Hbr).
Qed.

(** X12.  On the results of the SOV analysis of the same table, every row
    of the impact table has a lost revenue of at least 0, a net impact of at
    most the new product's revenue and a net impact percentage of at most
    100, and its ROI is the infinity sentinel exactly when nothing was
    cannibalized. *)
Theorem portfolio_impact_bounded_by_new_revenue (sov_window impact_window : Z)
    (out : DataFrame Impact.row) (r : Impact.row) :
  PortfolioImpact._calculate_portfolio_impact df new_launches
    (SOV.execute df new_launches ttest_ind sov_window) impact_window = Ok out ->
  In r (rows out) ->
  0 <= Impact.lost_revenue r
  /\ Impact.net_impact r <= Impact.new_product_revenue r
  /\ Impact.net_impact_pct r <= 100
  /\ (Impact.roi r = Roi.inf <-> Impact.lost_revenue r == 0).
Proof.
  intros Hout Hr.
  destruct (portfolio_impact_rows _ _ _ _ _ _ Hout Hr) as (launch & Hl & Hrow).
  destruct (impact_of_ratios _ _ _ _ Hrow) as [Hpct Hroi].
  apply impact_of_row in Hrow
    as (sov_data & Hget & _ & Hnew & Hlost & Hnet & _).
  apply get_In, sov_execute_records, sov_record_of_launch in Hget
    as (launch' & _ & _ & ->).
  assert (Hnn : 0 <= Impact.lost_revenue r)
    by (rewrite Hlost; apply sov_of_cannibalized_revenue_nonneg).
  split; [exact Hnn|]. split; [rewrite Hnet; lra|]. split.
  - rewrite Hpct. destruct (Qlt_le_dec 0 (Impact.new_product_revenue r))
      as [Hpos | _]; [|lra].
    assert (Hi : 0 < / Impact.new_product_revenue r)
      by now apply Qinv_lt_0_compat.
    assert (Hone : Impact.new_product_revenue r * / Impact.new_product_revenue r == 1)
      by (apply Qmult_inv_r; lra).
    assert (Hgap : 0 <= (Impact.new_product_revenue r - Impact.net_impact r)
                        * / Impact.new_product_revenue r)
      by (apply Qmult_le_0_compat; [rewrite Hnet|]; lra).
    unfold Qdiv. set (i := / Impact.new_product_revenue r) in *. lra.
  - rewrite Hroi. destruct (Qlt_le_dec 0 (Impact.lost_revenue r)); split;
      intros H; try discriminate; try reflexivity; lra.
Qed.

End PipelineFacts.

Section PartitionFacts.
Context {A : Type}.
Variable key : A -> string.

Lemma Qsum_zeros {K : Type} (ks : list K) : Qsum (map (fun _ => 0) ks) == 0.
Proof. induction ks as [|k ks IH]; simpl; [reflexivity | rewrite IH; lra]. Qed.

Lemma Qsum_map_plus {K : Type} (h1 h2 : K -> Q) (ks : list K) :
  Qsum (map (fun k => h1 k + h2 k) ks)
  == Qsum (map h1 ks) + Qsum (map h2 ks).
Proof.
  induction ks as [|k ks IH]; simpl; [lra | rewrite IH; lra].
Qed.

Lemma Qsum_indicator (k0 : string) (c : Q) (ks : list string) :
  NoDup ks -> In k0 ks ->
  Qsum (map (fun k => if String.eqb k0 k then c else 0) ks) == c.
Proof.
  induction 1 as [|k ks Hnot Hnd IH]; [intros []|].
  intros [-> | Hin]; simpl.
  - rewrite String.eqb_refl.
    rewrite (Qsum_map_ext _ (fun _ => 0)), Qsum_zeros; [lra|].
    intros k Hk. destruct (String.eqb_spec k0 k); [subst; contradiction|].
    reflexivity.
  - destruct (String.eqb_spec k0 k); [subst; contradiction|].
    rewrite IH by assumption. lra.
Qed.

(** Summing group by group is summing everything, when every key has its
    group and no group is listed twice. *)
Lemma Qsum_by_groups (f : A -> Q) (ks : list string) (l : list A) :
  NoDup ks -> (forall x, In x l -> In (key x) ks) ->
  Qsum (map (fun g => Qsum (map f (filter (fun x => String.eqb (key x) g) l))) ks)
  == Qsum (map f l).
Proof.
  intros Hnd. induction l as [|a l IH]; intros Hcov.
  - cbn [filter map Qsum]. apply Qsum_zeros.
  - rewrite (Qsum_map_ext _
               (fun g => (if String.eqb (key a) g then f a else 0)
                         + Qsum (map f (filter (fun x => String.eqb (key x) g) l)))).
    + rewrite Qsum_map_plus, Qsum_indicator, IH; simpl; try lra; auto.
      * intros x Hx. apply Hcov. now right.
      * apply Hcov. now left.
    + intros g _. simpl. destruct (String.eqb (key a) g); simpl; lra.
Qed.

Lemma count_by_groups (ks : list string) (l : list A) :
  NoDup ks -> (forall x, In x l -> In (key x) ks) ->
  list_sum (map (fun g => List.length
                            (filter (fun x => String.eqb (key x) g) l)) ks)
  = List.length l.
Proof.
  intros Hnd. induction l as [|a l IH]; intros Hcov.
  - clear Hnd Hcov. induction ks; simpl; auto.
  - assert (Hin : In (key a) ks) by (apply Hcov; now left).
    assert (IH' : list_sum
                    (map (fun g => List.length
                                     (filter (fun x => String.eqb (key x) g) l)) ks)
                  = List.length l)
      by (apply IH; intros x Hx; apply Hcov; now right).
    clear IH Hcov. simpl. rewrite <- IH'. clear IH'.
    induction Hnd as [|k ks Hnot Hnd IHk]; [destruct Hin|].
    simpl. destruct Hin as [-> | Hin].
    + rewrite String.eqb_refl. simpl. f_equal. f_equal.
      apply f_equal, map_ext_in. intros g Hg.
      destruct (String.eqb_spec (key a) g); [subst; contradiction | reflexivity].
    + destruct (String.eqb_spec (key a) k); [subst; contradiction|].
      rewrite (IHk Hin). lia.
Qed.

End PartitionFacts.

Section ImpactTables.
Variable df : list Txn.row.
Variable new_launches : DataFrame Launch.row.
Variable sov_results : SOV.Results.

Lemma portfolio_impact_table (window_months : Z) (out : DataFrame Impact.row) :
  PortfolioImpact._calculate_portfolio_impact df new_launches sov_results
    window_months = Ok out ->
  columns out = Impact.labels
  /\ Permutation (rows out)
       (collect (PortfolioImpact.impact_of df sov_results window_months)
                (rows new_launches)).
Proof.
  unfold PortfolioImpact._calculate_portfolio_impact. intros Hout.
  destruct (collect (PortfolioImpact.impact_of df sov_results window_months)
                    (rows new_launches)) as [|r0 rs] eqn:E.
  - rewrite sort_values_desc_no_records in Hout. discriminate.
  - destruct (sort_values_desc_records_sorted Impact.net_impact Impact.labels
                "net_impact" (r0 :: rs)) as (out' & Hout' & Hc & Hp & _);
      [discriminate | simpl; tauto |].
    rewrite Hout' in Hout. injection Hout as <-. now split.
Qed.

Lemma rating_cases (net new : Q) :
  (PortfolioImpact.performance_rating net = "Excellent"
   <-> PortfolioImpact.classify net new = "Additive")
  /\ (PortfolioImpact.performance_rating net = "Poor"
      <-> net < - (1000000 # 1))
  /\ (PortfolioImpact.performance_rating net = "Moderate"
      <-> - (1000000 # 1) <= net /\ net <= 0).
Proof.
  unfold PortfolioImpact.performance_rating, PortfolioImpact.classify.
  destruct (Qlt_le_dec 0 net) as [Hpos | Hle].
  - split; [|split]; (split; intros Hx);
      first [reflexivity | discriminate | lra | (exfalso; lra)
            | (destruct Hx; exfalso; lra)].
  - destruct (Qlt_le_dec net (- new * (1 # 10))) as [Hs | Hs];
      destruct (Qlt_le_dec net (- (1000000 # 1))) as [Hp | Hp];
      (split; [|split]); (split; intros Hx);
        first [reflexivity | discriminate | lra | (exfalso; lra)
              | (split; lra) | (destruct Hx; exfalso; lra)].
Qed.

(** X13.  The classification table is derived from a returned impact
    table without raising, row for row; in it a launch is rated Excellent
    exactly when its launch type is Additive, Poor exactly when its net
    impact is below -1,000,000, and Moderate in between. *)
Theorem rating_agrees_with_launch_type (window_months : Z)
    (portfolio_impact : DataFrame Impact.row) :
  PortfolioImpact._calculate_portfolio_impact df new_launches sov_results
    window_months = Ok portfolio_impact ->
  exists classification,
    PortfolioImpact._classify_launches portfolio_impact = Ok classification
    /\ map Classification.product_id (rows classification)
       = map Impact.product_id (rows portfolio_impact)
    /\ map Classification.launch_type (rows classification)
       = map Impact.launch_type (rows portfolio_impact)
    /\ forall c, In c (rows classification) ->
         (Classification.performance_rating c = "Excellent"
          <-> Classification.launch_type c = "Additive")
         /\ (Classification.performance_rating c = "Poor"
             <-> Classification.net_impact c < - (1000000 # 1))
         /\ (Classification.performance_rating c = "Moderate"
             <-> - (1000000 # 1) <= Classification.net_impact c
                 /\ Classification.net_impact c <= 0).
Proof.
  intros Hout. destruct (portfolio_impact_table _ _ Hout) as [Hcols _].
  rewrite (classify_launches_value portfolio_impact Hcols).
  eexists. split; [reflexivity|]. cbn [rows].
  split; [now rewrite map_map|]. split; [now rewrite map_map|].
  intros c Hc. apply in_map_iff in Hc as (r & <- & Hr).
  cbn [Classification.performance_rating Classification.launch_type
         Classification.net_impact].
  destruct (portfolio_impact_rows _ _ _ _ _ _ Hout Hr) as (launch & _ & Hrow).
  apply impact_of_row in Hrow as (_ & _ & _ & _ & _ & _ & Htype).
  rewrite Htype. apply rating_cases.
Qed.

Lemma group_impact_table (label group_label : string)
    (key : Launch.row -> string) :
  has_column label new_launches = true ->
  rows new_launches <> [] ->
  exists out,
    PortfolioImpact.group_impact new_launches sov_results label group_label key
    = Ok out
    /\ Permutation (rows out)
         (map (PortfolioImpact.group_impact_of new_launches sov_results key)
              (unique (map key (rows new_launches))))
    /\ StronglySorted
         (fun a b => GroupImpact.net_impact b <= GroupImpact.net_impact a)
         (rows out).
Proof.
  intros Hcol Hne. unfold PortfolioImpact.group_impact, column.
  rewrite Hcol. cbn [Py.bind].
  destruct (sort_values_desc_records_sorted GroupImpact.net_impact
              (GroupImpact.labels group_label) "net_impact"
              (map (PortfolioImpact.group_impact_of new_launches sov_results key)
                   (unique (map key (rows new_launches)))))
    as (out & Hout & _ & Hperm & Hsorted).
  - destruct (rows new_launches) as [|l ls]; [contradiction | discriminate].
  - simpl. tauto.
  - exists out. auto.
Qed.

Lemma group_impact_of_count (key : Launch.row -> string) (g : string) :
  GroupImpact.group (PortfolioImpact.group_impact_of new_launches sov_results key g) = g
  /\ GroupImpact.num_launches
       (PortfolioImpact.group_impact_of new_launches sov_results key g)
     = List.length (filter (fun l => String.eqb (key l) g) (rows new_launches)).
Proof.
  unfold PortfolioImpact.group_impact_of.
  destruct (fold_left _ _ _). split; reflexivity.
Qed.

Lemma group_table_partition (label group_label : string)
    (key : Launch.row -> string) :
  has_column label new_launches = true ->
  rows new_launches <> [] ->
  exists out,
    PortfolioImpact.group_impact new_launches sov_results label group_label key
    = Ok out
    /\ NoDup (map GroupImpact.group (rows out))
    /\ (forall g, In g (map GroupImpact.group (rows out))
                  <-> In g (map key (rows new_launches)))
    /\ list_sum (map GroupImpact.num_launches (rows out)) = len new_launches
    /\ (forall row, In row (rows out) ->
          (1 <= GroupImpact.num_launches row)%nat)
    /\ StronglySorted
         (fun a b => GroupImpact.net_impact b <= GroupImpact.net_impact a)
         (rows out).
Proof.
  intros Hcol Hne.
  destruct (group_impact_table label group_label key Hcol Hne)
    as (out & Hout & Hperm & Hsorted).
  exists out. split; [exact Hout|].
  assert (Hgroups : Permutation (map GroupImpact.group (rows out))
                      (unique (map key (rows new_launches)))).
  { rewrite (Permutation_map GroupImpact.group Hperm), map_map.
    erewrite map_ext; [rewrite map_id; reflexivity|].
    intros g. apply group_impact_of_count. }
  split; [|split; [|split; [|split]]].
  - eapply Permutation_NoDup; [symmetry; exact Hgroups|].
    apply NoDup_unique_by, String.eqb_eq.
  - intros g.
    transitivity (In g (unique (map key (rows new_launches))));
      [|apply (In_unique_by String.eqb String.eqb_eq)].
    split; apply Permutation_in; [exact Hgroups | symmetry; exact Hgroups].
  - rewrite (Permutation_map GroupImpact.num_launches Hperm), map_map.
    erewrite map_ext; [|intros g; apply group_impact_of_count].
    apply (count_by_groups key).
    + apply NoDup_unique_by, String.eqb_eq.
    + intros x Hx. apply (In_unique_by String.eqb String.eqb_eq).
      now apply in_map.
  - intros row Hrow.
    apply (Permutation_in _ Hperm), in_map_iff in Hrow as (g & <- & Hg).
    destruct (group_impact_of_count key g) as [_ ->].
    apply (In_unique_by String.eqb String.eqb_eq), in_map_iff in Hg
      as (l & <- & Hl).
    assert (Hin : In l (filter (fun l' => String.eqb (key l') (key l))
                               (rows new_launches)))
      by (apply filter_In; split; [assumption | apply String.eqb_refl]).
    destruct (filter _ (rows new_launches)); [contradiction | simpl; lia].
  - exact Hsorted.
Qed.

(** X14.  For a launch table with rows and the columns that the
    aggregations read ([type], [brand] and, from each launch,
    [product_id]), in which every launch has its category and its brand,
    the category table has exactly one row per category among the launches
    and the brand table one row per brand, in descending order of
    [net_impact]; [num_launches] is at least 1 in every row and adds up,
    over each table, to the number of launches. *)
Theorem group_tables_partition_launches :
  has_column "product_id" new_launches = true ->
  has_column "type" new_launches = true ->
  has_column "brand" new_launches = true ->
  rows new_launches <> [] ->
  exists category_df brand_df,
    PortfolioImpact._calculate_category_impact new_launches sov_results
    = Ok category_df
    /\ PortfolioImpact._calculate_brand_impact new_launches sov_results
       = Ok brand_df
    /\ NoDup (map GroupImpact.group (rows category_df))
    /\ NoDup (map GroupImpact.group (rows brand_df))
    /\ (forall g, In g (map GroupImpact.group (rows category_df))
                  <-> In g (map Launch.type (rows new_launches)))
    /\ (forall g, In g (map GroupImpact.group (rows brand_df))
                  <-> In g (map Launch.brand (rows new_launches)))
    /\ list_sum (map GroupImpact.num_launches (rows category_df))
       = len new_launches
    /\ list_sum (map GroupImpact.num_launches (rows brand_df))
       = len new_launches
    /\ (forall row, In row (rows category_df) \/ In row (rows brand_df) ->
          (1 <= GroupImpact.num_launches row)%nat)
    /\ StronglySorted
         (fun a b => GroupImpact.net_impact b <= GroupImpact.net_impact a)
         (rows category_df)
    /\ StronglySorted
         (fun a b => GroupImpact.net_impact b <= GroupImpact.net_impact a)
         (rows brand_df).
Proof.
  intros _ Hty Hbr Hne.
  destruct (group_table_partition "type" "category" Launch.type Hty Hne)
    as (c & Hc & Hc1 & Hc2 & Hc3 & Hc4 & Hc5).
  destruct (group_table_partition "brand" "brand" Launch.brand Hbr Hne)
    as (b & Hb & Hb1 & Hb2 & Hb3 & Hb4 & Hb5).
  exists c, b. repeat (split; [assumption|]).
  split; [|split; assumption].
  intros row [H | H]; auto.
Qed.

Lemma collect_sum (window_months : Z) (ls : list Launch.row) :
  Qsum (map Impact.net_impact
          (collect (PortfolioImpact.impact_of df sov_results window_months) ls))
  == Qsum (map (fun l =>
                  match PortfolioImpact.impact_of df sov_results window_months l
                  with Some r => Impact.net_impact r | None => 0 end) ls).
Proof.
  induction ls as [|l ls IH]; [reflexivity|].
  rewrite collect_cons. cbn [map Qsum].
  destruct (PortfolioImpact.impact_of df sov_results window_months l);
    cbn [map Qsum]; rewrite IH; lra.
Qed.

Lemma group_net_total (window_months : Z) (label group_label : string)
    (key : Launch.row -> string) (out : DataFrame GroupImpact.row) :
  PortfolioImpact.group_impact new_launches sov_results label group_label key
  = Ok out ->
  Qsum (map GroupImpact.net_impact (rows out))
  == Qsum (map Impact.net_impact
             (collect (PortfolioImpact.impact_of df sov_results window_months)
                      (rows new_launches))).
Proof.
  intros Hout.
  assert (Hcol : has_column label new_launches = true).
  { unfold PortfolioImpact.group_impact, column in Hout.
    destruct (has_column label new_launches); [reflexivity | discriminate]. }
  assert (Hne : rows new_launches <> []).
  { intros E. unfold PortfolioImpact.group_impact, column in Hout.
    rewrite Hcol, E in Hout. discriminate. }
  destruct (group_impact_table label group_label key Hcol Hne)
    as (out' & Hout' & Hperm & _).
  rewrite Hout' in Hout. injection Hout as <-.
  rewrite (Qsum_Permutation _ _ (Permutation_map GroupImpact.net_impact Hperm)).
  rewrite map_map, collect_sum.
  rewrite <- (Qsum_by_groups key _ (unique (map key (rows new_launches)))).
  - apply Qsum_map_ext. intros g _.
    destruct (group_impact_of_sums df new_launches sov_results window_months
                key g) as (Hg & _ & _ & _ & _ & Hnet).
    rewrite Hg in Hnet. rewrite Hnet. apply collect_sum.
  - apply NoDup_unique_by, String.eqb_eq.
  - intros x Hx. apply (In_unique_by String.eqb String.eqb_eq).
    now apply in_map.
Qed.

(** X15.  The two aggregations conserve the total: when the impact, the
    category and the brand tables are returned, the net impacts of the
    category rows and those of the brand rows both add up to the sum of the
    net impacts of the per-launch rows. *)
Theorem aggregations_conserve_net_impact (window_months : Z)
    (portfolio_impact : DataFrame Impact.row)
    (category_df brand_df : DataFrame GroupImpact.row) :
  PortfolioImpact._calculate_portfolio_impact df new_launches sov_results
    window_months = Ok portfolio_impact ->
  PortfolioImpact._calculate_category_impact new_launches sov_results
  = Ok category_df ->
  PortfolioImpact._calculate_brand_impact new_launches sov_results
  = Ok brand_df ->
  Qsum (map GroupImpact.net_impact (rows category_df))
  == Qsum (map Impact.net_impact (rows portfolio_impact))
  /\ Qsum (map GroupImpact.net_impact (rows brand_df))
     == Qsum (map Impact.net_impact (rows portfolio_impact)).
Proof.
  intros Hpi Hc Hb.
  destruct (portfolio_impact_table _ _ Hpi) as [_ Hperm].
  rewrite (Qsum_Permutation _ _ (Permutation_map Impact.net_impact Hperm)).
  split.
  - exact (group_net_total window_months _ _ _ _ Hc).
  - exact (group_net_total window_months _ _ _ _ Hb).
Qed.

End ImpactTables.

(* ================================================================== *)
(** * main.py: phase 4 end to end                                      *)
(* ================================================================== *)

Section Phase4Facts.
Variable products_df : DataFrame Product.row.
Variable df : list Txn.row.
Variable ttest_ind : list Q -> list Q -> Q * Q.

Lemma launch_performance_ok_inv (new_launches : DataFrame Product.row)
    (perf : DataFrame Launch.row) :
  NewLaunch._calculate_launch_performance df new_launches = Ok perf ->
  rows perf <> []
  /\ columns perf = Launch.labels
  /\ exists p r, In p (rows new_launches)
                 /\ NewLaunch.performance_of df p = Some r.
Proof.
  unfold NewLaunch._calculate_launch_performance. intros H.
  destruct (collect (NewLaunch.performance_of df) (rows new_launches))
    as [|r0 rs] eqn:E.
  - rewrite sort_values_desc_no_records in H. discriminate.
  - destruct (sort_values_desc_records Launch.labels "performance_score"
                Launch.performance_score (r0 :: rs))
      as (out & Hout & Hcols & Hrows); [discriminate | simpl; tauto |].
    rewrite Hout in H. injection H as <-.
    assert (Hr0 : In r0 (rows out)) by (apply Hrows; now left).
    split; [intros E'; rewrite E' in Hr0; contradiction|].
    split; [exact Hcols|].
    assert (Hin : In r0 (collect (NewLaunch.performance_of df)
                           (rows new_launches))) by (rewrite E; now left).
    apply In_collect in Hin as (p & Hp & Hr). eauto.
Qed.

Lemma registry_ok_inv (months : Z) (top_n : nat) (res : NewLaunch.Results) :
  NewLaunch.execute products_df df months top_n = Ok res ->
  rows (NewLaunch.launch_performance res) <> []
  /\ columns (NewLaunch.launch_performance res) = Launch.labels
  /\ NewLaunch.top_launches res
     = head top_n (NewLaunch.launch_performance res)
  /\ exists p t,
       In p (rows products_df)
       /\ ts_geb_opt (Product.launch_date p)
            (option_map (fun t => DateOffset_months t (- months))
                        (ts_max (map Txn.date df))) = true
       /\ In t df
       /\ Txn.product_id t = Product.product_id p
       /\ ts_geb (Txn.date t) (Product.launch_date p) = true.
Proof.
  unfold NewLaunch.execute. intros H.
  destruct (NewLaunch._identify_new_launches products_df df months)
    as [nl|] eqn:Hnl; [|discriminate].
  cbn [Py.bind] in H.
  destruct (NewLaunch._calculate_launch_performance df nl)
    as [perf|] eqn:Hperf; [|discriminate].
  cbn [Py.bind] in H. injection H as <-.
  cbn [NewLaunch.launch_performance NewLaunch.top_launches].
  destruct (launch_performance_ok_inv nl perf Hperf)
    as (Hne & Hcols & p & r & Hp & Hr).
  split; [exact Hne|]. split; [exact Hcols|]. split.
  - unfold NewLaunch._select_top_launches, len.
    destruct (rows perf); [contradiction | reflexivity].
  - assert (Hcol : has_column "launch_date" products_df = true).
    { unfold NewLaunch._identify_new_launches, column in Hnl.
      destruct (has_column "launch_date" products_df);
        [reflexivity | discriminate]. }
    rewrite (identify_new_launches_value products_df df months Hcol) in Hnl.
    injection Hnl as <-. cbn [rows] in Hp.
    apply In_sort_rows, filter_In in Hp as [Hp Hlook].
    destruct (proj1 (performance_of_scored df p)) as (t & Ht & Hid & Hd);
      [eauto|].
    exists p, t. auto.
Qed.

Lemma head_rows_nonempty {R : Type} (n : nat) (d : DataFrame R) :
  rows d <> [] -> (0 < n)%nat ->
  rows (head n d) <> []
  /\ (1 <= len (head n d))%nat /\ (len (head n d) <= n)%nat.
Proof.
  intros Hne Hn. unfold head, len. cbn [rows].
  destruct (rows d) as [|r rs]; [contradiction|].
  destruct n as [|n]; [lia|]. cbn [firstn]. split; [discriminate|].
  cbn [List.length]. pose proof (length_firstn n rs). lia.
Qed.

(** X16.  Whenever phase 4 of [main] returns, it returns all three
    results: between one and five launches were selected, the SOV results
    are those of the analysis of the selected launches, and the impact table
    has one row per selected launch.  The branch of [main] for "no new
    launches found" is never the one that returns. *)
Theorem phase4_returns_all_results (r : Main.Phase4) :
  Main.phase4 products_df df ttest_ind = Ok r ->
  let top := NewLaunch.top_launches (Main.new_launch_results r) in
  (1 <= len top)%nat /\ (len top <= 5)%nat
  /\ Main.sov_results r = Some (SOV.execute df top ttest_ind 6)
  /\ exists impact,
       Main.impact_results r = Some impact
       /\ len (PortfolioImpact.portfolio_impact impact) = len top.
Proof.
  unfold Main.phase4. intros H.
  destruct (NewLaunch.execute products_df df 12 5) as [res|] eqn:Hres;
    [|discriminate].
  cbn [Py.bind] in H.
  destruct (registry_ok_inv 12 5 res Hres) as (Hne & Hcols & Htop & _).
  destruct (head_rows_nonempty 5 (NewLaunch.launch_performance res) Hne)
    as (Hne' & Hlo & Hhi); [lia|].
  rewrite <- Htop in Hne', Hlo, Hhi.
  assert (Hlen : (0 <? len (NewLaunch.top_launches res))%nat = true)
    by (apply Nat.ltb_lt; lia).
  rewrite Hlen in H.
  assert (Hc : columns (NewLaunch.top_launches res) = Launch.labels)
    by (rewrite Htop; exact Hcols).
  destruct (impact_run df ttest_ind (NewLaunch.top_launches res) 6 6)
    as (impact & Himp & Hrows & _); try assumption;
    try (unfold has_column; rewrite Hc; reflexivity).
  rewrite Himp in H. cbn [Py.bind] in H. injection H as <-.
  cbn [Main.new_launch_results Main.sov_results Main.impact_results].
  split; [exact Hlo|]. split; [exact Hhi|]. split; [reflexivity|].
  exists impact. split; [reflexivity | exact Hrows].
Qed.


End Phase4Facts.

(* ================================================================== *)
(** * Forecaster: split, metrics, ensemble and run                     *)
(* ================================================================== *)

Section SplitFacts.

(** X18.  The chronological split keeps the series: the training prefix
    followed by the held-out suffix is the series itself; the prefix has
    the whole part of four fifths of the points; and a series with at least
    one point always has a non-empty held-out suffix. *)
Theorem train_test_split (ts_data : Series) :
  let n := Forecast.train_size (List.length ts_data) in
  let train := firstn n ts_data in
  let test := skipn n ts_data in
  train ++ test = ts_data
  /\ List.length train = n
  /\ (List.length train + List.length test = List.length ts_data)%nat
  /\ (5 * n <= 4 * List.length ts_data)%nat
  /\ (4 * List.length ts_data < 5 * (n + 1))%nat
  /\ (ts_data <> [] -> test <> []).
Proof.
  cbv zeta. set (len := List.length ts_data).
  assert (Hn : (5 * Forecast.train_size len <= 4 * len
                /\ 4 * len < 5 * (Forecast.train_size len + 1))%nat).
  { unfold Forecast.train_size.
    pose proof (Z.div_mod (Z.of_nat len * 4) 5 ltac:(lia)) as Hd.
    pose proof (Z.mod_pos_bound (Z.of_nat len * 4) 5 ltac:(lia)) as Hm.
    assert (0 <= Z.of_nat len * 4 / 5)%Z by (apply Z.div_pos; lia).
    split; lia. }
  destruct Hn as [Hlo Hhi].
  assert (Hle : (Forecast.train_size len <= len)%nat) by lia.
  split; [apply firstn_skipn|].
  split; [apply firstn_length_le; exact Hle|].
  split; [rewrite length_firstn, length_skipn; fold len; lia|].
  split; [exact Hlo|]. split; [exact Hhi|].
  intros Hne E.
  assert (Hs : List.length (skipn (Forecast.train_size len) ts_data) = 0%nat)
    by now rewrite E.
  rewrite length_skipn in Hs. fold len in Hs.
  assert (len <> 0)%nat
    by (unfold len; destruct ts_data; [contradiction | discriminate]).
  lia.
Qed.

End SplitFacts.

Section MetricFacts.
Variable np_sqrt : Q -> Q.

Lemma In_zip_with (g : Q -> Q -> Q) (a b : list Q) (z : Q) :
  In z (Forecast.zip_with g a b) ->
  exists x y, In x a /\ In y b /\ z = g x y.
Proof.
  revert b. induction a as [|x a IH]; intros [|y b]; simpl; try contradiction.
  intros [<- | H].
  - exists x, y. auto.
  - destruct (IH b H) as (x' & y' & Hx & Hy & Hz). exists x', y'. auto.
Qed.

Lemma Qmean_nonneg (l : list Q) :
  (forall x, In x l -> 0 <= x) -> 0 <= Qmean l.
Proof.
  intros H. unfold Qmean, Qdiv.
  apply Qmult_le_0_compat; [now apply Qsum_nonneg|].
  apply Qinv_le_0_compat.
  change 0 with (inject_Z 0). rewrite <- Zle_Qle. lia.
Qed.

Lemma Qmean_zero (l : list Q) : (forall x, In x l -> x == 0) -> Qmean l == 0.
Proof.
  intros H. unfold Qmean, Qdiv.
  assert (E : Qsum l == 0).
  { induction l as [|x l IH]; simpl; [reflexivity|].
    rewrite (H x (or_introl eq_refl)), IH; [lra|].
    intros y Hy. apply H. now right. }
  rewrite E. lra.
Qed.

Lemma Qsum_zero_terms (l : list Q) :
  (forall x, In x l -> 0 <= x) -> Qsum l == 0 -> forall x, In x l -> x == 0.
Proof.
  induction l as [|y l IH]; cbn [Qsum]; [intros _ _ x []|].
  intros Hnn Hsum.
  assert (Hy : 0 <= y) by (apply Hnn; now left).
  assert (Hl : 0 <= Qsum l)
    by (apply Qsum_nonneg; intros z Hz; apply Hnn; now right).
  intros x [<- | Hx]; [lra|].
  apply IH; [intros z Hz; apply Hnn; now right | lra | exact Hx].
Qed.

Lemma Qmean_zero_iff (l : list Q) :
  l <> [] -> (forall x, In x l -> 0 <= x) ->
  (Qmean l == 0 <-> forall x, In x l -> x == 0).
Proof.
  intros Hne Hnn. split; [|apply Qmean_zero].
  intros Hmean. apply Qsum_zero_terms; [exact Hnn|].
  unfold Qmean, Qdiv in Hmean.
  apply Qmult_integral in Hmean as [H | H]; [exact H|].
  exfalso.
  assert (Hpos : 0 < inject_Z (Z.of_nat (List.length l))).
  { change 0 with (inject_Z 0). rewrite <- Zlt_Qlt.
    destruct l; [contradiction | cbn [List.length]; lia]. }
  apply Qinv_lt_0_compat in Hpos. lra.
Qed.

Lemma zip_with_all (g : Q -> Q -> Q) (P : Q -> Prop) (a b : list Q) :
  List.length a = List.length b ->
  ((forall z, In z (Forecast.zip_with g a b) -> P z)
   <-> forall i, (i < List.length a)%nat -> P (g (nth i a 0) (nth i b 0))).
Proof.
  intros Hlen. split.
  - intros H i Hi. apply H.
    rewrite <- (nth_zip_with g a b i 0 Hlen Hi).
    apply nth_In. now rewrite zip_with_length.
  - intros H z Hz.
    apply (In_nth _ _ 0) in Hz as (i & Hi & <-).
    rewrite zip_with_length in Hi by exact Hlen.
    rewrite nth_zip_with by assumption. now apply H.
Qed.

Lemma Qabs_zero_iff (x : Q) : Qabs x == 0 <-> x == 0.
Proof.
  split; intros H.
  - destruct (Qlt_le_dec x 0) as [Hneg | Hpos].
    + rewrite Qabs_neg in H by lra. lra.
    + rewrite Qabs_pos in H by lra. exact H.
  - rewrite H. reflexivity.
Qed.

Lemma square_zero_iff (a f : Q) : (a - f) * (a - f) == 0 <-> f == a.
Proof.
  split; intros H.
  - apply Qmult_integral in H as [H | H]; lra.
  - rewrite H. ring.
Qed.

Lemma relative_error_zero_iff (a f : Q) :
  ~ a == 0 -> ((a - f) / a == 0 <-> f == a).
Proof.
  intros Ha. split; intros H.
  - unfold Qdiv in H. apply Qmult_integral in H as [H | H]; [lra|].
    exfalso. apply Ha.
    rewrite <- (Qinv_involutive a), H. reflexivity.
  - rewrite H. field. exact Ha.
Qed.

(** X19.  For an actual and a forecast array of the same non-zero length,
    with no actual value equal to 0, the error metrics are computed; the
    MSE, the MAE and the MAPE are never negative, and each of them is 0
    only for a perfect forecast: exactly when the forecast equals the
    actual value at every position. *)
Theorem error_metrics_vanish_only_when_exact (actual forecast : list Q) :
  List.length actual = List.length forecast ->
  actual <> [] ->
  (forall a, In a actual -> ~ a == 0) ->
  let exact_forecast :=
    forall i, (i < List.length actual)%nat ->
              nth i forecast 0 == nth i actual 0 in
  exists m,
    Forecast.error_metrics np_sqrt actual forecast = Ok m
    /\ 0 <= Metrics.mse m /\ 0 <= Metrics.mae m /\ 0 <= Metrics.mape m
    /\ (Metrics.mse m == 0 <-> exact_forecast)
    /\ (Metrics.mae m == 0 <-> exact_forecast)
    /\ (Metrics.mape m == 0 <-> exact_forecast).
Proof.
  intros Hlen Hne Hnz. cbv zeta. unfold Forecast.error_metrics.
  assert (Hpos : (0 < List.length actual)%nat)
    by (destruct actual; [contradiction | cbn [List.length]; lia]).
  rewrite (proj2 (Nat.eqb_eq _ _) Hlen), (proj2 (Nat.ltb_lt _ _) Hpos).
  cbn [andb]. eexists. split; [reflexivity|].
  cbn [Metrics.mse Metrics.mae Metrics.mape].
  assert (Hzne : forall g, Forecast.zip_with g actual forecast <> []).
  { intros g E.
    pose proof (zip_with_length g actual forecast Hlen) as L.
    rewrite E in L. cbn [List.length] in L. lia. }
  assert (N1 : forall z,
             In z (Forecast.zip_with (fun a f => (a - f) * (a - f))
                     actual forecast) -> 0 <= z).
  { intros z Hz. apply In_zip_with in Hz as (x & y & _ & _ & ->). cbv beta.
    set (d := x - y). nra. }
  assert (N2 : forall z,
             In z (Forecast.zip_with (fun a f => Qabs (a - f))
                     actual forecast) -> 0 <= z).
  { intros z Hz. apply In_zip_with in Hz as (x & y & _ & _ & ->).
    exact (Qabs_nonneg (x - y)). }
  assert (N3 : forall z,
             In z (Forecast.zip_with (fun a f => Qabs ((a - f) / a))
                     actual forecast) -> 0 <= z).
  { intros z Hz. apply In_zip_with in Hz as (x & y & _ & _ & ->).
    exact (Qabs_nonneg ((x - y) / x)). }
  split; [now apply Qmean_nonneg|]. split; [now apply Qmean_nonneg|].
  split; [apply Qmult_le_0_compat; [now apply Qmean_nonneg | lra]|].
  split; [|split].
  - rewrite (Qmean_zero_iff _ (Hzne _) N1).
    rewrite (zip_with_all _ (fun z => z == 0) actual forecast Hlen).
    split; intros H i Hi; apply square_zero_iff, H, Hi.
  - rewrite (Qmean_zero_iff _ (Hzne _) N2).
    rewrite (zip_with_all _ (fun z => z == 0) actual forecast Hlen).
    split; intros H i Hi.
    + apply square_zero_iff. rewrite (proj1 (Qabs_zero_iff _) (H i Hi)). ring.
    + apply Qabs_zero_iff. specialize (H i Hi). rewrite H. ring.
  - assert (Hm : forall q, q * 100 == 0 <-> q == 0) by (intros q; split; lra).
    rewrite Hm, (Qmean_zero_iff _ (Hzne _) N3).
    rewrite (zip_with_all _ (fun z => z == 0) actual forecast Hlen).
    split; intros H i Hi.
    + apply (relative_error_zero_iff (nth i actual 0));
        [apply Hnz, nth_In, Hi|].
      apply Qabs_zero_iff, H, Hi.
    + apply Qabs_zero_iff, relative_error_zero_iff;
        [apply Hnz, nth_In, Hi | apply H, Hi].
Qed.

Lemma zip_with_diag (g : Q -> Q -> Q) (a : list Q) (z : Q) :
  In z (Forecast.zip_with g a a) -> exists x, In x a /\ z = g x x.
Proof.
  induction a as [|x a IH]; simpl; [contradiction|].
  intros [<- | H].
  - exists x. auto.
  - destruct (IH H) as (y & Hy & Hz). exists y. auto.
Qed.

(** X20.  A forecast that equals the actual values, none of which is zero,
    has MSE, MAE and MAPE equal to 0. *)
Theorem perfect_forecast_has_no_error (actual : list Q) :
  actual <> [] ->
  (forall a, In a actual -> ~ a == 0) ->
  exists m,
    Forecast.error_metrics np_sqrt actual actual = Ok m
    /\ Metrics.mse m == 0 /\ Metrics.mae m == 0 /\ Metrics.mape m == 0.
Proof.
  intros Hne Hnz. unfold Forecast.error_metrics.
  rewrite Nat.eqb_refl.
  assert (Hpos : (0 <? List.length actual)%nat = true).
  { apply Nat.ltb_lt. destruct actual; [contradiction | simpl; lia]. }
  rewrite Hpos. cbn [andb]. eexists. split; [reflexivity|].
  cbn [Metrics.mse Metrics.mae Metrics.mape].
  split; [|split].
  - apply Qmean_zero. intros z Hz.
    apply zip_with_diag in Hz as (x & _ & ->). cbv beta. ring.
  - apply Qmean_zero. intros z Hz.
    apply zip_with_diag in Hz as (x & _ & ->). cbv beta.
    setoid_replace (x - x) with 0 by ring. reflexivity.
  - rewrite Qmean_zero; [reflexivity|]. intros z Hz.
    apply zip_with_diag in Hz as (x & Hx & ->). cbv beta.
    setoid_replace ((x - x) / x) with 0; [reflexivity|].
    field. now apply Hnz.
Qed.

End MetricFacts.

Section EnsembleRun.
Variable np_sqrt : Q -> Q.
Variables SarimaxResults ProphetModel : Type.

(** The ensemble of two results whose test forecasts are as long as the
    non-empty test series. *)
Lemma ensemble_value (sarima : Forecast.Sarima.t SarimaxResults)
    (prophet : Forecast.Prophet.t ProphetModel) (test : Series) :
  List.length (Forecast.Sarima.forecast sarima) = List.length test ->
  List.length (Forecast.Prophet.forecast prophet) = List.length test ->
  (0 < List.length test)%nat ->
  let sv := values (Forecast.Sarima.forecast sarima) in
  let pv := values (Forecast.Prophet.forecast prophet) in
  let ws := Forecast.inverse_mape_weight
              (Metrics.mape (Forecast.Sarima.metrics sarima)) in
  let wp := Forecast.inverse_mape_weight
              (Metrics.mape (Forecast.Prophet.metrics prophet)) in
  let simple := map (fun x => x / 2) (Forecast.zip_with Qplus sv pv) in
  let weighted :=
    Forecast.zip_with Qplus (map (fun x => x * (ws / (ws + wp))) sv)
                            (map (fun x => x * (wp / (ws + wp))) pv) in
  exists m1 m2,
    Forecast._create_ensemble_forecast np_sqrt SarimaxResults ProphetModel
      (Some sarima) (Some prophet) test
    = Ok (Some (Forecast.Ensemble.mk (combine (index test) simple)
                  (combine (index test) weighted) m1 m2))
    /\ List.length simple = List.length test
    /\ List.length weighted = List.length test.
Proof.
  intros Hls Hlp Hpos sv pv ws wp simple weighted.
  assert (Hsv : List.length sv = List.length test)
    by (unfold sv, values; now rewrite length_map).
  assert (Hpv : List.length pv = List.length test)
    by (unfold pv, values; now rewrite length_map).
  assert (Htv : List.length (values test) = List.length test)
    by (unfold values; now rewrite length_map).
  assert (Hti : List.length (index test) = List.length test)
    by (unfold index; now rewrite length_map).
  assert (Hsimple : List.length simple = List.length test).
  { unfold simple. rewrite length_map, zip_with_length; congruence. }
  assert (Hweighted : List.length weighted = List.length test).
  { unfold weighted. rewrite zip_with_length; rewrite !length_map; congruence. }
  destruct (error_metrics_ok np_sqrt (values test) simple) as [m1 Hm1];
    [congruence | lia |].
  destruct (error_metrics_ok np_sqrt (values test) weighted) as [m2 Hm2];
    [congruence | lia |].
  exists m1, m2. split; [|split; assumption].
  unfold Forecast._create_ensemble_forecast.
  fold sv pv. fold ws wp.
  rewrite (elementwise_same_length Qplus sv pv) by congruence.
  cbn [Py.bind].
  rewrite (elementwise_same_length Qplus) by (rewrite !length_map; congruence).
  cbn [Py.bind]. fold simple weighted.
  rewrite Hm1. cbn [Py.bind]. rewrite Hm2. cbn [Py.bind].
  rewrite (mk_series_same_length simple) by congruence.
  rewrite (mk_series_same_length weighted) by congruence.
  reflexivity.
Qed.

Lemma between_of_convex (s p a b : Q) :
  0 < a -> 0 < b -> a + b == 1 ->
  Qmin s p <= s * a + p * b /\ s * a + p * b <= Qmax s p.
Proof.
  intros Ha Hb Hab.
  assert (Es : s == s * a + s * b) by (rewrite <- Qmult_plus_distr_r, Hab; ring).
  assert (Ep : p == p * a + p * b) by (rewrite <- Qmult_plus_distr_r, Hab; ring).
  destruct (Qlt_le_dec s p) as [Hlt | Hle].
  - rewrite Q.min_l, Q.max_r by lra.
    assert (0 <= (p - s) * b) by (apply Qmult_le_0_compat; lra).
    assert (0 <= (p - s) * a) by (apply Qmult_le_0_compat; lra).
    split; lra.
  - rewrite Q.min_r, Q.max_l by lra.
    assert (0 <= (s - p) * b) by (apply Qmult_le_0_compat; lra).
    assert (0 <= (s - p) * a) by (apply Qmult_le_0_compat; lra).
    split; lra.
Qed.

(** X21.  For two model results with positive MAPE whose test forecasts
    are as long as the non-empty test series, the ensemble is returned with
    both forecasts indexed like the test series; month by month the simple
    forecast is the mean of the two models' forecasts and the weighted
    forecast lies between them. *)
Theorem ensemble_forecasts_lie_between_models
    (sarima : Forecast.Sarima.t SarimaxResults)
    (prophet : Forecast.Prophet.t ProphetModel) (test : Series) :
  0 < Metrics.mape (Forecast.Sarima.metrics sarima) ->
  0 < Metrics.mape (Forecast.Prophet.metrics prophet) ->
  List.length (Forecast.Sarima.forecast sarima) = List.length test ->
  List.length (Forecast.Prophet.forecast prophet) = List.length test ->
  (0 < List.length test)%nat ->
  exists e,
    Forecast._create_ensemble_forecast np_sqrt SarimaxResults ProphetModel
      (Some sarima) (Some prophet) test = Ok (Some e)
    /\ index (Forecast.Ensemble.simple_ensemble e) = index test
    /\ index (Forecast.Ensemble.weighted_ensemble e) = index test
    /\ forall i, (i < List.length test)%nat ->
         let s := nth i (values (Forecast.Sarima.forecast sarima)) 0 in
         let p := nth i (values (Forecast.Prophet.forecast prophet)) 0 in
         nth i (values (Forecast.Ensemble.simple_ensemble e)) 0 = (s + p) / 2
         /\ Qmin s p <= nth i (values (Forecast.Ensemble.weighted_ensemble e)) 0
         /\ nth i (values (Forecast.Ensemble.weighted_ensemble e)) 0 <= Qmax s p.
Proof.
  intros Hs Hp Hls Hlp Hpos.
  destruct (ensemble_value sarima prophet test Hls Hlp Hpos)
    as (m1 & m2 & He & Hsimple & Hweighted).
  cbv zeta in He, Hsimple, Hweighted.
  eexists. split; [exact He|].
  cbn [Forecast.Ensemble.simple_ensemble Forecast.Ensemble.weighted_ensemble].
  assert (Hti : List.length (index test) = List.length test)
    by (unfold index; now rewrite length_map).
  split; [apply index_combine; congruence|].
  split; [apply index_combine; congruence|].
  intros i Hi. cbv zeta.
  assert (Hsv : List.length (values (Forecast.Sarima.forecast sarima))
                = List.length test)
    by (unfold values; now rewrite length_map).
  assert (Hpv : List.length (values (Forecast.Prophet.forecast prophet))
                = List.length test)
    by (unfold values; now rewrite length_map).
  rewrite !values_combine by congruence.
  split.
  - rewrite nth_map_in_range by (rewrite zip_with_length; congruence || lia).
    rewrite nth_zip_with by (congruence || lia). reflexivity.
  - rewrite nth_zip_with by (rewrite ?length_map; congruence || lia).
    rewrite !nth_map_in_range by lia.
    pose proof (inverse_mape_weight_pos _ Hs) as Hws.
    pose proof (inverse_mape_weight_pos _ Hp) as Hwp.
    destruct (normalized_weights _ _ Hws Hwp) as (Ha & Hb & Hab).
    apply between_of_convex; assumption.
Qed.

(** X22.  Of two models, the one with the lower (non-negative) MAPE gets
    the larger inverse-MAPE weight, and more than half of the normalized
    weight. *)
Theorem lower_mape_gets_larger_weight (mape1 mape2 : Q) :
  0 <= mape1 -> mape1 < mape2 ->
  let w1 := Forecast.inverse_mape_weight mape1 in
  let w2 := Forecast.inverse_mape_weight mape2 in
  w2 < w1 /\ 1 # 2 < w1 / (w1 + w2) /\ w2 / (w1 + w2) < 1 # 2.
Proof.
  intros H1 H12. cbv zeta.
  assert (Hw : Forecast.inverse_mape_weight mape2
               < Forecast.inverse_mape_weight mape1).
  { unfold Forecast.inverse_mape_weight, Qdiv. rewrite !Qmult_1_l.
    apply -> Qinv_lt_contravar; lra. }
  assert (P1 : 0 < Forecast.inverse_mape_weight mape1).
  { unfold Forecast.inverse_mape_weight, Qdiv. rewrite Qmult_1_l.
    apply Qinv_lt_0_compat. lra. }
  assert (P2 : 0 < Forecast.inverse_mape_weight mape2).
  { unfold Forecast.inverse_mape_weight, Qdiv. rewrite Qmult_1_l.
    apply Qinv_lt_0_compat. lra. }
  set (w1 := Forecast.inverse_mape_weight mape1) in *.
  set (w2 := Forecast.inverse_mape_weight mape2) in *.
  split; [exact Hw|].
  assert (Hi : 0 < / (w1 + w2)) by (apply Qinv_lt_0_compat; lra).
  assert (Hone : (w1 + w2) * / (w1 + w2) == 1) by (apply Qmult_inv_r; lra).
  assert (Hgap : 0 < (w1 - w2) * / (w1 + w2))
    by (apply Qmult_lt_0_compat; lra).
  unfold Qdiv. set (i := / (w1 + w2)) in *. split; lra.
Qed.

End EnsembleRun.

Section ModelRuns.
Variable np_sqrt : Q -> Q.
Variable adfuller : list Q -> result Q.
Variable SarimaxResults : Type.
Variable sarimax_fit : Series -> result SarimaxResults.
Variable sarimax_mean : SarimaxResults -> nat -> Q.
Variable ProphetModel : Type.
Variable prophet_fit : Series -> result ProphetModel.
Variable prophet_yhat : ProphetModel -> nat -> Q * Q * Q.
Variables STATSMODELS_AVAILABLE PROPHET_AVAILABLE : bool.

Let sarima_run :=
  Forecast._sarima_forecast np_sqrt adfuller SarimaxResults sarimax_fit
    sarimax_mean.
Let prophet_run :=
  Forecast._prophet_forecast np_sqrt ProphetModel prophet_fit prophet_yhat.
Let forecast_of :=
  Forecast.sarimax_forecast SarimaxResults sarimax_mean.

Lemma error_metrics_ok_inv (actual forecast : list Q) (m : Metrics.t) :
  Forecast.error_metrics np_sqrt actual forecast = Ok m ->
  List.length actual = List.length forecast /\ (0 < List.length actual)%nat.
Proof.
  unfold Forecast.error_metrics.
  destruct (Nat.eqb_spec (List.length actual) (List.length forecast));
    destruct (Nat.ltb_spec 0 (List.length actual)); cbn [andb];
    try discriminate.
  auto.
Qed.

Lemma sarimax_forecast_length (fitted : SarimaxResults) (sample : Series)
    (steps : nat) :
  List.length (forecast_of fitted sample steps) = steps.
Proof.
  unfold forecast_of, Forecast.sarimax_forecast.
  now rewrite length_map, length_seq.
Qed.

Lemma sarimax_forecast_prefix (fitted : SarimaxResults) (sample : Series)
    (k n : nat) :
  (k <= n)%nat ->
  firstn k (forecast_of fitted sample n) = forecast_of fitted sample k.
Proof.
  intros Hk. unfold forecast_of, Forecast.sarimax_forecast.
  rewrite firstn_map. f_equal.
  replace n with (k + (n - k))%nat by lia.
  rewrite seq_app, firstn_app, length_seq, Nat.sub_diag.
  rewrite firstn_all2 by (rewrite length_seq; lia).
  cbn [firstn]. apply app_nil_r.
Qed.

(** What a successful run of the seasonal model returns. *)
Lemma sarima_run_inv (train test : Series) (forecast_horizon : nat)
    (s : Forecast.Sarima.t SarimaxResults) :
  sarima_run train test forecast_horizon = Some s ->
  exists adf_p fitted m,
    adfuller (values train) = Ok adf_p
    /\ sarimax_fit train = Ok fitted
    /\ Forecast.error_metrics np_sqrt (values test)
         (values (forecast_of fitted train (List.length test))) = Ok m
    /\ s = Forecast.Sarima.mk (forecast_of fitted train (List.length test))
             (forecast_of fitted train forecast_horizon) m fitted
             (if Qlt_le_dec adf_p (5 # 100) then true else false).
Proof.
  unfold sarima_run, Forecast._sarima_forecast, Forecast.try_or_empty.
  destruct (adfuller (values train)) as [adf_p|]; [|discriminate].
  cbn [Py.bind].
  destruct (sarimax_fit train) as [fitted|]; [|discriminate]. cbn [Py.bind].
  fold forecast_of.
  destruct (Forecast.error_metrics _ _ _) as [m|] eqn:Em; [|discriminate].
  cbn [Py.bind]. intros [= <-].
  exists adf_p, fitted, m. auto.
Qed.

(** X23.  When the seasonal model returns a result, the held-out series is
    not empty; the test forecast has one value per held-out month and the
    future forecast [forecast_horizon] values, both dated from the month
    after the training sample; the shorter of the two forecasts is a prefix
    of the longer; and the flag [is_stationary] is set exactly when the
    p-value of the stationarity test is below 0.05. *)
Theorem sarima_result_shape (train test : Series) (forecast_horizon : nat)
    (s : Forecast.Sarima.t SarimaxResults) :
  Forecast._sarima_forecast np_sqrt adfuller SarimaxResults sarimax_fit
    sarimax_mean train test forecast_horizon = Some s ->
  test <> []
  /\ index (Forecast.Sarima.forecast s)
     = seq (Forecast.next_month train) (List.length test)
  /\ index (Forecast.Sarima.future_forecast s)
     = seq (Forecast.next_month train) forecast_horizon
  /\ ((List.length test <= forecast_horizon)%nat ->
      firstn (List.length test) (Forecast.Sarima.future_forecast s)
      = Forecast.Sarima.forecast s)
  /\ ((forecast_horizon <= List.length test)%nat ->
      firstn forecast_horizon (Forecast.Sarima.forecast s)
      = Forecast.Sarima.future_forecast s)
  /\ exists adf_p,
       adfuller (values train) = Ok adf_p
       /\ (Forecast.Sarima.is_stationary s = true <-> adf_p < 5 # 100).
Proof.
  intros H. apply sarima_run_inv in H
    as (adf_p & fitted & m & Hadf & Hfit & Hm & ->).
  cbn [Forecast.Sarima.forecast Forecast.Sarima.future_forecast
       Forecast.Sarima.is_stationary].
  apply error_metrics_ok_inv in Hm as [_ Hpos].
  unfold values in Hpos. rewrite length_map in Hpos.
  split; [intros ->; simpl in Hpos; lia|].
  split; [apply sarimax_forecast_index|].
  split; [apply sarimax_forecast_index|].
  split; [apply sarimax_forecast_prefix|].
  split; [apply sarimax_forecast_prefix|].
  exists adf_p. split; [exact Hadf|].
  destruct (Qlt_le_dec adf_p (5 # 100)) as [Hlt | Hge].
  - split; auto.
  - split; [discriminate | intros Hlt; exfalso; lra].
Qed.

Lemma prophet_tail_rows (model : ProphetModel) (train : Series) (k : nat) :
  (0 < k)%nat ->
  Forecast.tail_slice k
    (Forecast.prophet_predict ProphetModel prophet_yhat model
       (Forecast.make_future_dataframe train k))
  = Forecast.prophet_predict ProphetModel prophet_yhat model
      (seq (Forecast.next_month train) k).
Proof.
  intros Hpos. unfold Forecast.tail_slice.
  destruct (Nat.eqb_spec k 0) as [-> | _]; [lia|].
  unfold Forecast.prophet_predict, Forecast.make_future_dataframe.
  rewrite length_map, length_app, length_seq, skipn_map.
  replace (List.length (index train) + k - k)%nat
    with (List.length (index train) + 0)%nat by lia.
  rewrite skipn_app, Nat.add_0_r, skipn_all.
  replace (List.length (index train) - List.length (index train))%nat
    with 0%nat by lia.
  reflexivity.
Qed.

Lemma prophet_predict_column (model : ProphetModel) (future : list nat) :
  map Forecast.Yhat.yhat
      (Forecast.prophet_predict ProphetModel prophet_yhat model future)
  = map (fun ds => fst (fst (prophet_yhat model ds))) future
  /\ map Forecast.Yhat.yhat_lower
      (Forecast.prophet_predict ProphetModel prophet_yhat model future)
     = map (fun ds => snd (fst (prophet_yhat model ds))) future
  /\ map Forecast.Yhat.yhat_upper
      (Forecast.prophet_predict ProphetModel prophet_yhat model future)
     = map (fun ds => snd (prophet_yhat model ds)) future.
Proof.
  unfold Forecast.prophet_predict. rewrite !map_map.
  repeat split; apply map_ext; intros ds;
    destruct (prophet_yhat model ds) as [[y lo] up]; reflexivity.
Qed.

(** What a successful run of the additive model returns. *)
Lemma prophet_run_inv (train test : Series) (forecast_horizon : nat)
    (p : Forecast.Prophet.t ProphetModel) :
  prophet_run train test forecast_horizon = Some p ->
  exists model m,
    let test_rows :=
      Forecast.prophet_predict ProphetModel prophet_yhat model
        (seq (Forecast.next_month train) (List.length test)) in
    prophet_fit train = Ok model
    /\ (0 < List.length test)%nat
    /\ Forecast.error_metrics np_sqrt (values test)
         (map Forecast.Yhat.yhat test_rows) = Ok m
    /\ p = Forecast.Prophet.mk
             (combine (index test) (map Forecast.Yhat.yhat test_rows))
             (map Forecast.Yhat.yhat
                (Forecast.prophet_future_rows ProphetModel prophet_yhat model
                   train forecast_horizon))
             (map Forecast.Yhat.yhat_lower test_rows)
             (map Forecast.Yhat.yhat_upper test_rows) m model.
Proof.
  unfold prophet_run, Forecast._prophet_forecast, Forecast.try_or_empty.
  destruct (prophet_fit train) as [model|]; [|discriminate]. cbn [Py.bind].
  destruct (Forecast.error_metrics _ _ _) as [m|] eqn:Em; [|discriminate].
  cbn [Py.bind].
  pose proof (error_metrics_ok_inv _ _ _ Em) as [Hlen Hpos].
  unfold values in Hpos. rewrite length_map in Hpos.
  unfold Forecast.prophet_test_rows in *.
  rewrite (prophet_tail_rows model train _ Hpos) in *.
  rewrite mk_series_same_length.
  2:{ rewrite <- Hlen. unfold values, index. now rewrite !length_map. }
  cbn [Py.bind]. intros [= <-].
  exists model, m. cbv zeta. auto.
Qed.

(** X24.  When the additive model returns a result, the held-out series is
    not empty; the test forecast carries the index of the held-out series
    and its values, with the two confidence bounds, are the model's
    predictions for the months that follow the training sample, one per
    held-out point.  With a positive horizon the future forecast is the
    model's prediction for the [forecast_horizon] months after the training
    sample; with a horizon of 0 the slice keeps every row, so the future
    forecast is the model's fit over the training months. *)
Theorem prophet_result_shape (train test : Series) (forecast_horizon : nat)
    (p : Forecast.Prophet.t ProphetModel) :
  Forecast._prophet_forecast np_sqrt ProphetModel prophet_fit prophet_yhat
    train test forecast_horizon = Some p ->
  let months := seq (Forecast.next_month train) (List.length test) in
  let yhat := fun ds => fst (fst (prophet_yhat (Forecast.Prophet.model p) ds)) in
  test <> []
  /\ prophet_fit train = Ok (Forecast.Prophet.model p)
  /\ index (Forecast.Prophet.forecast p) = index test
  /\ values (Forecast.Prophet.forecast p) = map yhat months
  /\ Forecast.Prophet.confidence_lower p
     = map (fun ds => snd (fst (prophet_yhat (Forecast.Prophet.model p) ds)))
           months
  /\ Forecast.Prophet.confidence_upper p
     = map (fun ds => snd (prophet_yhat (Forecast.Prophet.model p) ds)) months
  /\ ((0 < forecast_horizon)%nat ->
      Forecast.Prophet.future_forecast p
      = map yhat (seq (Forecast.next_month train) forecast_horizon))
  /\ (forecast_horizon = 0%nat ->
      Forecast.Prophet.future_forecast p = map yhat (index train)).
Proof.
  intros H. apply prophet_run_inv in H
    as (model & m & Hfit & Hpos & Hm & ->).
  cbv zeta.
  cbn [Forecast.Prophet.forecast Forecast.Prophet.future_forecast
       Forecast.Prophet.confidence_lower Forecast.Prophet.confidence_upper
       Forecast.Prophet.model].
  destruct (prophet_predict_column model
              (seq (Forecast.next_month train) (List.length test)))
    as (Ey & El & Eu).
  assert (Hlen : List.length
                   (map Forecast.Yhat.yhat
                      (Forecast.prophet_predict ProphetModel prophet_yhat model
                         (seq (Forecast.next_month train) (List.length test))))
                 = List.length (index test)).
  { rewrite Ey. unfold index. now rewrite !length_map, length_seq. }
  split; [intros ->; simpl in Hpos; lia|].
  split; [exact Hfit|].
  split; [apply index_combine; exact Hlen|].
  split; [rewrite values_combine by exact Hlen; exact Ey|].
  split; [exact El|]. split; [exact Eu|].
  split.
  - intros Hh. unfold Forecast.prophet_future_rows.
    rewrite (prophet_tail_rows model train _ Hh).
    apply prophet_predict_column.
  - intros ->. unfold Forecast.prophet_future_rows, Forecast.tail_slice.
    cbn [Nat.eqb]. unfold Forecast.make_future_dataframe.
    cbn [seq]. rewrite app_nil_r.
    apply prophet_predict_column.
Qed.

Lemma split_at {A : Type} (n : nat) (l1 l2 : list A) :
  List.length l1 = n ->
  firstn n (l1 ++ l2) = l1 /\ skipn n (l1 ++ l2) = l2.
Proof.
  intros <-. split.
  - rewrite firstn_app, Nat.sub_diag, firstn_all. cbn [firstn].
    apply app_nil_r.
  - rewrite skipn_app, Nat.sub_diag, skipn_all. reflexivity.
Qed.

Lemma next_month_of_index (s : Series) :
  Forecast.next_month s
  = match rev (index s) with m :: _ => S m | [] => 0%nat end.
Proof.
  unfold Forecast.next_month, index. rewrite <- map_rev.
  destruct (rev s) as [|[m v] r]; reflexivity.
Qed.

(** On a series of consecutive months the months forecast after the
    training prefix are the held-out months. *)
Lemma consecutive_split (ts_data : Series) (m0 : nat) :
  index ts_data = seq m0 (List.length ts_data) ->
  (2 <= List.length ts_data)%nat ->
  let n := Forecast.train_size (List.length ts_data) in
  seq (Forecast.next_month (firstn n ts_data))
      (List.length (skipn n ts_data))
  = index (skipn n ts_data).
Proof.
  intros Hidx Hlen. cbv zeta.
  set (len := List.length ts_data) in *.
  assert (Hn : (1 <= Forecast.train_size len <= len)%nat).
  { unfold Forecast.train_size.
    pose proof (Z.div_mod (Z.of_nat len * 4) 5 ltac:(lia)) as Hd.
    pose proof (Z.mod_pos_bound (Z.of_nat len * 4) 5 ltac:(lia)) as Hm.
    assert (0 <= Z.of_nat len * 4 / 5)%Z by (apply Z.div_pos; lia).
    lia. }
  set (n := Forecast.train_size len) in *.
  assert (Hseq : seq m0 len = seq m0 n ++ seq (m0 + n) (len - n)).
  { rewrite <- seq_app. f_equal. lia. }
  destruct (split_at n (seq m0 n) (seq (m0 + n) (len - n)) (length_seq _ _))
    as [Hf Hs].
  rewrite <- Hseq, <- Hidx in Hf, Hs.
  unfold index in Hf, Hs. rewrite firstn_map in Hf. rewrite skipn_map in Hs.
  fold (index (firstn n ts_data)) in Hf. fold (index (skipn n ts_data)) in Hs.
  rewrite next_month_of_index, Hf, Hs, length_skipn. fold len.
  destruct n as [|k]; [lia|].
  rewrite seq_S, rev_unit. f_equal. lia.
Qed.

(** X25.  On a series of at least two consecutive months in which no
    held-out value is 0, the forecasting run returns.  Each model is run
    exactly when its library is available; the test forecast of the
    seasonal model, when it returns one, is dated on the held-out months;
    the ensemble entry is absent exactly when one of the libraries is
    missing, it is non-empty exactly when both models returned a result,
    and then its two forecasts carry the index of the held-out series. *)
Theorem forecast_run_returns (ts_data : Series) (forecast_horizon m0 : nat) :
  let n := Forecast.train_size (List.length ts_data) in
  let train := firstn n ts_data in
  let test := skipn n ts_data in
  index ts_data = seq m0 (List.length ts_data) ->
  (2 <= List.length ts_data)%nat ->
  (forall v, In v (values test) -> ~ v == 0) ->
  exists res,
    Forecast.execute np_sqrt adfuller SarimaxResults sarimax_fit sarimax_mean
      ProphetModel prophet_fit prophet_yhat STATSMODELS_AVAILABLE
      PROPHET_AVAILABLE ts_data forecast_horizon = Ok res
    /\ (Forecast.sarima _ _ res = None <-> STATSMODELS_AVAILABLE = false)
    /\ (Forecast.prophet _ _ res = None <-> PROPHET_AVAILABLE = false)
    /\ (forall s, Forecast.sarima _ _ res = Some (Some s) ->
          index (Forecast.Sarima.forecast s) = index test)
    /\ (Forecast.ensemble _ _ res = None
        <-> STATSMODELS_AVAILABLE = false \/ PROPHET_AVAILABLE = false)
    /\ ((exists e, Forecast.ensemble _ _ res = Some (Some e))
        <-> exists s p, Forecast.sarima _ _ res = Some (Some s)
                        /\ Forecast.prophet _ _ res = Some (Some p))
    /\ forall e, Forecast.ensemble _ _ res = Some (Some e) ->
         index (Forecast.Ensemble.simple_ensemble e) = index test
         /\ index (Forecast.Ensemble.weighted_ensemble e) = index test.
Proof.
  cbv zeta. intros Hidx Hlen _.
  pose proof (consecutive_split ts_data m0 Hidx Hlen) as Hmonths.
  cbv zeta in Hmonths.
  unfold Forecast.execute.
  set (train := firstn _ ts_data) in *. set (test := skipn _ ts_data) in *.
  fold sarima_run prophet_run.
  assert (Hdated : forall s,
            sarima_run train test forecast_horizon = Some s ->
            index (Forecast.Sarima.forecast s) = index test).
  { intros s Hs.
    apply sarima_run_inv in Hs as (adf_p & fitted & ms & _ & _ & _ & ->).
    cbn [Forecast.Sarima.forecast]. unfold forecast_of.
    rewrite sarimax_forecast_index. exact Hmonths. }
  destruct STATSMODELS_AVAILABLE, PROPHET_AVAILABLE.
  - destruct (sarima_run train test forecast_horizon) as [s|] eqn:Es;
      destruct (prophet_run train test forecast_horizon) as [p|] eqn:Ep.
    + pose proof (Hdated s eq_refl) as Hs_idx.
      apply sarima_run_inv in Es as (adf_p & fitted & ms & _ & _ & Hms & Es).
      apply prophet_run_inv in Ep as (model & mp & _ & Hpos & Hmp & Ep).
      assert (Hls : List.length (Forecast.Sarima.forecast s)
                    = List.length test).
      { rewrite Es. cbn [Forecast.Sarima.forecast].
        apply sarimax_forecast_length. }
      assert (Hti : List.length (index test) = List.length test)
        by (unfold index; now rewrite length_map).
      assert (Hlp : List.length (Forecast.Prophet.forecast p)
                    = List.length test).
      { rewrite Ep. cbn [Forecast.Prophet.forecast].
        apply error_metrics_ok_inv in Hmp as [Hl _].
        unfold values in Hl. rewrite length_map in Hl.
        rewrite length_combine, <- Hl, Hti. apply Nat.min_id. }
      destruct (ensemble_value np_sqrt SarimaxResults ProphetModel s p test
                  Hls Hlp Hpos) as (m1 & m2 & He & Hsimple & Hweighted).
      cbv zeta in He, Hsimple, Hweighted.
      rewrite He. cbn [Py.bind]. eexists. split; [reflexivity|].
      cbn [Forecast.sarima Forecast.prophet Forecast.ensemble].
      split; [split; discriminate|]. split; [split; discriminate|].
      split; [intros s' [= <-]; exact Hs_idx|].
      split; [split; [discriminate | intros [H | H]; discriminate]|].
      split.
      * split; intros _; [exists s, p; auto | eexists; reflexivity].
      * intros e [= <-].
        cbn [Forecast.Ensemble.simple_ensemble
             Forecast.Ensemble.weighted_ensemble].
        split; apply index_combine; congruence.
    + cbn [Forecast._create_ensemble_forecast Py.bind].
      eexists. split; [reflexivity|].
      cbn [Forecast.sarima Forecast.prophet Forecast.ensemble].
      split; [split; discriminate|]. split; [split; discriminate|].
      split; [intros s' [= <-]; exact (Hdated s eq_refl)|].
      split; [split; [discriminate | intros [H | H]; discriminate]|].
      split.
      * split; [intros [e H]; discriminate
               | intros (s' & p' & _ & H); discriminate].
      * intros e H. discriminate.
    + cbn [Forecast._create_ensemble_forecast Py.bind].
      eexists. split; [reflexivity|].
      cbn [Forecast.sarima Forecast.prophet Forecast.ensemble].
      split; [split; discriminate|]. split; [split; discriminate|].
      split; [intros s' H; discriminate|].
      split; [split; [discriminate | intros [H | H]; discriminate]|].
      split.
      * split; [intros [e H]; discriminate
               | intros (s' & p' & H & _); discriminate].
      * intros e H. discriminate.
    + cbn [Forecast._create_ensemble_forecast Py.bind].
      eexists. split; [reflexivity|].
      cbn [Forecast.sarima Forecast.prophet Forecast.ensemble].
      split; [split; discriminate|]. split; [split; discriminate|].
      split; [intros s' H; discriminate|].
      split; [split; [discriminate | intros [H | H]; discriminate]|].
      split.
      * split; [intros [e H]; discriminate
               | intros (s' & p' & H & _); discriminate].
      * intros e H. discriminate.
  - eexists. split; [reflexivity|].
    cbn [Forecast.sarima Forecast.prophet Forecast.ensemble].
    split; [split; discriminate|]. split; [split; reflexivity|].
    split; [intros s' [= Hs]; exact (Hdated s' Hs)|].
    split; [split; auto|].
    split.
    + split; [intros [e H]; discriminate
             | intros (s' & p' & _ & H); discriminate].
    + intros e H. discriminate.
  - eexists. split; [reflexivity|].
    cbn [Forecast.sarima Forecast.prophet Forecast.ensemble].
    split; [split; reflexivity|]. split; [split; discriminate|].
    split; [intros s' H; discriminate|].
    split; [split; auto|].
    split.
    + split; [intros [e H]; discriminate
             | intros (s' & p' & H & _); discriminate].
    + intros e H. discriminate.
  - eexists. split; [reflexivity|].
    cbn [Forecast.sarima Forecast.prophet Forecast.ensemble].
    split; [split; reflexivity|]. split; [split; reflexivity|].
    split; [intros s' H; discriminate|].
    split; [split; auto|].
    split.
    + split; [intros [e H]; discriminate
             | intros (s' & p' & H & _); discriminate].
    + intros e H. discriminate.
Qed.

End ModelRuns.

Section KeyedGroups.
Context {K : Type}.
Variables (eqb leb : K -> K -> bool).
Hypothesis eqb_eq : forall x y, eqb x y = true <-> x = y.
Hypothesis leb_total : forall x y, leb x y = true \/ leb y x = true.
Hypothesis leb_trans :
  forall x y z, leb x y = true -> leb y z = true -> leb x z = true.

Lemma eqb_neq (x y : K) : x <> y -> eqb x y = false.
Proof.
  clear leb leb_total leb_trans.
  intros H. destruct (eqb x y) eqn:E; [|reflexivity].
  apply eqb_eq in E. contradiction.
Qed.

Lemma Qsum_indicator_by (k0 : K) (c : Q) (ks : list K) :
  NoDup ks -> In k0 ks ->
  Qsum (map (fun k => if eqb k0 k then c else 0) ks) == c.
Proof.
  clear leb leb_total leb_trans.
  induction 1 as [|k ks Hnot Hnd IH]; [intros []|].
  intros [-> | Hin]; cbn [map Qsum].
  - rewrite (proj2 (eqb_eq k0 k0) eq_refl).
    rewrite (Qsum_map_ext _ (fun _ => 0)), Qsum_zeros; [lra|].
    intros k Hk. rewrite eqb_neq; [reflexivity|].
    intros ->. contradiction.
  - rewrite eqb_neq by (intros ->; contradiction).
    rewrite IH by assumption. lra.
Qed.

Lemma Qsum_by_keys {A : Type} (key : A -> K) (f : A -> Q) (ks : list K)
    (l : list A) :
  NoDup ks -> (forall x, In x l -> In (key x) ks) ->
  Qsum (map (fun g => Qsum (map f (filter (fun x => eqb (key x) g) l))) ks)
  == Qsum (map f l).
Proof.
  clear leb leb_total leb_trans.
  intros Hnd. induction l as [|a l IH]; intros Hcov.
  - cbn [filter map Qsum]. apply Qsum_zeros.
  - rewrite (Qsum_map_ext _
               (fun g => (if eqb (key a) g then f a else 0)
                         + Qsum (map f (filter (fun x => eqb (key x) g) l)))).
    + rewrite Qsum_map_plus, Qsum_indicator_by, IH; cbn [map Qsum];
        try lra; auto.
      * intros x Hx. apply Hcov. now right.
      * apply Hcov. now left.
    + intros g _. cbn [filter]. destruct (eqb (key a) g); cbn [map Qsum]; lra.
Qed.

(** The group sums of a [groupby] add up to the sum of the column. *)
Lemma groupby_sum_total {A : Type} (key : A -> K) (val : A -> Q)
    (l : list A) :
  Qsum (map snd (groupby_sum eqb leb key val l)) == Qsum (map val l).
Proof.
  clear leb_total leb_trans.
  unfold groupby_sum. rewrite map_map. cbn [snd].
  apply Qsum_by_keys.
  - now apply NoDup_group_keys.
  - intros x Hx. apply (In_group_keys eqb leb eqb_eq). now apply in_map.
Qed.

Lemma insert_key_sorted (k : K) (l : list K) :
  StronglySorted (fun a b => leb a b = true) l ->
  StronglySorted (fun a b => leb a b = true) (insert_key leb k l).
Proof.
  clear eqb eqb_eq.
  induction 1 as [|y l Hs IH Hy]; cbn [insert_key].
  - constructor; constructor.
  - destruct (leb k y) eqn:E.
    + constructor; [now constructor|].
      constructor; [assumption|].
      rewrite Forall_forall in *. intros z Hz.
      eapply leb_trans; eauto.
    + assert (Hyk : leb y k = true)
        by (destruct (leb_total k y); congruence).
      constructor; [assumption|].
      rewrite Forall_forall in *. intros z Hz.
      apply (Permutation_in _ (insert_key_Permutation leb k l)) in Hz.
      destruct Hz as [<- | Hz]; auto.
Qed.

Lemma group_keys_sorted (l : list K) :
  StronglySorted (fun a b => leb a b = true) (group_keys eqb leb l).
Proof.
  clear eqb_eq.
  unfold group_keys. induction (unique_by eqb l) as [|k u IH]; cbn [fold_right].
  - constructor.
  - now apply insert_key_sorted.
Qed.

Lemma sorted_distinct_strict (l : list K) :
  StronglySorted (fun a b => leb a b = true) l -> NoDup l ->
  StronglySorted (fun a b => leb a b = true /\ a <> b) l.
Proof.
  clear eqb eqb_eq leb_total leb_trans.
  induction 1 as [|x l Hs IH Hx]; intros Hnd; constructor.
  - apply IH. now inversion Hnd.
  - inversion Hnd as [|? ? Hnot _]; subst.
    rewrite Forall_forall in *. intros z Hz. split; [now apply Hx|].
    intros ->. contradiction.
Qed.

End KeyedGroups.

Section PeriodFacts.

Lemma period_eqb_eq (p q : Period) : period_eqb p q = true <-> p = q.
Proof.
  destruct p as [y m], q as [y' m']. unfold period_eqb. cbn [fst snd].
  rewrite andb_true_iff, !Z.eqb_eq. split.
  - intros [-> ->]. reflexivity.
  - intros [= -> ->]. auto.
Qed.

Lemma period_leb_iff (p q : Period) :
  period_leb p q = true
  <-> (fst p < fst q \/ (fst p = fst q /\ snd p <= snd q))%Z.
Proof.
  unfold period_leb.
  rewrite orb_true_iff, andb_true_iff, Z.ltb_lt, Z.eqb_eq, Z.leb_le.
  reflexivity.
Qed.

Lemma period_leb_total (p q : Period) :
  period_leb p q = true \/ period_leb q p = true.
Proof. rewrite !period_leb_iff. lia. Qed.

Lemma period_leb_trans (p q r : Period) :
  period_leb p q = true -> period_leb q r = true -> period_leb p r = true.
Proof. rewrite !period_leb_iff. lia. Qed.

(** X26.  The monthly series that the forecaster is run on has one entry
    per calendar month in which a selected transaction occurs (a month
    without transactions is absent, not zero), in strictly increasing order
    of month; the value of a month is the revenue of its transactions; and
    the values add up to the revenue of all selected transactions.  The
    selection is the whole table for no category or the empty string, and
    the transactions of the category otherwise. *)
Theorem monthly_series_partitions_revenue (df : list Txn.row)
    (category : option string) :
  let selected :=
    match category with
    | None => df
    | Some c =>
        if String.eqb c "" then df
        else filter (fun t => String.eqb (Txn.type t) c) df
    end in
  let ts := TimeSeries._prepare_time_series df category in
  StronglySorted (fun p q => period_leb p q = true /\ p <> q) (map fst ts)
  /\ (forall p, In p (map fst ts)
                <-> exists t, In t selected /\ to_period_M (Txn.date t) = p)
  /\ (forall p v, In (p, v) ts ->
        v = Qsum (map Txn.revenue
                    (filter (fun t => period_eqb (to_period_M (Txn.date t)) p)
                            selected)))
  /\ Qsum (map snd ts) == Qsum (map Txn.revenue selected).
Proof.
  cbv zeta. unfold TimeSeries._prepare_time_series.
  set (selected := match category with None => df | Some c => _ end).
  replace (match category with Some c => _ | None => df end) with selected
    by (unfold selected; destruct category; reflexivity).
  split; [|split; [|split]].
  - rewrite groupby_sum_keys. apply sorted_distinct_strict.
    + apply group_keys_sorted; [apply period_leb_total | apply period_leb_trans].
    + apply NoDup_group_keys, period_eqb_eq.
  - intros p. rewrite groupby_sum_keys.
    rewrite (In_group_keys period_eqb period_leb period_eqb_eq).
    rewrite in_map_iff. split; intros (t & H1 & H2); exists t; auto.
  - intros p v H. unfold groupby_sum in H. apply in_map_iff in H.
    destruct H as (k & [= <- <-] & _). reflexivity.
  - apply groupby_sum_total, period_eqb_eq.
Qed.

End PeriodFacts.

(* ================================================================== *)
(** * The further facts at the launch of N                             *)
(* ================================================================== *)

Section RegistryCases.
Import Scenario Cases.

Lemma sales_N_nonneg : forall t, In t sales_N -> 0 <= Txn.revenue t.
Proof.
  intros t Ht. cbv [sales_N In] in Ht.
  repeat (destruct Ht as [<- | Ht]; [vm_compute; discriminate|]).
  destruct Ht.
Defined.




Lemma top_launches_are_highest_witness :
  NewLaunch._calculate_launch_performance sales_N new_products_N
  = Ok scored_launches_N
  /\ (let top := NewLaunch._select_top_launches scored_launches_N 5 in
      StronglySorted
        (fun a b => Launch.performance_score b <= Launch.performance_score a)
        (rows scored_launches_N)
      /\ rows top = firstn 5 (rows scored_launches_N)
      /\ len top = Nat.min 5 (len scored_launches_N)
      /\ forall r r',
           In r (rows top) -> In r' (skipn 5 (rows scored_launches_N)) ->
           Launch.performance_score r' <= Launch.performance_score r).
Proof.
  assert (H : NewLaunch._calculate_launch_performance sales_N new_products_N
              = Ok scored_launches_N) by (vm_compute; reflexivity).
  split; [exact H|].
  exact (top_launches_are_highest sales_N new_products_N scored_launches_N 5 H).
Defined.

Lemma launch_score_bounds_witness :
  (forall t, In t sales_N -> 0 <= Txn.revenue t)
  /\ NewLaunch.performance_of sales_N product_N = Some scored_N
  /\ 0 <= Launch.total_revenue scored_N
  /\ 0 <= Launch.market_share_pct scored_N
  /\ Launch.market_share_pct scored_N <= 100
  /\ - (100) <= Launch.growth_rate_pct scored_N
  /\ 0 <= Launch.performance_score scored_N.
Proof.
  assert (H : NewLaunch.performance_of sales_N product_N = Some scored_N)
    by (vm_compute; reflexivity).
  split; [exact sales_N_nonneg|]. split; [exact H|].
  exact (launch_score_bounds sales_N sales_N_nonneg product_N scored_N H).
Defined.

Lemma new_launches_within_lookback_witness :
  has_column "launch_date" products_N = true
  /\ exists out,
       NewLaunch._identify_new_launches products_N sales_N 12 = Ok out
       /\ columns out = columns products_N
       /\ Permutation (rows out)
            (filter (fun p =>
                       ts_geb_opt (Product.launch_date p)
                         (option_map (fun t => DateOffset_months t (- 12))
                                     (ts_max (map Txn.date sales_N))))
                    (rows products_N))
       /\ StronglySorted
            (fun a b =>
               ts_geb (Product.launch_date a) (Product.launch_date b) = true)
            (rows out)
       /\ (sales_N = [] -> rows out = []).
Proof.
  assert (H : has_column "launch_date" products_N = true) by reflexivity.
  split; [exact H|].
  exact (new_launches_within_lookback products_N sales_N 12 H).
Defined.

Lemma cannibalization_targets_are_earlier_siblings_witness :
  In ("N", targets_N)
     (Py.items (NewLaunch._identify_cannibalization_targets products_N
                  scored_launches_N))
  /\ exists launch,
       In launch (rows scored_launches_N)
       /\ "N" = Launch.product_id launch
       /\ NewLaunch.new_product targets_N = Launch.product_name launch
       /\ NewLaunch.targets targets_N <> []
       /\ forall tg, In tg (NewLaunch.targets targets_N) ->
            exists p,
              In p (rows products_N)
              /\ NewLaunch.Target.product_id tg = Product.product_id p
              /\ NewLaunch.Target.launch_date tg = Product.launch_date p
              /\ Product.type p = Launch.type launch
              /\ Product.brand p = Launch.brand launch
              /\ ts_ltb (Product.launch_date p) (Launch.launch_date launch)
                 = true.
Proof.
  assert (H : In ("N", targets_N)
                 (Py.items (NewLaunch._identify_cannibalization_targets
                              products_N scored_launches_N)))
    by (vm_compute; left; reflexivity).
  split; [exact H|].
  exact (cannibalization_targets_are_earlier_siblings products_N
           scored_launches_N "N" targets_N H).
Defined.


End RegistryCases.

Section SovCases.
Import Scenario Cases.

Lemma N_is_analysed :
  In ("N", SOV.sov_of sales_N 6 launch_N)
     (Py.items (SOV._analyze_sov_by_launch sales_N launches_N 6)).
Proof. vm_compute. left. reflexivity. Defined.

Lemma cannibalized_total_matches_list_witness :
  In ("N", SOV.sov_of sales_N 6 launch_N)
     (Py.items (SOV._analyze_sov_by_launch sales_N launches_N 6))
  /\ SovRecord.cannibalized_revenue (SOV.sov_of sales_N 6 launch_N)
     == Qsum (map Cannibalized.revenue_loss
                (SovRecord.cannibalized_products
                   (SOV.sov_of sales_N 6 launch_N)))
  /\ NoDup (map Cannibalized.product_id
              (SovRecord.cannibalized_products (SOV.sov_of sales_N 6 launch_N)))
  /\ forall e,
       In e (SovRecord.cannibalized_products (SOV.sov_of sales_N 6 launch_N)) ->
       Cannibalized.product_id e <> "N".
Proof.
  split; [exact N_is_analysed|].
  exact (cannibalized_total_matches_list sales_N launches_N 6 "N"
           (SOV.sov_of sales_N 6 launch_N) N_is_analysed).
Defined.

Lemma breakdown_percentages_witness :
  In ("N", SOV.sov_of sales_N 6 launch_N)
     (Py.items (SOV._analyze_sov_by_launch sales_N launches_N 6))
  /\ (let b := SovRecord.sov_breakdown (SOV.sov_of sales_N 6 launch_N) in
      let total :=
        SovRecord.new_product_revenue (SOV.sov_of sales_N 6 launch_N) in
      (0 < total ->
         Breakdown.cannibalization_pct b
         = SovRecord.cannibalized_revenue (SOV.sov_of sales_N 6 launch_N)
           / total * 100
         /\ Breakdown.competitor_pct b
            = SovRecord.competitor_loss (SOV.sov_of sales_N 6 launch_N)
              / total * 100
         /\ Breakdown.expansion_pct b
            = SovRecord.market_expansion (SOV.sov_of sales_N 6 launch_N)
              / total * 100)
      /\ (total <= 0 ->
            Breakdown.cannibalization_pct b = 0
            /\ Breakdown.competitor_pct b = 0
            /\ Breakdown.expansion_pct b = 0)
      /\ 0 <= Breakdown.cannibalization_pct b
      /\ 0 <= Breakdown.competitor_pct b).
Proof.
  split; [exact N_is_analysed|].
  exact (breakdown_percentages sales_N launches_N 6 "N"
           (SOV.sov_of sales_N 6 launch_N) N_is_analysed).
Defined.

Lemma sov_execute_covers_every_launch_witness :
  rows launches_NM <> []
  /\ has_column "product_id" launches_NM = true
  /\ has_column "launch_date" launches_NM = true
  /\ has_column "type" launches_NM = true
  /\ has_column "brand" launches_NM = true
  /\ has_column "product_name" launches_NM = true
  /\ (let results := SOV.execute sales_NM launches_NM ttest_fixed 6 in
      let keys := map fst (SOV.sov_by_launch results) in
      SOV.sov_by_launch results
      = SOV._analyze_sov_by_launch sales_NM launches_NM 6
      /\ NoDup keys
      /\ (forall launch, In launch (rows launches_NM) ->
            exists sov_data,
              Py.get (Launch.product_id launch) (SOV.sov_by_launch results)
              = Some sov_data
              /\ SovRecord.new_product_id sov_data = Launch.product_id launch)
      /\ (forall k, In k keys ->
            exists launch, In launch (rows launches_NM)
                           /\ Launch.product_id launch = k)
      /\ map BreakdownRow.product_id (rows (SOV.sov_breakdown results)) = keys
      /\ map fst (SOV.significance_tests results) = keys).
Proof.
  assert (H1 : rows launches_NM <> []) by discriminate.
  assert (H2 : has_column "product_id" launches_NM = true) by reflexivity.
  assert (H3 : has_column "launch_date" launches_NM = true) by reflexivity.
  assert (H4 : has_column "type" launches_NM = true) by reflexivity.
  assert (H5 : has_column "brand" launches_NM = true) by reflexivity.
  assert (H6 : has_column "product_name" launches_NM = true) by reflexivity.
  split; [exact H1|]. split; [exact H2|]. split; [exact H3|].
  split; [exact H4|]. split; [exact H5|]. split; [exact H6|].
  exact (sov_execute_covers_every_launch sales_NM ttest_fixed launches_NM 6
           H1 H2 H3 H4 H5 H6).
Defined.

Lemma recorded_tests_match_cannibalized_products_witness :
  exists tests,
    In ("N", tests)
       (Py.items (SOV._perform_significance_tests sales_six ttest_fixed
                    (SOV._analyze_sov_by_launch sales_six launches_N 6)))
    /\ tests <> []
    /\ exists sov_data,
         let launch_date := SovRecord.launch_date sov_data in
         let pre_period := fun id =>
           SOV.monthly_revenue sales_six id
             (DateOffset_months launch_date (- 6)) launch_date in
         let post_period := fun id =>
           SOV.monthly_revenue sales_six id
             launch_date (DateOffset_months launch_date 6) in
         In ("N", sov_data)
            (Py.items (SOV._analyze_sov_by_launch sales_six launches_N 6))
         /\ map Test.target_product_id tests
            = map Cannibalized.product_id
                (filter (fun e =>
                           (1 <? List.length
                                   (pre_period (Cannibalized.product_id e)))%nat
                           && (1 <? List.length
                                      (post_period
                                         (Cannibalized.product_id e)))%nat)
                        (SovRecord.cannibalized_products sov_data))
         /\ NoDup (map Test.target_product_id tests)
         /\ forall t, In t tests ->
              (exists e,
                 In e (SovRecord.cannibalized_products sov_data)
                 /\ Test.target_product_id t = Cannibalized.product_id e
                 /\ Test.revenue_loss t = Cannibalized.revenue_loss e
                 /\ Test.pct_change t = Cannibalized.pct_change e)
              /\ (2 <= List.length (pre_period (Test.target_product_id t)))%nat
              /\ (2 <= List.length (post_period (Test.target_product_id t)))%nat
              /\ (Test.t_statistic t, Test.p_value t)
                 = ttest_fixed
                     (map snd (pre_period (Test.target_product_id t)))
                     (map snd (post_period (Test.target_product_id t)))
              /\ (Test.is_significant t = true <-> Test.p_value t < 5 # 100).
Proof.
  eexists. split; [vm_compute; left; reflexivity|].
  split; [discriminate|].
  apply (recorded_tests_match_cannibalized_products sales_six ttest_fixed
           launches_N 6 "N").
  vm_compute. left. reflexivity.
Defined.

End SovCases.

Section ImpactCases.
Import Scenario Cases.

Lemma portfolio_impact_returns_after_sov_witness :
  rows launches_NM <> []
  /\ has_column "product_id" launches_NM = true
  /\ has_column "launch_date" launches_NM = true
  /\ has_column "type" launches_NM = true
  /\ has_column "brand" launches_NM = true
  /\ has_column "product_name" launches_NM = true
  /\ exists res,
       PortfolioImpact.execute sales_NM launches_NM
         (SOV.execute sales_NM launches_NM ttest_fixed 6) 6
       = Ok res
       /\ len (PortfolioImpact.portfolio_impact res) = len launches_NM
       /\ Permutation
            (map Impact.product_id
                 (rows (PortfolioImpact.portfolio_impact res)))
            (map Launch.product_id (rows launches_NM))
       /\ StronglySorted
            (fun a b => Impact.net_impact b <= Impact.net_impact a)
            (rows (PortfolioImpact.portfolio_impact res))
       /\ map Classification.product_id
              (rows (PortfolioImpact.launch_classification res))
          = map Impact.product_id
                (rows (PortfolioImpact.portfolio_impact res)).
Proof.
  assert (H1 : rows launches_NM <> []) by discriminate.
  assert (H2 : has_column "product_id" launches_NM = true) by reflexivity.
  assert (H3 : has_column "launch_date" launches_NM = true) by reflexivity.
  assert (H4 : has_column "type" launches_NM = true) by reflexivity.
  assert (H5 : has_column "brand" launches_NM = true) by reflexivity.
  assert (H6 : has_column "product_name" launches_NM = true) by reflexivity.
  split; [exact H1|]. split; [exact H2|]. split; [exact H3|].
  split; [exact H4|]. split; [exact H5|]. split; [exact H6|].
  exact (portfolio_impact_returns_after_sov sales_NM ttest_fixed launches_NM
           6 6 H1 H2 H3 H4 H5 H6).
Defined.

Lemma impact_table_N :
  PortfolioImpact._calculate_portfolio_impact sales_N launches_N
    (SOV.execute sales_N launches_N ttest_fixed 6) 6
  = Ok (mkDF Impact.labels [impact_row_N]).
Proof. vm_compute. reflexivity. Defined.

Lemma portfolio_impact_bounded_by_new_revenue_witness :
  PortfolioImpact._calculate_portfolio_impact sales_N launches_N
    (SOV.execute sales_N launches_N ttest_fixed 6) 6
  = Ok (mkDF Impact.labels [impact_row_N])
  /\ In impact_row_N (rows (mkDF Impact.labels [impact_row_N]))
  /\ 0 <= Impact.lost_revenue impact_row_N
  /\ Impact.net_impact impact_row_N <= Impact.new_product_revenue impact_row_N
  /\ Impact.net_impact_pct impact_row_N <= 100
  /\ (Impact.roi impact_row_N = Roi.inf
      <-> Impact.lost_revenue impact_row_N == 0).
Proof.
  assert (Hr : In impact_row_N (rows (mkDF Impact.labels [impact_row_N])))
    by (simpl; left; reflexivity).
  split; [exact impact_table_N|]. split; [exact Hr|].
  exact (portfolio_impact_bounded_by_new_revenue sales_N ttest_fixed
           launches_N 6 6 (mkDF Impact.labels [impact_row_N]) impact_row_N
           impact_table_N Hr).
Defined.

Lemma rating_agrees_with_launch_type_witness :
  PortfolioImpact._calculate_portfolio_impact sales_N launches_N
    sov_results_N 6
  = Ok (mkDF Impact.labels [impact_row_N])
  /\ exists classification,
       PortfolioImpact._classify_launches (mkDF Impact.labels [impact_row_N])
       = Ok classification
       /\ map Classification.product_id (rows classification)
          = map Impact.product_id (rows (mkDF Impact.labels [impact_row_N]))
       /\ map Classification.launch_type (rows classification)
          = map Impact.launch_type (rows (mkDF Impact.labels [impact_row_N]))
       /\ forall c, In c (rows classification) ->
            (Classification.performance_rating c = "Excellent"
             <-> Classification.launch_type c = "Additive")
            /\ (Classification.performance_rating c = "Poor"
                <-> Classification.net_impact c < - (1000000 # 1))
            /\ (Classification.performance_rating c = "Moderate"
                <-> - (1000000 # 1) <= Classification.net_impact c
                    /\ Classification.net_impact c <= 0).
Proof.
  split; [exact impact_table_N|].
  exact (rating_agrees_with_launch_type sales_N launches_N sov_results_N 6
           (mkDF Impact.labels [impact_row_N]) impact_table_N).
Defined.

Lemma group_tables_partition_launches_witness :
  has_column "product_id" launches_NM = true
  /\ has_column "type" launches_NM = true
  /\ has_column "brand" launches_NM = true
  /\ rows launches_NM <> []
  /\ exists category_df brand_df,
       PortfolioImpact._calculate_category_impact launches_NM sov_results_NM
       = Ok category_df
       /\ PortfolioImpact._calculate_brand_impact launches_NM sov_results_NM
          = Ok brand_df
       /\ NoDup (map GroupImpact.group (rows category_df))
       /\ NoDup (map GroupImpact.group (rows brand_df))
       /\ (forall g, In g (map GroupImpact.group (rows category_df))
                     <-> In g (map Launch.type (rows launches_NM)))
       /\ (forall g, In g (map GroupImpact.group (rows brand_df))
                     <-> In g (map Launch.brand (rows launches_NM)))
       /\ list_sum (map GroupImpact.num_launches (rows category_df))
          = len launches_NM
       /\ list_sum (map GroupImpact.num_launches (rows brand_df))
          = len launches_NM
       /\ (forall row, In row (rows category_df) \/ In row (rows brand_df) ->
             (1 <= GroupImpact.num_launches row)%nat)
       /\ StronglySorted
            (fun a b => GroupImpact.net_impact b <= GroupImpact.net_impact a)
            (rows category_df)
       /\ StronglySorted
            (fun a b => GroupImpact.net_impact b <= GroupImpact.net_impact a)
            (rows brand_df).
Proof.
  assert (H0 : has_column "product_id" launches_NM = true) by reflexivity.
  assert (H1 : has_column "type" launches_NM = true) by reflexivity.
  assert (H2 : has_column "brand" launches_NM = true) by reflexivity.
  assert (H3 : rows launches_NM <> []) by discriminate.
  split; [exact H0|]. split; [exact H1|]. split; [exact H2|].
  split; [exact H3|].
  exact (group_tables_partition_launches launches_NM sov_results_NM
           H0 H1 H2 H3).
Defined.

Lemma aggregations_conserve_net_impact_witness :
  exists portfolio_impact category_df brand_df,
    PortfolioImpact._calculate_portfolio_impact sales_NM launches_NM
      sov_results_NM 6 = Ok portfolio_impact
    /\ PortfolioImpact._calculate_category_impact launches_NM sov_results_NM
       = Ok category_df
    /\ PortfolioImpact._calculate_brand_impact launches_NM sov_results_NM
       = Ok brand_df
    /\ Qsum (map GroupImpact.net_impact (rows category_df))
       == Qsum (map Impact.net_impact (rows portfolio_impact))
    /\ Qsum (map GroupImpact.net_impact (rows brand_df))
       == Qsum (map Impact.net_impact (rows portfolio_impact)).
Proof.
  eexists. eexists. eexists.
  split; [vm_compute; reflexivity|].
  split; [vm_compute; reflexivity|].
  split; [vm_compute; reflexivity|].
  apply (aggregations_conserve_net_impact sales_NM launches_NM sov_results_NM
           6); vm_compute; reflexivity.
Defined.

End ImpactCases.

Section Phase4Cases.
Import Scenario Cases.

Lemma phase4_returns_all_results_witness :
  exists r,
    Main.phase4 products_N sales_N ttest_fixed = Ok r
    /\ (let top := NewLaunch.top_launches (Main.new_launch_results r) in
        (1 <= len top)%nat /\ (len top <= 5)%nat
        /\ Main.sov_results r = Some (SOV.execute sales_N top ttest_fixed 6)
        /\ exists impact,
             Main.impact_results r = Some impact
             /\ len (PortfolioImpact.portfolio_impact impact) = len top).
Proof.
  eexists. split; [vm_compute; reflexivity|].
  apply (phase4_returns_all_results products_N sales_N ttest_fixed).
  vm_compute. reflexivity.
Defined.


End Phase4Cases.

Section ForecastCases.
Import Scenario Cases.

Lemma perfect_forecast_has_no_error_witness :
  [100; 110] <> []
  /\ (forall a, In a [100; 110] -> ~ a == 0)
  /\ exists m,
       Forecast.error_metrics (fun x => x) [100; 110] [100; 110] = Ok m
       /\ Metrics.mse m == 0 /\ Metrics.mae m == 0 /\ Metrics.mape m == 0.
Proof.
  assert (H1 : [100; 110] <> []) by discriminate.
  assert (H2 : forall a, In a [100; 110] -> ~ a == 0).
  { intros a [<- | [<- | []]]; vm_compute; discriminate. }
  split; [exact H1|]. split; [exact H2|].
  exact (perfect_forecast_has_no_error (fun x => x) [100; 110] H1 H2).
Defined.

Lemma ensemble_forecasts_lie_between_models_witness :
  0 < Metrics.mape (Forecast.Sarima.metrics sarima_r)
  /\ 0 < Metrics.mape (Forecast.Prophet.metrics prophet_r)
  /\ List.length (Forecast.Sarima.forecast sarima_r) = List.length test_r
  /\ List.length (Forecast.Prophet.forecast prophet_r) = List.length test_r
  /\ (0 < List.length test_r)%nat
  /\ exists e,
       Forecast._create_ensemble_forecast (fun x => x) unit unit
         (Some sarima_r) (Some prophet_r) test_r = Ok (Some e)
       /\ index (Forecast.Ensemble.simple_ensemble e) = index test_r
       /\ index (Forecast.Ensemble.weighted_ensemble e) = index test_r
       /\ forall i, (i < List.length test_r)%nat ->
            let s := nth i (values (Forecast.Sarima.forecast sarima_r)) 0 in
            let p := nth i (values (Forecast.Prophet.forecast prophet_r)) 0 in
            nth i (values (Forecast.Ensemble.simple_ensemble e)) 0
            = (s + p) / 2
            /\ Qmin s p
               <= nth i (values (Forecast.Ensemble.weighted_ensemble e)) 0
            /\ nth i (values (Forecast.Ensemble.weighted_ensemble e)) 0
               <= Qmax s p.
Proof.
  assert (H1 : 0 < Metrics.mape (Forecast.Sarima.metrics sarima_r))
    by reflexivity.
  assert (H2 : 0 < Metrics.mape (Forecast.Prophet.metrics prophet_r))
    by reflexivity.
  assert (H3 : List.length (Forecast.Sarima.forecast sarima_r)
               = List.length test_r) by reflexivity.
  assert (H4 : List.length (Forecast.Prophet.forecast prophet_r)
               = List.length test_r) by reflexivity.
  assert (H5 : (0 < List.length test_r)%nat) by (simpl; lia).
  split; [exact H1|]. split; [exact H2|]. split; [exact H3|].
  split; [exact H4|]. split; [exact H5|].
  exact (ensemble_forecasts_lie_between_models (fun x => x) unit unit
           sarima_r prophet_r test_r H1 H2 H3 H4 H5).
Defined.

Lemma lower_mape_gets_larger_weight_witness :
  0 <= 10 /\ 10 < 30
  /\ (let w1 := Forecast.inverse_mape_weight 10 in
      let w2 := Forecast.inverse_mape_weight 30 in
      w2 < w1 /\ 1 # 2 < w1 / (w1 + w2) /\ w2 / (w1 + w2) < 1 # 2).
Proof.
  assert (H1 : 0 <= 10) by (vm_compute; discriminate).
  assert (H2 : 10 < 30) by reflexivity.
  split; [exact H1|]. split; [exact H2|].
  exact (lower_mape_gets_larger_weight 10 30 H1 H2).
Defined.

Lemma sarima_result_shape_witness :
  let train := firstn 8 ten_months in
  let test := skipn 8 ten_months in
  exists s,
    Forecast._sarima_forecast (fun x => x) (fun _ => Ok (1 # 100)) Series
      fit_ok mean_after train test 12 = Some s
    /\ test <> []
    /\ index (Forecast.Sarima.forecast s)
       = seq (Forecast.next_month train) (List.length test)
    /\ index (Forecast.Sarima.future_forecast s)
       = seq (Forecast.next_month train) 12
    /\ ((List.length test <= 12)%nat ->
        firstn (List.length test) (Forecast.Sarima.future_forecast s)
        = Forecast.Sarima.forecast s)
    /\ ((12 <= List.length test)%nat ->
        firstn 12 (Forecast.Sarima.forecast s)
        = Forecast.Sarima.future_forecast s)
    /\ exists adf_p,
         (fun _ : list Q => Ok (1 # 100)) (values train) = Ok adf_p
         /\ (Forecast.Sarima.is_stationary s = true <-> adf_p < 5 # 100).
Proof.
  cbv zeta. eexists. split; [vm_compute; reflexivity|].
  apply (sarima_result_shape (fun x => x) (fun _ => Ok (1 # 100)) Series
           fit_ok mean_after (firstn 8 ten_months) (skipn 8 ten_months) 12).
  vm_compute. reflexivity.
Defined.

Lemma prophet_result_shape_witness :
  let train := firstn 8 ten_months in
  let test := skipn 8 ten_months in
  exists p,
    Forecast._prophet_forecast (fun x => x) Series fit_ok yhat_at
      train test 12 = Some p
    /\ (let months := seq (Forecast.next_month train) (List.length test) in
        let yhat :=
          fun ds => fst (fst (yhat_at (Forecast.Prophet.model p) ds)) in
        test <> []
        /\ fit_ok train = Ok (Forecast.Prophet.model p)
        /\ index (Forecast.Prophet.forecast p) = index test
        /\ values (Forecast.Prophet.forecast p) = map yhat months
        /\ Forecast.Prophet.confidence_lower p
           = map (fun ds => snd (fst (yhat_at (Forecast.Prophet.model p) ds)))
                 months
        /\ Forecast.Prophet.confidence_upper p
           = map (fun ds => snd (yhat_at (Forecast.Prophet.model p) ds)) months
        /\ ((0 < 12)%nat ->
            Forecast.Prophet.future_forecast p
            = map yhat (seq (Forecast.next_month train) 12))
        /\ (12%nat = 0%nat ->
            Forecast.Prophet.future_forecast p = map yhat (index train))).
Proof.
  cbv zeta. eexists. split; [vm_compute; reflexivity|].
  apply (prophet_result_shape (fun x => x) Series fit_ok yhat_at
           (firstn 8 ten_months) (skipn 8 ten_months) 12).
  vm_compute. reflexivity.
Defined.

Lemma error_metrics_vanish_only_when_exact_witness :
  List.length [100; 110] = List.length [90; 120]
  /\ [100; 110] <> []
  /\ (forall a, In a [100; 110] -> ~ a == 0)
  /\ (let exact_forecast :=
        forall i, (i < List.length [100; 110])%nat ->
                  nth i [90; 120] 0 == nth i [100; 110] 0 in
      exists m,
        Forecast.error_metrics (fun x => x) [100; 110] [90; 120] = Ok m
        /\ 0 <= Metrics.mse m /\ 0 <= Metrics.mae m /\ 0 <= Metrics.mape m
        /\ (Metrics.mse m == 0 <-> exact_forecast)
        /\ (Metrics.mae m == 0 <-> exact_forecast)
        /\ (Metrics.mape m == 0 <-> exact_forecast)).
Proof.
  assert (H1 : List.length [100; 110] = List.length [90; 120]) by reflexivity.
  assert (H2 : [100; 110] <> []) by discriminate.
  assert (H3 : forall a, In a [100; 110] -> ~ a == 0).
  { intros a [<- | [<- | []]]; vm_compute; discriminate. }
  split; [exact H1|]. split; [exact H2|]. split; [exact H3|].
  exact (error_metrics_vanish_only_when_exact (fun x => x) [100; 110] [90; 120]
           H1 H2 H3).
Defined.

Lemma forecast_run_returns_witness :
  let n := Forecast.train_size (List.length ten_months) in
  let train := firstn n ten_months in
  let test := skipn n ten_months in
  index ten_months = seq 0 (List.length ten_months)
  /\ (2 <= List.length ten_months)%nat
  /\ (forall v, In v (values test) -> ~ v == 0)
  /\ exists res,
       Forecast.execute (fun x => x) (fun _ => Ok (1 # 100)) Series fit_ok
         mean_after Series fit_ok yhat_at true true ten_months 12 = Ok res
       /\ (Forecast.sarima _ _ res = None <-> true = false)
       /\ (Forecast.prophet _ _ res = None <-> true = false)
       /\ (forall s, Forecast.sarima _ _ res = Some (Some s) ->
             index (Forecast.Sarima.forecast s) = index test)
       /\ (Forecast.ensemble _ _ res = None <-> true = false \/ true = false)
       /\ ((exists e, Forecast.ensemble _ _ res = Some (Some e))
           <-> exists s p, Forecast.sarima _ _ res = Some (Some s)
                           /\ Forecast.prophet _ _ res = Some (Some p))
       /\ forall e, Forecast.ensemble _ _ res = Some (Some e) ->
            index (Forecast.Ensemble.simple_ensemble e) = index test
            /\ index (Forecast.Ensemble.weighted_ensemble e) = index test.
Proof.
  cbv zeta.
  assert (H1 : index ten_months = seq 0 (List.length ten_months))
    by reflexivity.
  assert (H2 : (2 <= List.length ten_months)%nat) by (vm_compute; lia).
  assert (H3 : forall v,
             In v (values (skipn (Forecast.train_size (List.length ten_months))
                                 ten_months)) -> ~ v == 0).
  { intros v Hv. vm_compute in Hv.
    destruct Hv as [<- | [<- | []]]; vm_compute; discriminate. }
  split; [exact H1|]. split; [exact H2|]. split; [exact H3|].
  exact (forecast_run_returns (fun x => x) (fun _ => Ok (1 # 100)) Series
           fit_ok mean_after Series fit_ok yhat_at true true ten_months 12 0
           H1 H2 H3).
Defined.

End ForecastCases.
